(** * MetaTrader 5 simulator: trade simulation and settlement engine

    A shallow embedding of the engine of [main.py] (price model, per-trade
    tick, target detection with back-interpolation, account metrics and
    the persistence bridge) and the properties of its specification.

    Conventions of the embedding.

    - Python [float] values are idealised as exact rationals [Q]; equality
      of computed amounts is [Qeq] ([==]), assignments are Leibniz equal.
    - A Python exception is a [Raise] in the [result] monad; the only
      arithmetic exception of the engine is [ZeroDivisionError].
    - [np.random.normal] is a parameter: the function [normal n loc scale]
      is the [n]-th sample the generator hands out, and the account state
      counts the samples drawn so far ([rng_calls]).
    - Wall-clock time is a rational number of seconds, read once per tick.
    - The in-memory ledger [active_trades] is an insertion-ordered
      dictionary (association list); the durable store and the instrument
      table are finite maps keyed by trade id and symbol. *)

From Stdlib Require Import QArith Qminmax Qabs Lqa.
From stdpp Require Import gmap strings list fin_maps.

Open Scope Q_scope.

(** ** Numbers *)

(** Python's [a < b] on floats. *)
Definition Qltb (a b : Q) : bool := negb (Qle_bool b a).

(** Python's [max(a, b)]: the first argument unless the second is larger. *)
Definition py_max (a b : Q) : Q := if Qltb a b then b else a.

(** Python's [min(a, b)]: the first argument unless the second is smaller. *)
Definition py_min (a b : Q) : Q := if Qltb b a then b else a.

(** ** Exceptions *)

Inductive exn : Type :=
  | ZeroDivisionError
  | HTTPException (status_code : Z)
  | DatabaseError.

Inductive result (A : Type) : Type :=
  | Ok (a : A)
  | Raise (e : exn).

Arguments Ok {A} a.
Arguments Raise {A} e.

Definition rbind {A B : Type} (m : result A) (k : A -> result B) : result B :=
  match m with
  | Ok a => k a
  | Raise e => Raise e
  end.

Notation "'let*' x ':=' m 'in' k" := (rbind m (fun x => k))
  (at level 10, x name, m at level 100, k at level 200).

(** Python's [x / y] on floats. *)
Definition fdiv (x y : Q) : result Q :=
  if Qeq_bool y 0 then Raise ZeroDivisionError else Ok (x / y).

(** ** Strings *)

Definition startswith (s p : string) : bool := String.prefix p s.

Definition endswith (s p : string) : bool :=
  let n := String.length s in
  let m := String.length p in
  if (m <=? n)%nat then String.eqb (String.substring (n - m) m s) p else false.

(** ** Constants *)

Definition DEFAULT_ACCOUNT_BALANCE : Q := 10000.
Definition DEFAULT_LEVERAGE : Q := 100.
Definition SWAP_RATE_BUY : Q := - 0.0001.
Definition SWAP_RATE_SELL : Q := 0.00005.
Definition COMMISSION : Q := 0.0001.

(** ** Enumerations and records *)

Inductive TradeDirection : Type := BUY | SELL.
Inductive TradeStatus : Type := RUNNING | STOPPED | COMPLETED.
Inductive TargetType : Type := PROFIT | LOSS.

Definition TradeDirection_eqb (a b : TradeDirection) : bool :=
  match a, b with
  | BUY, BUY | SELL, SELL => true
  | _, _ => false
  end.

Definition TradeStatus_eqb (a b : TradeStatus) : bool :=
  match a, b with
  | RUNNING, RUNNING | STOPPED, STOPPED | COMPLETED, COMPLETED => true
  | _, _ => false
  end.

Definition TargetType_eqb (a b : TargetType) : bool :=
  match a, b with
  | PROFIT, PROFIT | LOSS, LOSS => true
  | _, _ => false
  end.

Record CurrencyPairConfig : Type := {
  cfg_symbol : string;
  buy_starting_price : Q;
  buy_lot_size : Q;
  default_target_profit : Q;
  default_target_loss : Q;
  sell_starting_price : Q;
  sell_lot_size : Q;
  volatility : Q;
  spread : Q;
  cfg_pip_value : Q;
  buy_enabled : bool;
  sell_enabled : bool;
  mean_reversion_strength : Q
}.

Record AccountMetrics : Type := {
  balance : Q;
  equity : Q;
  margin : Q;
  free_margin : Q;
  margin_level : Q;
  profit : Q;
  total_swap : Q;
  total_profit_loss : Q
}.

Record TradeData : Type := {
  trade_id : string;
  symbol : string;
  entry_price : Q;
  current_buy_price : Q;
  current_sell_price : Q;
  start_time : Q;
  end_time : option Q;
  status : TradeStatus;
  target_price : Q;
  target_type : TargetType;
  target_amount : Q;
  lot_size : Q;
  trade_direction : TradeDirection;
  profit_loss : Q;
  margin_used : Q;
  swap : Q;
  commission : Q;
  bias_factor : Q;
  closing_price : option Q
}.

(** ** PriceModel *)

Definition get_pip_value_for_symbol (symbol : string) : Q :=
  if endswith symbol "JPY" || endswith symbol "RUB" || endswith symbol "SEK"
  then 0.01
  else 0.0001.

(** [generate_mt5_price]; [normal] is this call's [np.random.normal]. *)
Definition generate_mt5_price (normal : Q -> Q -> Q)
    (previous_price volatility mean_price mean_reversion_strength
     target_price bias_factor : Q)
    (trade_direction : TradeDirection) (target_type : TargetType)
    (symbol : string) : result Q :=
  let pip_value := get_pip_value_for_symbol symbol in
  let* scale := fdiv 0.0001 pip_value in
  let normalized_volatility := volatility * scale in
  let change := normal 0 normalized_volatility in
  let* price_deviation := fdiv (mean_price - previous_price) previous_price in
  let reversion := mean_reversion_strength * price_deviation in
  let* change :=
    (if Qltb 0 bias_factor then
       let target_direction : Q :=
         if (TradeDirection_eqb trade_direction BUY
             && TargetType_eqb target_type PROFIT)
            || (TradeDirection_eqb trade_direction SELL
                && TargetType_eqb target_type LOSS)
         then 1 else - (1) in
       let price_diff := target_price - previous_price in
       let* bias := fdiv (bias_factor * price_diff) previous_price in
       let bias := py_max (py_min bias 0.001) (- 0.001) in
       Ok (change + target_direction * Qabs bias)
     else Ok change) in
  let new_price := previous_price * (1 + change + reversion) in
  let max_pips_per_tick : Q := 5 in
  let* max_price_change_pct := fdiv (max_pips_per_tick * pip_value) previous_price in
  let min_price := previous_price * (1 - max_price_change_pct) in
  let max_price := previous_price * (1 + max_price_change_pct) in
  let new_price := py_max min_price (py_min max_price new_price) in
  Ok (py_max pip_value new_price).

(** ** Attribute assignment on [TradeData] objects *)

Definition set_current_buy_price (t : TradeData) (v : Q) : TradeData :=
  {| trade_id := trade_id t; symbol := symbol t; entry_price := entry_price t;
     current_buy_price := v; current_sell_price := current_sell_price t;
     start_time := start_time t; end_time := end_time t; status := status t;
     target_price := target_price t; target_type := target_type t;
     target_amount := target_amount t; lot_size := lot_size t;
     trade_direction := trade_direction t; profit_loss := profit_loss t;
     margin_used := margin_used t; swap := swap t; commission := commission t;
     bias_factor := bias_factor t; closing_price := closing_price t |}.

Definition set_current_sell_price (t : TradeData) (v : Q) : TradeData :=
  {| trade_id := trade_id t; symbol := symbol t; entry_price := entry_price t;
     current_buy_price := current_buy_price t; current_sell_price := v;
     start_time := start_time t; end_time := end_time t; status := status t;
     target_price := target_price t; target_type := target_type t;
     target_amount := target_amount t; lot_size := lot_size t;
     trade_direction := trade_direction t; profit_loss := profit_loss t;
     margin_used := margin_used t; swap := swap t; commission := commission t;
     bias_factor := bias_factor t; closing_price := closing_price t |}.

Definition set_end_time (t : TradeData) (v : option Q) : TradeData :=
  {| trade_id := trade_id t; symbol := symbol t; entry_price := entry_price t;
     current_buy_price := current_buy_price t;
     current_sell_price := current_sell_price t;
     start_time := start_time t; end_time := v; status := status t;
     target_price := target_price t; target_type := target_type t;
     target_amount := target_amount t; lot_size := lot_size t;
     trade_direction := trade_direction t; profit_loss := profit_loss t;
     margin_used := margin_used t; swap := swap t; commission := commission t;
     bias_factor := bias_factor t; closing_price := closing_price t |}.

Definition set_status (t : TradeData) (v : TradeStatus) : TradeData :=
  {| trade_id := trade_id t; symbol := symbol t; entry_price := entry_price t;
     current_buy_price := current_buy_price t;
     current_sell_price := current_sell_price t;
     start_time := start_time t; end_time := end_time t; status := v;
     target_price := target_price t; target_type := target_type t;
     target_amount := target_amount t; lot_size := lot_size t;
     trade_direction := trade_direction t; profit_loss := profit_loss t;
     margin_used := margin_used t; swap := swap t; commission := commission t;
     bias_factor := bias_factor t; closing_price := closing_price t |}.

Definition set_profit_loss (t : TradeData) (v : Q) : TradeData :=
  {| trade_id := trade_id t; symbol := symbol t; entry_price := entry_price t;
     current_buy_price := current_buy_price t;
     current_sell_price := current_sell_price t;
     start_time := start_time t; end_time := end_time t; status := status t;
     target_price := target_price t; target_type := target_type t;
     target_amount := target_amount t; lot_size := lot_size t;
     trade_direction := trade_direction t; profit_loss := v;
     margin_used := margin_used t; swap := swap t; commission := commission t;
     bias_factor := bias_factor t; closing_price := closing_price t |}.

Definition set_margin_used (t : TradeData) (v : Q) : TradeData :=
  {| trade_id := trade_id t; symbol := symbol t; entry_price := entry_price t;
     current_buy_price := current_buy_price t;
     current_sell_price := current_sell_price t;
     start_time := start_time t; end_time := end_time t; status := status t;
     target_price := target_price t; target_type := target_type t;
     target_amount := target_amount t; lot_size := lot_size t;
     trade_direction := trade_direction t; profit_loss := profit_loss t;
     margin_used := v; swap := swap t; commission := commission t;
     bias_factor := bias_factor t; closing_price := closing_price t |}.

Definition set_swap (t : TradeData) (v : Q) : TradeData :=
  {| trade_id := trade_id t; symbol := symbol t; entry_price := entry_price t;
     current_buy_price := current_buy_price t;
     current_sell_price := current_sell_price t;
     start_time := start_time t; end_time := end_time t; status := status t;
     target_price := target_price t; target_type := target_type t;
     target_amount := target_amount t; lot_size := lot_size t;
     trade_direction := trade_direction t; profit_loss := profit_loss t;
     margin_used := margin_used t; swap := v; commission := commission t;
     bias_factor := bias_factor t; closing_price := closing_price t |}.

Definition set_closing_price (t : TradeData) (v : option Q) : TradeData :=
  {| trade_id := trade_id t; symbol := symbol t; entry_price := entry_price t;
     current_buy_price := current_buy_price t;
     current_sell_price := current_sell_price t;
     start_time := start_time t; end_time := end_time t; status := status t;
     target_price := target_price t; target_type := target_type t;
     target_amount := target_amount t; lot_size := lot_size t;
     trade_direction := trade_direction t; profit_loss := profit_loss t;
     margin_used := margin_used t; swap := swap t; commission := commission t;
     bias_factor := bias_factor t; closing_price := v |}.

(** ** TradeData.calculate_pnl *)

(** The method mutates [self.profit_loss] and returns it: the result is the
    mutated object, whose [profit_loss] is the returned value. *)
Definition calculate_pnl (self : TradeData) (current_price : Q)
    : result TradeData :=
  let price_diff :=
    if TradeDirection_eqb (trade_direction self) BUY
    then current_price - entry_price self
    else entry_price self - current_price in
  let self := set_profit_loss self (price_diff * lot_size self * 100000) in
  let* self :=
    (if startswith (symbol self) "USD" then
       let* q := fdiv (profit_loss self) current_price in
       Ok (set_profit_loss self q)
     else Ok self) in
  Ok (set_profit_loss self (profit_loss self - (commission self + swap self))).

(** The price the trade closes at: bid for BUY, ask for SELL. *)
Definition closing_side (trade : TradeData) : Q :=
  if TradeDirection_eqb (trade_direction trade) BUY
  then current_buy_price trade
  else current_sell_price trade.

(** ** SettlementEngine: one trade of one tick *)

(** Lines 498-530: price advance, carrying cost and P&L. *)
Definition advance_trade (normal : Q -> Q -> Q)
    (symbol_settings : CurrencyPairConfig) (now : Q) (trade : TradeData)
    : result TradeData :=
  let mean_price := buy_starting_price symbol_settings in
  let* new_buy_price :=
    generate_mt5_price normal (current_buy_price trade)
      (volatility symbol_settings) mean_price
      (mean_reversion_strength symbol_settings) (target_price trade)
      (bias_factor trade) (trade_direction trade) (target_type trade)
      (symbol trade) in
  let new_sell_price := new_buy_price + spread symbol_settings in
  let trade := set_current_buy_price trade new_buy_price in
  let trade := set_current_sell_price trade new_sell_price in
  let seconds_elapsed := now - start_time trade in
  let days_elapsed := seconds_elapsed / (24 * 3600) in
  let swap_rate :=
    if TradeDirection_eqb (trade_direction trade) BUY
    then SWAP_RATE_BUY else SWAP_RATE_SELL in
  let trade :=
    set_swap trade (swap_rate * lot_size trade * 100000 * days_elapsed) in
  let current_price :=
    if TradeDirection_eqb (trade_direction trade) BUY
    then new_buy_price else new_sell_price in
  calculate_pnl trade current_price.

(** The back-calculation of lines 546-562 (PROFIT) and 574-589 (LOSS); the
    two copies differ only in the signed amount, [target_amount] or
    [- target_amount]. *)
Definition back_calculate (trade : TradeData) (signed_amount spread : Q)
    : result TradeData :=
  if TradeDirection_eqb (trade_direction trade) BUY then
    let* target_price_diff :=
      (if startswith (symbol trade) "USD" then
         fdiv ((signed_amount + commission trade + swap trade)
               * entry_price trade)
              (lot_size trade * 100000)
       else
         fdiv (signed_amount + commission trade + swap trade)
              (lot_size trade * 100000)) in
    let trade :=
      set_current_buy_price trade (entry_price trade + target_price_diff) in
    Ok (set_current_sell_price trade (current_buy_price trade + spread))
  else
    let* target_price_diff :=
      (if startswith (symbol trade) "USD" then
         fdiv ((signed_amount + commission trade + swap trade)
               * entry_price trade)
              (lot_size trade * 100000)
       else
         fdiv (signed_amount + commission trade + swap trade)
              (lot_size trade * 100000)) in
    let trade :=
      set_current_sell_price trade (entry_price trade - target_price_diff) in
    Ok (set_current_buy_price trade (current_sell_price trade - spread)).

(** The crossing tests of lines 538 and 566. *)
Definition profit_crossed (previous_pnl : Q) (trade : TradeData) : bool :=
  Qltb previous_pnl (target_amount trade)
  && Qle_bool (target_amount trade) (profit_loss trade).

Definition loss_crossed (previous_pnl : Q) (trade : TradeData) : bool :=
  Qltb (- target_amount trade) previous_pnl
  && Qle_bool (profit_loss trade) (- target_amount trade).

(** Lines 533-589: target detection with interpolation. The second
    component is [reason] when [target_reached], [None] otherwise. *)
Definition detect_target (symbol_settings : CurrencyPairConfig)
    (previous_pnl : Q) (trade : TradeData)
    : result (TradeData * option string) :=
  match target_type trade with
  | PROFIT =>
      if profit_crossed previous_pnl trade then
        let trade := set_profit_loss trade (target_amount trade) in
        let* trade :=
          back_calculate trade (target_amount trade)
            (spread symbol_settings) in
        Ok (trade, Some "target_profit_reached"%string)
      else Ok (trade, None)
  | LOSS =>
      if loss_crossed previous_pnl trade then
        let trade := set_profit_loss trade (- target_amount trade) in
        let* trade :=
          back_calculate trade (- target_amount trade)
            (spread symbol_settings) in
        Ok (trade, Some "target_loss_reached"%string)
      else Ok (trade, None)
  end.

(** Lines 592-595 (and 466-469, 1567-1570): the transition out of RUNNING. *)
Definition close_trade_object (trade : TradeData) (new_status : TradeStatus)
    (now : Q) : TradeData :=
  let trade := set_status trade new_status in
  let trade := set_end_time trade (Some now) in
  set_closing_price trade (Some (closing_side trade)).

(** Lines 498-595 on the trade object: advance, detect, transition. *)
Definition simulate_trade (normal : Q -> Q -> Q)
    (symbol_settings : CurrencyPairConfig) (now : Q) (trade : TradeData)
    : result (TradeData * option string) :=
  let previous_pnl := profit_loss trade in
  let* trade := advance_trade normal symbol_settings now trade in
  let* detected := detect_target symbol_settings previous_pnl trade in
  match detected with
  | (trade, Some reason) =>
      Ok (close_trade_object trade COMPLETED now, Some reason)
  | (trade, None) => Ok (trade, None)
  end.

(** ** TradeLedger: an insertion-ordered dictionary *)

Section Dict.
Context {V : Type}.

(** [d.get(k)] *)
Fixpoint dict_get (k : string) (d : list (string * V)) : option V :=
  match d with
  | [] => None
  | (k', v) :: rest => if String.eqb k k' then Some v else dict_get k rest
  end.

(** [d[k] = v]: in place when the key is present, appended otherwise. *)
Fixpoint dict_set (k : string) (v : V) (d : list (string * V))
    : list (string * V) :=
  match d with
  | [] => [(k, v)]
  | (k', v') :: rest =>
      if String.eqb k k' then (k', v) :: rest
      else (k', v') :: dict_set k v rest
  end.

(** [if k in d: del d[k]] *)
Fixpoint dict_del (k : string) (d : list (string * V))
    : list (string * V) :=
  match d with
  | [] => []
  | (k', v') :: rest =>
      if String.eqb k k' then rest else (k', v') :: dict_del k rest
  end.
End Dict.

(** ** Accounts *)

(** One account: its ledger, instrument table, metrics record and durable
    store (the committed rows of table [trades], keyed by [trade_id]; the
    ledger keys every trade by its own [trade_id]), and the number of
    samples drawn from the random generator so far. *)
Record Account : Type := {
  active_trades : list (string * TradeData);
  currency_pair_settings : gmap string CurrencyPairConfig;
  account_metrics : AccountMetrics;
  database : gmap string TradeData;
  rng_calls : nat
}.

Definition set_active_trades (acc : Account)
    (v : list (string * TradeData)) : Account :=
  {| active_trades := v;
     currency_pair_settings := currency_pair_settings acc;
     account_metrics := account_metrics acc;
     database := database acc; rng_calls := rng_calls acc |}.

Definition set_account_metrics (acc : Account) (v : AccountMetrics)
    : Account :=
  {| active_trades := active_trades acc;
     currency_pair_settings := currency_pair_settings acc;
     account_metrics := v;
     database := database acc; rng_calls := rng_calls acc |}.

Definition set_database (acc : Account) (v : gmap string TradeData)
    : Account :=
  {| active_trades := active_trades acc;
     currency_pair_settings := currency_pair_settings acc;
     account_metrics := account_metrics acc;
     database := v; rng_calls := rng_calls acc |}.

Definition set_rng_calls (acc : Account) (v : nat) : Account :=
  {| active_trades := active_trades acc;
     currency_pair_settings := currency_pair_settings acc;
     account_metrics := account_metrics acc;
     database := database acc; rng_calls := v |}.

Definition set_balance (m : AccountMetrics) (v : Q) : AccountMetrics :=
  {| balance := v; equity := equity m; margin := margin m;
     free_margin := free_margin m; margin_level := margin_level m;
     profit := profit m; total_swap := total_swap m;
     total_profit_loss := total_profit_loss m |}.

(** A mutation of the trade object that the ledger holds under [trade_id]. *)
Definition store_trade (acc : Account) (trade_id : string)
    (trade : TradeData) : Account :=
  set_active_trades acc (dict_set trade_id trade (active_trades acc)).

(** [account_metrics.balance += amount] *)
Definition add_balance (acc : Account) (amount : Q) : Account :=
  set_account_metrics acc
    (set_balance (account_metrics acc)
       (balance (account_metrics acc) + amount)).

(** ** AccountMetrics: update_account_metrics *)

(** Lines 743-748: the margin a RUNNING trade requires, written to the
    trade object. *)
Definition assign_margin_used (trade : TradeData) : TradeData :=
  let contract_size : Q := 100000 in
  let price := closing_side trade in
  if startswith (symbol trade) "USD" then
    set_margin_used trade
      ((lot_size trade * contract_size) / DEFAULT_LEVERAGE)
  else
    set_margin_used trade
      ((lot_size trade * contract_size * price) / DEFAULT_LEVERAGE).

(** The loop of lines 741-751 over [active_trades.values()], threading the
    three running totals; it writes [margin_used] of each RUNNING trade. *)
Fixpoint accumulate_metrics (trades : list (string * TradeData))
    (total_margin total_pnl total_swap : Q)
    : list (string * TradeData) * (Q * Q * Q) :=
  match trades with
  | [] => ([], (total_margin, total_pnl, total_swap))
  | (tid, trade) :: rest =>
      if TradeStatus_eqb (status trade) RUNNING then
        let trade := assign_margin_used trade in
        let '(rest, totals) :=
          accumulate_metrics rest (total_margin + margin_used trade)
            (total_pnl + profit_loss trade) (total_swap + swap trade) in
        ((tid, trade) :: rest, totals)
      else
        let '(rest, totals) :=
          accumulate_metrics rest total_margin total_pnl total_swap in
        ((tid, trade) :: rest, totals)
  end.

Definition update_account_metrics (acc : Account) : Account :=
  let '(trades, (total_margin, total_pnl, total_swap)) :=
    accumulate_metrics (active_trades acc) 0 0 0 in
  let account_metrics := account_metrics acc in
  let margin' := total_margin in
  let equity' := balance account_metrics + total_pnl in
  let free_margin' := py_max 0 (equity' - margin') in
  let margin_level' :=
    if Qltb 0 margin' then equity' / margin' * 100 else 0 in
  set_account_metrics (set_active_trades acc trades)
    {| balance := balance account_metrics;
       equity := equity';
       margin := margin';
       free_margin := free_margin';
       margin_level := margin_level';
       profit := total_pnl;
       total_swap := total_swap;
       total_profit_loss := total_pnl |}.

(** The sum of [profit_loss] over the RUNNING trades of a ledger. *)
Fixpoint running_pnl (trades : list (string * TradeData)) : Q :=
  match trades with
  | [] => 0
  | (_, trade) :: rest =>
      if TradeStatus_eqb (status trade) RUNNING
      then profit_loss trade + running_pnl rest
      else running_pnl rest
  end.

(** ** Persistence Bridge *)

(** What the durable store does during one session: whether the lookup of a
    given trade id raises, whether [commit] raises, and whether [rollback]
    raises. *)
Record DbFaults : Type := {
  query_raises : string -> bool;
  commit_raises : bool;
  rollback_raises : bool
}.

Definition is_closed (trade : TradeData) : bool :=
  TradeStatus_eqb (status trade) COMPLETED
  || TradeStatus_eqb (status trade) STOPPED.

(** Lines 644-665: the upserts of one session. [session] is the
    uncommitted view of the table; an exception while processing a trade
    skips that trade. *)
Fixpoint upsert_closed (faults : DbFaults) (session : gmap string TradeData)
    (completed_trades : list (string * TradeData))
    (trades_to_remove : list string)
    : gmap string TradeData * list string :=
  match completed_trades with
  | [] => (session, trades_to_remove)
  | (tid, trade) :: rest =>
      if query_raises faults tid then
        upsert_closed faults session rest trades_to_remove
      else
        let session :=
          match session !! tid with
          | Some existing_trade =>
              if TradeStatus_eqb (status existing_trade) RUNNING
              then <[tid := trade]> session
              else session
          | None => <[tid := trade]> session
          end in
        upsert_closed faults session rest (trades_to_remove ++ [tid])
  end.

(** Lines 671-674: [for tid in trades_to_remove: if tid in active_trades:
    del active_trades[tid]]. *)
Definition remove_trades (active : list (string * TradeData))
    (trades_to_remove : list string) : list (string * TradeData) :=
  fold_left (fun d tid => dict_del tid d) trades_to_remove active.

(** Lines 688-691: the clean-up of the outer exception handler. *)
Definition cleanup_after_error (active : list (string * TradeData))
    (trades_to_remove : list string) : list (string * TradeData) :=
  fold_left
    (fun d tid =>
       match dict_get tid d with
       | Some trade => if is_closed trade then dict_del tid d else d
       | None => d
       end)
    trades_to_remove active.

(** [transfer_completed_trades_to_database]. Every exception is caught
    inside, so the function always returns. *)
Definition transfer_completed_trades_to_database (faults : DbFaults)
    (acc : Account) (trade_id : option string) : Account :=
  let active := active_trades acc in
  let completed_trades :=
    match trade_id with
    | Some tid =>
        match dict_get tid active with
        | Some trade => if is_closed trade then [(tid, trade)] else []
        | None => []
        end
    | None => List.filter (fun p => is_closed (snd p)) active
    end in
  match completed_trades with
  | [] => acc
  | _ :: _ =>
      let '(session, trades_to_remove) :=
        upsert_closed faults (database acc) completed_trades [] in
      if commit_raises faults then
        if rollback_raises faults then
          set_active_trades acc (cleanup_after_error active trades_to_remove)
        else acc
      else
        set_active_trades (set_database acc session)
          (remove_trades active trades_to_remove)
  end.

(** Lines 476-492: the write of the disabled-instrument path. An existing
    row gets every column of the in-memory trade ([setattr] for each key of
    [model_dump()]), whatever its status; otherwise the trade is inserted.
    Both leave the trade under its id. An exception here is not caught. *)
Definition save_stopped_trade (faults : DbFaults) (acc : Account)
    (trade_id : string) (trade : TradeData) : result Account :=
  if query_raises faults trade_id then Raise DatabaseError
  else
    let session :=
      match database acc !! trade_id with
      | Some existing_trade => <[trade_id := trade]> (database acc)
      | None => <[trade_id := trade]> (database acc)
      end in
    if commit_raises faults then Raise DatabaseError
    else Ok (set_database acc session).

(** ** SettlementEngine: the tick of one account *)

(** The test of line 465. *)
Definition instrument_disabled (symbol_settings : option CurrencyPairConfig)
    (trade : TradeData) : bool :=
  match symbol_settings with
  | None => true
  | Some s =>
      (TradeDirection_eqb (trade_direction trade) BUY && negb (buy_enabled s))
      || (TradeDirection_eqb (trade_direction trade) SELL
          && negb (sell_enabled s))
  end.

(** Lines 466-471: the in-memory part of the disabled-instrument path. *)
Definition stop_disabled_trade (acc : Account) (trade_id : string)
    (trade : TradeData) (now : Q) : Account :=
  let trade := close_trade_object trade STOPPED now in
  let acc := store_trade acc trade_id trade in
  let acc := add_balance acc (profit_loss trade) in
  update_account_metrics acc.

(** The body of the loop of line 460 for one entry of the snapshot
    [list(active_trades.items())]. The trade object is shared with the
    ledger, so it is read from, and written back to, the ledger under its
    id. [normal] numbers the samples of the generator; [faults] is the
    behaviour of the session opened for this trade, if one is. The metrics
    recompute leaves a STOPPED trade alone, so the object written by the
    disabled-instrument path is the one [close_trade_object] produced. *)
Definition tick_trade (normal : nat -> Q -> Q -> Q) (faults : DbFaults)
    (now : Q) (acc : Account) (trades_to_remove : list string)
    (trade_id : string) : result (Account * list string) :=
  match dict_get trade_id (active_trades acc) with
  | None => Ok (acc, trades_to_remove)
  | Some trade =>
      if negb (TradeStatus_eqb (status trade) RUNNING) then
        Ok (acc, trades_to_remove)
      else
        let symbol_settings := currency_pair_settings acc !! symbol trade in
        if instrument_disabled symbol_settings trade then
          let acc := stop_disabled_trade acc trade_id trade now in
          let* acc :=
            save_stopped_trade faults acc trade_id
              (close_trade_object trade STOPPED now) in
          Ok (acc, trades_to_remove ++ [trade_id])
        else
          match symbol_settings with
          | None => Ok (acc, trades_to_remove)
          | Some symbol_settings =>
              let* simulated :=
                simulate_trade (normal (rng_calls acc)) symbol_settings now
                  trade in
              let acc := set_rng_calls acc (S (rng_calls acc)) in
              match simulated with
              | (trade, Some reason) =>
                  let acc := store_trade acc trade_id trade in
                  let acc := add_balance acc (profit_loss trade) in
                  let acc :=
                    transfer_completed_trades_to_database faults acc
                      (Some trade_id) in
                  Ok (acc, trades_to_remove ++ [trade_id])
              | (trade, None) =>
                  Ok (store_trade acc trade_id trade, trades_to_remove)
              end
          end
  end.

Fixpoint tick_trades (normal : nat -> Q -> Q -> Q)
    (faults : string -> DbFaults) (now : Q) (acc : Account)
    (trades_to_remove : list string) (snapshot : list string)
    : result (Account * list string) :=
  match snapshot with
  | [] => Ok (acc, trades_to_remove)
  | trade_id :: rest =>
      let* st :=
        tick_trade normal (faults trade_id) now acc trades_to_remove
          trade_id in
      tick_trades normal faults now (fst st) (snd st) rest
  end.

(** One iteration of the loop of [account_simulate_trades]. [faults tid] is
    the behaviour of the session opened when trade [tid] closes. *)
Definition account_simulate_trades (normal : nat -> Q -> Q -> Q)
    (faults : string -> DbFaults) (now : Q) (acc : Account)
    : result Account :=
  let snapshot := map fst (active_trades acc) in
  let* st := tick_trades normal faults now acc [] snapshot in
  let acc := update_account_metrics (fst st) in
  Ok (set_active_trades acc (remove_trades (active_trades acc) (snd st))).

(** ** External interface: start_trade *)

Record StartTradeRequest : Type := {
  direction : TradeDirection;
  req_lot_size : option Q;
  req_target_type : option TargetType;
  req_target_amount : option Q;
  starting_buy_price : option Q
}.

(** Lines 1467-1474. *)
Definition start_target_price (symbol : string) (direction : TradeDirection)
    (entry_price trade_lot_size : Q) (target_type : TargetType)
    (target_amount : Q) : result Q :=
  let* price_diff :=
    (if startswith symbol "USD" then
       fdiv (target_amount * entry_price) (trade_lot_size * 100000)
     else fdiv target_amount (trade_lot_size * 100000)) in
  if TradeDirection_eqb direction BUY then
    Ok (if TargetType_eqb target_type PROFIT
        then entry_price + price_diff else entry_price - price_diff)
  else
    Ok (if TargetType_eqb target_type PROFIT
        then entry_price - price_diff else entry_price + price_diff).

(** [start_trade]. [new_trade_id] is the identifier that lines 1485-1500
    generate, [now] the time of the call. *)
Definition start_trade (acc : Account) (new_trade_id : string) (now : Q)
    (symbol : string) (request : StartTradeRequest) : result Account :=
  match currency_pair_settings acc !! symbol with
  | None => Raise (HTTPException 404)
  | Some symbol_settings =>
      let direction := direction request in
      if (TradeDirection_eqb direction BUY
          && negb (buy_enabled symbol_settings))
         || (TradeDirection_eqb direction SELL
             && negb (sell_enabled symbol_settings))
      then Raise (HTTPException 400)
      else
        let trade_lot_size :=
          match req_lot_size request with
          | Some l => l
          | None =>
              if TradeDirection_eqb direction BUY
              then buy_lot_size symbol_settings
              else sell_lot_size symbol_settings
          end in
        let '(entry_price, current_buy_price, current_sell_price) :=
          match starting_buy_price request, direction with
          | Some p, BUY => (p, p, p + spread symbol_settings)
          | _, _ =>
              (if TradeDirection_eqb direction BUY
               then sell_starting_price symbol_settings
               else buy_starting_price symbol_settings,
               buy_starting_price symbol_settings,
               sell_starting_price symbol_settings)
          end in
        let target_type :=
          match req_target_type request with
          | Some t => t
          | None =>
              if Qltb 0 (default_target_profit symbol_settings)
              then PROFIT else LOSS
          end in
        let target_amount :=
          match req_target_amount request with
          | Some a => a
          | None =>
              if TargetType_eqb target_type PROFIT
              then default_target_profit symbol_settings
              else default_target_loss symbol_settings
          end in
        if Qle_bool target_amount 0 then Raise (HTTPException 400)
        else
          let* target_price :=
            start_target_price symbol direction entry_price trade_lot_size
              target_type target_amount in
          let required_margin :=
            if startswith symbol "USD"
            then (trade_lot_size * 100000) / DEFAULT_LEVERAGE
            else (trade_lot_size * 100000 * entry_price) / DEFAULT_LEVERAGE in
          if Qltb (free_margin (account_metrics acc)) required_margin
          then Raise (HTTPException 400)
          else
            let trade_data :=
              {| trade_id := new_trade_id; symbol := symbol;
                 entry_price := entry_price;
                 current_buy_price := current_buy_price;
                 current_sell_price := current_sell_price;
                 start_time := now; end_time := None; status := RUNNING;
                 target_price := target_price; target_type := target_type;
                 target_amount := target_amount; lot_size := trade_lot_size;
                 trade_direction := direction; profit_loss := 0;
                 margin_used := 0; swap := 0;
                 commission := trade_lot_size * COMMISSION * 100000;
                 bias_factor := 0; closing_price := None |} in
            let acc := store_trade acc new_trade_id trade_data in
            Ok (update_account_metrics acc)
  end.

(** [close_trade] (lines 1557-1582): manual settlement at the current price. *)
Definition close_trade (faults : DbFaults) (now : Q) (acc : Account)
    (trade_id : string) : result Account :=
  match dict_get trade_id (active_trades acc) with
  | None => Raise (HTTPException 404)
  | Some trade =>
      if negb (TradeStatus_eqb (status trade) RUNNING)
      then Raise (HTTPException 400)
      else
        let trade := close_trade_object trade COMPLETED now in
        let acc := store_trade acc trade_id trade in
        let acc := add_balance acc (profit_loss trade) in
        let acc := update_account_metrics acc in
        let acc :=
          transfer_completed_trades_to_database faults acc (Some trade_id) in
        Ok (set_active_trades acc (dict_del trade_id (active_trades acc)))
  end.

(** ** Specification vocabulary *)

(** The attributes no step of the tick writes. *)
Definition same_contract (t t' : TradeData) : Prop :=
  trade_id t' = trade_id t /\ symbol t' = symbol t
  /\ entry_price t' = entry_price t /\ start_time t' = start_time t
  /\ target_price t' = target_price t /\ target_type t' = target_type t
  /\ target_amount t' = target_amount t /\ lot_size t' = lot_size t
  /\ trade_direction t' = trade_direction t
  /\ commission t' = commission t /\ bias_factor t' = bias_factor t
  /\ margin_used t' = margin_used t.

(** What the metrics recompute does to one trade object. *)
Definition refresh_margin (trade : TradeData) : TradeData :=
  if TradeStatus_eqb (status trade) RUNNING
  then assign_margin_used trade else trade.

(** The pnl a trade is clamped to when its target is crossed. *)
Definition signed_target (trade : TradeData) : Q :=
  match target_type trade with
  | PROFIT => target_amount trade
  | LOSS => - target_amount trade
  end.

(** The same trade with no commission and no swap. *)
Definition without_fees (t : TradeData) : TradeData :=
  {| trade_id := trade_id t; symbol := symbol t; entry_price := entry_price t;
     current_buy_price := current_buy_price t;
     current_sell_price := current_sell_price t;
     start_time := start_time t; end_time := end_time t; status := status t;
     target_price := target_price t; target_type := target_type t;
     target_amount := target_amount t; lot_size := lot_size t;
     trade_direction := trade_direction t; profit_loss := profit_loss t;
     margin_used := margin_used t; swap := 0; commission := 0;
     bias_factor := bias_factor t; closing_price := closing_price t |}.

(** The metrics invariant of the specification: free margin, equity and
    margin level, as functions of balance, margin and the RUNNING trades. *)
Definition metrics_invariant (acc : Account) : Prop :=
  let m := account_metrics acc in
  free_margin m == Qmax 0 (equity m - margin m)
  /\ equity m == balance m + running_pnl (active_trades acc)
  /\ (margin m > 0 -> margin_level m == equity m / margin m * 100)
  /\ (margin m == 0 -> margin_level m == 0).

(** The reading of the interface section: the target price that
    [start_trade] stores is the closing price that the back-calculation of
    the tick produces for that trade, with its commission and swap. *)
Definition start_trade_matches_back_solve (acc : Account)
    (new_trade_id : string) (now : Q) (symbol : string)
    (request : StartTradeRequest) : Prop :=
  forall (acc' : Account) (t : TradeData) (sp : Q),
    start_trade acc new_trade_id now symbol request = Ok acc' ->
    dict_get new_trade_id (active_trades acc') = Some t ->
    exists t' : TradeData,
      back_calculate t (signed_target t) sp = Ok t'
      /\ target_price t == closing_side t'.

(** A ledger is a dictionary: its keys are pairwise distinct. *)
Definition unique_keys (trades : list (string * TradeData)) : Prop :=
  NoDup (map fst trades).

(** [d'] is [d] with some entries deleted. *)
Definition sub_ledger (d' d : list (string * TradeData)) : Prop :=
  unique_keys d'
  /\ forall (k : string) (t : TradeData),
       dict_get k d' = Some t -> dict_get k d = Some t.

(** The state of the loop of the tick: every trade marked for removal is
    gone from the ledger or no longer RUNNING. *)
Definition closed_marked (d : list (string * TradeData))
    (trades_to_remove : list string) : Prop :=
  unique_keys d
  /\ forall (r : string) (t : TradeData),
       r ∈ trades_to_remove -> dict_get r d = Some t -> status t <> RUNNING.

(** The crossing condition of the specification, on the pnl of the previous
    tick and the pnl computed in this one. *)
Definition crossed (kind : TargetType) (target_amount prev_pnl new_pnl : Q)
    : Prop :=
  match kind with
  | PROFIT => prev_pnl < target_amount /\ target_amount <= new_pnl
  | LOSS => prev_pnl > - target_amount /\ - target_amount >= new_pnl
  end.

(** ** Scenario data *)

(** The default instrument table of lines 322-329 (three of its rows). *)
Definition EURUSD_settings : CurrencyPairConfig :=
  {| cfg_symbol := "EURUSD"; buy_starting_price := 1.1726;
     sell_starting_price := 1.1727; volatility := 0.00005;
     spread := 0.0002; buy_lot_size := 0.1; sell_lot_size := 0.1;
     default_target_profit := 100; default_target_loss := 50;
     cfg_pip_value := 0.0001; buy_enabled := true; sell_enabled := true;
     mean_reversion_strength := 0.05 |}.

Definition USDJPY_settings : CurrencyPairConfig :=
  {| cfg_symbol := "USDJPY"; buy_starting_price := 147.1960;
     sell_starting_price := 147.2060; volatility := 0.00005;
     spread := 0.02; buy_lot_size := 0.1; sell_lot_size := 0.1;
     default_target_profit := 1000; default_target_loss := 500;
     cfg_pip_value := 0.01; buy_enabled := true; sell_enabled := true;
     mean_reversion_strength := 0.0004 |}.

Definition USDCNH_settings : CurrencyPairConfig :=
  {| cfg_symbol := "USDCNH"; buy_starting_price := 7.1823;
     sell_starting_price := 7.1837; volatility := 0.00005;
     spread := 0.0020; buy_lot_size := 0.1; sell_lot_size := 0.1;
     default_target_profit := 500; default_target_loss := 250;
     cfg_pip_value := 0.0001; buy_enabled := true; sell_enabled := true;
     mean_reversion_strength := 0.05 |}.

Definition default_settings : gmap string CurrencyPairConfig :=
  <["EURUSD"%string := EURUSD_settings]>
    (<["USDJPY"%string := USDJPY_settings]>
       (<["USDCNH"%string := USDCNH_settings]> ∅)).

Definition default_metrics : AccountMetrics :=
  {| balance := DEFAULT_ACCOUNT_BALANCE; equity := DEFAULT_ACCOUNT_BALANCE;
     margin := 0; free_margin := DEFAULT_ACCOUNT_BALANCE; margin_level := 0;
     profit := 0; total_swap := 0; total_profit_loss := 0 |}.

Definition fresh_account : Account :=
  {| active_trades := []; currency_pair_settings := default_settings;
     account_metrics := default_metrics; database := ∅; rng_calls := 0 |}.

Definition default_request (d : TradeDirection) : StartTradeRequest :=
  {| direction := d; req_lot_size := None; req_target_type := None;
     req_target_amount := None; starting_buy_price := None |}.

(** A generator whose every sample is [z]. *)
Definition constant_draw (z : Q) : nat -> Q -> Q -> Q := fun _ _ _ => z.

(** A store without failures, and one whose commit fails. *)
Definition no_faults : DbFaults :=
  {| query_raises := fun _ => false; commit_raises := false;
     rollback_raises := false |}.

Definition commit_fails : DbFaults :=
  {| query_raises := fun _ => false; commit_raises := true;
     rollback_raises := false |}.

Definition commit_and_rollback_fail : DbFaults :=
  {| query_raises := fun _ => false; commit_raises := true;
     rollback_raises := true |}.

(** A USDCNH BUY trade as [start_trade] opens it with the default
    instrument and a requested PROFIT target of 1 (entry at the ask 7.1837,
    lot 0.1, commission 1), one tick before its target: at bid 7.1850 its
    pnl is still below 1. *)
Definition usdcnh_buy_near_target : TradeData :=
  {| trade_id := "0000000001"; symbol := "USDCNH"; entry_price := 7.1837;
     current_buy_price := 7.1850; current_sell_price := 7.1870;
     start_time := 0; end_time := None; status := RUNNING;
     target_price := 7.18441837; target_type := PROFIT; target_amount := 1;
     lot_size := 0.1; trade_direction := BUY; profit_loss := 0.8093;
     margin_used := 100; swap := 0; commission := 1; bias_factor := 0;
     closing_price := None |}.

(** A EURUSD SELL trade with a requested LOSS target of 5 (entry at the bid
    1.1726, lot 0.1, commission 1), one tick before its target. *)
Definition eurusd_sell_near_loss : TradeData :=
  {| trade_id := "0000000002"; symbol := "EURUSD"; entry_price := 1.1726;
     current_buy_price := 1.1727; current_sell_price := 1.1729;
     start_time := 0; end_time := None; status := RUNNING;
     target_price := 1.1731; target_type := LOSS; target_amount := 5;
     lot_size := 0.1; trade_direction := SELL; profit_loss := - 4;
     margin_used := 117.29; swap := 0; commission := 1; bias_factor := 0;
     closing_price := None |}.

(** The default table after EURUSD buying has been disabled. *)
Definition EURUSD_buy_disabled : CurrencyPairConfig :=
  {| cfg_symbol := "EURUSD"; buy_starting_price := 1.1726;
     sell_starting_price := 1.1727; volatility := 0.00005;
     spread := 0.0002; buy_lot_size := 0.1; sell_lot_size := 0.1;
     default_target_profit := 100; default_target_loss := 50;
     cfg_pip_value := 0.0001; buy_enabled := false; sell_enabled := true;
     mean_reversion_strength := 0.05 |}.

(** A running EURUSD BUY trade as [start_trade] opens it with the
    defaults, a few ticks old. *)
Definition eurusd_buy_running : TradeData :=
  {| trade_id := "0000000003"; symbol := "EURUSD"; entry_price := 1.1727;
     current_buy_price := 1.1729; current_sell_price := 1.1731;
     start_time := 0; end_time := None; status := RUNNING;
     target_price := 1.1827; target_type := PROFIT; target_amount := 100;
     lot_size := 0.1; trade_direction := BUY; profit_loss := 1;
     margin_used := 117.29; swap := 0; commission := 1; bias_factor := 0;
     closing_price := None |}.

(** The durable record of the same trade id after a manual edit: COMPLETED,
    with an edited closing price and pnl. *)
Definition edited_record : TradeData :=
  {| trade_id := "0000000003"; symbol := "EURUSD"; entry_price := 1.1727;
     current_buy_price := 1.1729; current_sell_price := 1.1731;
     start_time := 0; end_time := Some 5; status := COMPLETED;
     target_price := 1.1827; target_type := PROFIT; target_amount := 100;
     lot_size := 0.1; trade_direction := BUY; profit_loss := 42;
     margin_used := 117.29; swap := 0; commission := 1; bias_factor := 0;
     closing_price := Some 1.1770 |}.

(** An account whose only trade is [eurusd_buy_running], whose instrument
    has been disabled, and whose store holds [edited_record]. *)
Definition account_with_edited_record : Account :=
  {| active_trades := [("0000000003"%string, eurusd_buy_running)];
     currency_pair_settings :=
       <["EURUSD"%string := EURUSD_buy_disabled]> default_settings;
     account_metrics := default_metrics;
     database := <["0000000003"%string := edited_record]> ∅;
     rng_calls := 0 |}.

(** An account whose only trade is [eurusd_sell_near_loss], with an empty
    store. *)
Definition account_near_loss : Account :=
  {| active_trades := [("0000000002"%string, eurusd_sell_near_loss)];
     currency_pair_settings := default_settings;
     account_metrics := default_metrics;
     database := ∅;
     rng_calls := 0 |}.

(** * Further operations of the engine *)

From stdpp Require Import sorting.
Open Scope Q_scope.

(** ** Vocabulary of the price model *)

(** The last two steps of [generate_mt5_price] (lines 439-446): the
    5-pip clamp around the previous price, then the floor at one pip. *)
Definition clamp_price (previous_price pip_value new_price : Q) : Q :=
  let max_price_change_pct := 5 * pip_value / previous_price in
  py_max pip_value
    (py_max (previous_price * (1 - max_price_change_pct))
       (py_min (previous_price * (1 + max_price_change_pct)) new_price)).

(** The direction of lines 415-416: [+1] for BUY/PROFIT and SELL/LOSS. *)
Definition pushes_up (d : TradeDirection) (k : TargetType) : bool :=
  (TradeDirection_eqb d BUY && TargetType_eqb k PROFIT)
  || (TradeDirection_eqb d SELL && TargetType_eqb k LOSS).

(** ** Vocabulary of the tick *)

(** A trade the tick can advance without an arithmetic error, under a
    table that has its instrument, enabled for its direction and with a
    spread that is not negative. *)
Definition tradable (settings : gmap string CurrencyPairConfig)
    (t : TradeData) : Prop :=
  0 < current_buy_price t /\ ~ lot_size t == 0
  /\ exists s : CurrencyPairConfig,
       settings !! symbol t = Some s
       /\ instrument_disabled (Some s) t = false
       /\ 0 <= spread s.

(** Every RUNNING trade of the account is tradable. *)
Definition all_running_tradable (acc : Account) : Prop :=
  forall (k : string) (t : TradeData),
    (k, t) ∈ active_trades acc -> status t = RUNNING ->
    tradable (currency_pair_settings acc) t.

(** ** Vocabulary of the persistence bridge *)

(** The row found under an id after the status-aware upsert of [trade]
    (lines 651-659 and 718-726), given the row found before. *)
Definition guarded_upsert (stored : option TradeData) (trade : TradeData)
    : option TradeData :=
  match stored with
  | Some existing_trade =>
      if TradeStatus_eqb (status existing_trade) RUNNING
      then Some trade else Some existing_trade
  | None => Some trade
  end.

(** ** Persistence Bridge: the periodic snapshot *)

(** Lines 708-726: the upserts of the snapshot session over
    [active_trades.items()]. A lookup that raises aborts the session. *)
Fixpoint snapshot_running (faults : DbFaults)
    (session : gmap string TradeData) (trades : list (string * TradeData))
    : result (gmap string TradeData) :=
  match trades with
  | [] => Ok session
  | (trade_id, trade) :: rest =>
      if negb (TradeStatus_eqb (status trade) RUNNING) then
        snapshot_running faults session rest
      else if query_raises faults trade_id then Raise DatabaseError
      else
        let session :=
          match session !! trade_id with
          | Some existing_trade =>
              if TradeStatus_eqb (status existing_trade) RUNNING
              then <[trade_id := trade]> session
              else session
          | None => <[trade_id := trade]> session
          end in
        snapshot_running faults session rest
  end.

(** One iteration of the loop of [auto_save_trades_to_database] (lines
    698-731): the sweep of closed trades, then the snapshot of the RUNNING
    ones in a session of its own. Every exception is caught and logged, so
    the iteration always returns; a session that is not committed leaves
    the store as it was. *)
Definition auto_save_trades_to_database
    (transfer_faults snapshot_faults : DbFaults) (acc : Account) : Account :=
  let acc :=
    transfer_completed_trades_to_database transfer_faults acc None in
  match snapshot_running snapshot_faults (database acc) (active_trades acc)
  with
  | Ok session =>
      if commit_raises snapshot_faults then acc
      else set_database acc session
  | Raise _ => acc
  end.

(** ** More attribute assignments *)

Definition set_entry_price (t : TradeData) (v : Q) : TradeData :=
  {| trade_id := trade_id t; symbol := symbol t; entry_price := v;
     current_buy_price := current_buy_price t;
     current_sell_price := current_sell_price t;
     start_time := start_time t; end_time := end_time t; status := status t;
     target_price := target_price t; target_type := target_type t;
     target_amount := target_amount t; lot_size := lot_size t;
     trade_direction := trade_direction t; profit_loss := profit_loss t;
     margin_used := margin_used t; swap := swap t; commission := commission t;
     bias_factor := bias_factor t; closing_price := closing_price t |}.

Definition set_start_time (t : TradeData) (v : Q) : TradeData :=
  {| trade_id := trade_id t; symbol := symbol t; entry_price := entry_price t;
     current_buy_price := current_buy_price t;
     current_sell_price := current_sell_price t;
     start_time := v; end_time := end_time t; status := status t;
     target_price := target_price t; target_type := target_type t;
     target_amount := target_amount t; lot_size := lot_size t;
     trade_direction := trade_direction t; profit_loss := profit_loss t;
     margin_used := margin_used t; swap := swap t; commission := commission t;
     bias_factor := bias_factor t; closing_price := closing_price t |}.

Definition set_target_price (t : TradeData) (v : Q) : TradeData :=
  {| trade_id := trade_id t; symbol := symbol t; entry_price := entry_price t;
     current_buy_price := current_buy_price t;
     current_sell_price := current_sell_price t;
     start_time := start_time t; end_time := end_time t; status := status t;
     target_price := v; target_type := target_type t;
     target_amount := target_amount t; lot_size := lot_size t;
     trade_direction := trade_direction t; profit_loss := profit_loss t;
     margin_used := margin_used t; swap := swap t; commission := commission t;
     bias_factor := bias_factor t; closing_price := closing_price t |}.

Definition set_target_type (t : TradeData) (v : TargetType) : TradeData :=
  {| trade_id := trade_id t; symbol := symbol t; entry_price := entry_price t;
     current_buy_price := current_buy_price t;
     current_sell_price := current_sell_price t;
     start_time := start_time t; end_time := end_time t; status := status t;
     target_price := target_price t; target_type := v;
     target_amount := target_amount t; lot_size := lot_size t;
     trade_direction := trade_direction t; profit_loss := profit_loss t;
     margin_used := margin_used t; swap := swap t; commission := commission t;
     bias_factor := bias_factor t; closing_price := closing_price t |}.

Definition set_target_amount (t : TradeData) (v : Q) : TradeData :=
  {| trade_id := trade_id t; symbol := symbol t; entry_price := entry_price t;
     current_buy_price := current_buy_price t;
     current_sell_price := current_sell_price t;
     start_time := start_time t; end_time := end_time t; status := status t;
     target_price := target_price t; target_type := target_type t;
     target_amount := v; lot_size := lot_size t;
     trade_direction := trade_direction t; profit_loss := profit_loss t;
     margin_used := margin_used t; swap := swap t; commission := commission t;
     bias_factor := bias_factor t; closing_price := closing_price t |}.

Definition set_lot_size (t : TradeData) (v : Q) : TradeData :=
  {| trade_id := trade_id t; symbol := symbol t; entry_price := entry_price t;
     current_buy_price := current_buy_price t;
     current_sell_price := current_sell_price t;
     start_time := start_time t; end_time := end_time t; status := status t;
     target_price := target_price t; target_type := target_type t;
     target_amount := target_amount t; lot_size := v;
     trade_direction := trade_direction t; profit_loss := profit_loss t;
     margin_used := margin_used t; swap := swap t; commission := commission t;
     bias_factor := bias_factor t; closing_price := closing_price t |}.

Definition set_bias_factor (t : TradeData) (v : Q) : TradeData :=
  {| trade_id := trade_id t; symbol := symbol t; entry_price := entry_price t;
     current_buy_price := current_buy_price t;
     current_sell_price := current_sell_price t;
     start_time := start_time t; end_time := end_time t; status := status t;
     target_price := target_price t; target_type := target_type t;
     target_amount := target_amount t; lot_size := lot_size t;
     trade_direction := trade_direction t; profit_loss := profit_loss t;
     margin_used := margin_used t; swap := swap t; commission := commission t;
     bias_factor := v; closing_price := closing_price t |}.

(** ** External interface: the other operations on a running trade *)

Record UpdateTradeTargetRequest : Type := {
  upd_target_type : TargetType;
  upd_target_amount : Q
}.

(** [update_trade_target] (lines 1510-1538). *)
Definition update_trade_target (acc : Account) (trade_id : string)
    (request : UpdateTradeTargetRequest) : result Account :=
  match dict_get trade_id (active_trades acc) with
  | None => Raise (HTTPException 404)
  | Some trade =>
      if negb (TradeStatus_eqb (status trade) RUNNING)
      then Raise (HTTPException 400)
      else
        let target_amount := upd_target_amount request in
        let target_type := upd_target_type request in
        let* price_diff :=
          (if startswith (symbol trade) "USD" then
             fdiv (target_amount * entry_price trade)
                  (lot_size trade * 100000)
           else fdiv target_amount (lot_size trade * 100000)) in
        let target_price :=
          if TradeDirection_eqb (trade_direction trade) BUY then
            if TargetType_eqb target_type PROFIT
            then entry_price trade + price_diff
            else entry_price trade - price_diff
          else
            if TargetType_eqb target_type PROFIT
            then entry_price trade - price_diff
            else entry_price trade + price_diff in
        let trade := set_target_price trade target_price in
        let trade := set_target_type trade target_type in
        let trade := set_target_amount trade target_amount in
        Ok (update_account_metrics (store_trade acc trade_id trade))
  end.

(** [finish_trade] (lines 1540-1554): the bias of 0.05. *)
Definition finish_trade (acc : Account) (trade_id : string)
    : result Account :=
  match dict_get trade_id (active_trades acc) with
  | None => Raise (HTTPException 404)
  | Some trade =>
      if negb (TradeStatus_eqb (status trade) RUNNING)
      then Raise (HTTPException 400)
      else Ok (store_trade acc trade_id (set_bias_factor trade 0.05))
  end.

(** ** External interface: the account *)

(** [set_account_balance] (lines 1403-1411). *)
Definition set_account_balance (acc : Account) (new_balance : Q) : Account :=
  update_account_metrics
    (set_account_metrics acc (set_balance (account_metrics acc) new_balance)).

(** [deposit] (lines 1413-1422). *)
Definition deposit (acc : Account) : Account :=
  update_account_metrics (add_balance acc 300).

(** [AccountMetrics(balance=b, equity=b, free_margin=b)], the other fields
    at their defaults. *)
Definition fresh_metrics (b : Q) : AccountMetrics :=
  {| balance := b; equity := b; margin := 0; free_margin := b;
     margin_level := 0; profit := 0; total_swap := 0;
     total_profit_loss := 0 |}.

(** [reset_account] (lines 1584-1602): the in-memory reset, then the
    deletion of every stored row in one session. The in-memory reset has
    happened when the session raises, so the account is returned beside the
    outcome. *)
Definition reset_account (faults : DbFaults) (acc : Account)
    : Account * result unit :=
  let new_balance := DEFAULT_ACCOUNT_BALANCE in
  let acc := set_account_metrics acc (fresh_metrics new_balance) in
  let acc := set_active_trades acc [] in
  if commit_raises faults then (acc, Raise DatabaseError)
  else (set_database acc ∅, Ok tt).

(** [update_currency_pair] (lines 1389-1398). *)
Definition set_currency_pair_settings (acc : Account)
    (v : gmap string CurrencyPairConfig) : Account :=
  {| active_trades := active_trades acc; currency_pair_settings := v;
     account_metrics := account_metrics acc; database := database acc;
     rng_calls := rng_calls acc |}.

Definition update_currency_pair (acc : Account) (symbol : string)
    (settings : CurrencyPairConfig) : result Account :=
  match currency_pair_settings acc !! symbol with
  | None => Raise (HTTPException 404)
  | Some _ =>
      Ok (set_currency_pair_settings acc
            (<[symbol := settings]> (currency_pair_settings acc)))
  end.

(** ** External interface: the stored trades *)

(** [get_trade] (lines 1016-1029): the ledger first, then the store. *)
Definition get_trade (faults : DbFaults) (acc : Account) (trade_id : string)
    : result TradeData :=
  match dict_get trade_id (active_trades acc) with
  | Some trade => Ok trade
  | None =>
      if query_raises faults trade_id then Raise DatabaseError
      else
        match database acc !! trade_id with
        | Some trade => Ok trade
        | None => Raise (HTTPException 404)
        end
  end.

(** [delete_trade] (lines 1279-1302). *)
Definition delete_trade (faults : DbFaults) (acc : Account)
    (trade_id : string) : result Account :=
  match dict_get trade_id (active_trades acc) with
  | Some _ => Raise (HTTPException 400)
  | None =>
      if query_raises faults trade_id then Raise DatabaseError
      else
        match database acc !! trade_id with
        | None => Raise (HTTPException 404)
        | Some trade_db =>
            if commit_raises faults then Raise DatabaseError
            else Ok (set_database acc (delete trade_id (database acc)))
        end
  end.


(** [UpdateTradeRequest] (lines 1127-1137); the two times are the naive
    wall-clock values, which [replace(tzinfo=None)] keeps. *)
Record UpdateTradeRequest : Type := {
  upd_entry_price : option Q;
  upd_closing_price : option Q;
  upd_start_time : option Q;
  upd_end_time : option Q;
  upd_lot_size : option Q;
  upd_profit_loss : option Q;
  upd_status : option TradeStatus
}.

(** Lines 1155-1211: the assignments of [update_historical_trade] to the
    stored row, in the order of the source. *)
Definition historical_update_row (request : UpdateTradeRequest)
    (trade_db : TradeData) : TradeData :=
  let trade_db :=
    match upd_entry_price request with
    | Some v => if Qltb 0 v then set_entry_price trade_db v else trade_db
    | None => trade_db
    end in
  let trade_db :=
    match upd_closing_price request with
    | Some v =>
        if Qltb 0 v then set_closing_price trade_db (Some v) else trade_db
    | None => trade_db
    end in
  let trade_db :=
    match upd_start_time request with
    | Some v => set_start_time trade_db v
    | None => trade_db
    end in
  let trade_db :=
    match upd_end_time request with
    | Some v => set_end_time trade_db (Some v)
    | None =>
        match end_time trade_db with
        | None =>
            if is_closed trade_db
            then set_end_time trade_db (Some (start_time trade_db))
            else trade_db
        | Some _ => trade_db
        end
    end in
  let trade_db :=
    match upd_lot_size request with
    | Some v => if Qltb 0 v then set_lot_size trade_db v else trade_db
    | None => trade_db
    end in
  let trade_db :=
    match upd_status request with
    | Some v => set_status trade_db v
    | None =>
        if (bool_decide (end_time trade_db <> None)
            || bool_decide (closing_price trade_db <> None))
           && negb (TradeStatus_eqb (status trade_db) COMPLETED)
        then set_status trade_db COMPLETED
        else trade_db
    end in
  match upd_profit_loss request with
  | Some v => set_profit_loss trade_db v
  | None => trade_db
  end.

(** [update_historical_trade] (lines 1139-1228). *)
Definition update_historical_trade (faults : DbFaults) (acc : Account)
    (trade_id : string) (request : UpdateTradeRequest) : result Account :=
  match dict_get trade_id (active_trades acc) with
  | Some _ => Raise (HTTPException 400)
  | None =>
      if query_raises faults trade_id then Raise DatabaseError
      else
        match database acc !! trade_id with
        | None => Raise (HTTPException 404)
        | Some trade_db =>
            let trade_db := historical_update_row request trade_db in
            if commit_raises faults then Raise DatabaseError
            else
              Ok (set_database acc
                    (<[trade_id := trade_db]> (database acc)))
        end
  end.

(** Lines 1333-1366: the assignments of [bulk_update_trades] to one stored
    row, in the order of the source (profit_loss before status). *)
Definition bulk_update_row (updates : UpdateTradeRequest)
    (trade_db : TradeData) : TradeData :=
  let trade_db :=
    match upd_entry_price updates with
    | Some v => if Qltb 0 v then set_entry_price trade_db v else trade_db
    | None => trade_db
    end in
  let trade_db :=
    match upd_closing_price updates with
    | Some v =>
        if Qltb 0 v then set_closing_price trade_db (Some v) else trade_db
    | None => trade_db
    end in
  let trade_db :=
    match upd_start_time updates with
    | Some v => set_start_time trade_db v
    | None => trade_db
    end in
  let trade_db :=
    match upd_end_time updates with
    | Some v => set_end_time trade_db (Some v)
    | None =>
        match end_time trade_db with
        | None =>
            if is_closed trade_db
            then set_end_time trade_db (Some (start_time trade_db))
            else trade_db
        | Some _ => trade_db
        end
    end in
  let trade_db :=
    match upd_lot_size updates with
    | Some v => if Qltb 0 v then set_lot_size trade_db v else trade_db
    | None => trade_db
    end in
  let trade_db :=
    match upd_profit_loss updates with
    | Some v => set_profit_loss trade_db v
    | None => trade_db
    end in
  match upd_status updates with
  | Some v => set_status trade_db v
  | None =>
      if (bool_decide (end_time trade_db <> None)
          || bool_decide (closing_price trade_db <> None))
         && negb (TradeStatus_eqb (status trade_db) COMPLETED)
      then set_status trade_db COMPLETED
      else trade_db
  end.

(** Lines 1321-1371: the loop of [bulk_update_trades] over the items of the
    request, in one session; the ids of [results] and of [errors] are
    collected in order. A lookup that raises is caught per item. *)
Fixpoint bulk_update_items (faults : DbFaults)
    (active : list (string * TradeData)) (session : gmap string TradeData)
    (items : list (string * UpdateTradeRequest))
    (results errors : list string)
    : gmap string TradeData * list string * list string :=
  match items with
  | [] => (session, results, errors)
  | (tid, updates) :: rest =>
      match dict_get tid active with
      | Some _ =>
          bulk_update_items faults active session rest results
            (errors ++ [tid])
      | None =>
          if query_raises faults tid then
            bulk_update_items faults active session rest results
              (errors ++ [tid])
          else
            match session !! tid with
            | None =>
                bulk_update_items faults active session rest results
                  (errors ++ [tid])
            | Some trade_db =>
                bulk_update_items faults active
                  (<[tid := bulk_update_row updates trade_db]> session)
                  rest (results ++ [tid]) errors
            end
      end
  end.

(** [bulk_update_trades] (lines 1311-1377): the account after the commit,
    with the ids that succeeded and the ids that failed. *)
Definition bulk_update_trades (faults : DbFaults) (acc : Account)
    (items : list (string * UpdateTradeRequest))
    : result (Account * list string * list string) :=
  let '(session, results, errors) :=
    bulk_update_items faults (active_trades acc) (database acc) items [] [] in
  if commit_raises faults then Raise DatabaseError
  else Ok (set_database acc session, results, errors).

(** ** External interface: listing the ledger *)

(** The stable sort of [trades.sort(key=lambda t: t.start_time)]: among
    equal keys the order of the list is kept. *)
Fixpoint insert_by_start_time (t : TradeData) (sorted : list TradeData)
    : list TradeData :=
  match sorted with
  | [] => [t]
  | u :: rest =>
      if Qle_bool (start_time t) (start_time u) then t :: u :: rest
      else u :: insert_by_start_time t rest
  end.

Definition sort_by_start_time (trades : list TradeData) : list TradeData :=
  foldr insert_by_start_time [] trades.

(** Python's truth value of an optional string: [None] and the empty string
    are false. *)
Definition str_truthy (s : option string) : bool :=
  match s with
  | Some s => negb (String.eqb s EmptyString)
  | None => false
  end.

(** [list_active_trades] (lines 985-996). Every member of [TradeStatus] is
    a non-empty string, so a given status is true. *)
Definition list_active_trades (acc : Account)
    (status_filter : option TradeStatus) (symbol_filter : option string)
    : list TradeData :=
  let trades := map snd (active_trades acc) in
  let trades :=
    match status_filter with
    | Some st => List.filter (fun t => TradeStatus_eqb (status t) st) trades
    | None => trades
    end in
  let trades :=
    if str_truthy symbol_filter then
      List.filter
        (fun t => bool_decide (Some (symbol t) = symbol_filter)) trades
    else trades in
  sort_by_start_time trades.

(** ** Vocabulary of the further properties *)

(** The single-row updates of a list of items, one call of
    [update_historical_trade] after the other on the account the previous
    call left; a call that raises leaves the account as it was. The ids of
    the calls that returned and of the calls that raised are collected. *)
Fixpoint update_each (faults : DbFaults) (acc : Account)
    (items : list (string * UpdateTradeRequest))
    (results errors : list string) : Account * list string * list string :=
  match items with
  | [] => (acc, results, errors)
  | (tid, updates) :: rest =>
      match update_historical_trade faults acc tid updates with
      | Ok acc' => update_each faults acc' rest (results ++ [tid]) errors
      | Raise _ => update_each faults acc rest results (errors ++ [tid])
      end
  end.

(** The sums of [margin_used] and of [swap] over the RUNNING trades of a
    ledger. *)
Fixpoint running_margin (trades : list (string * TradeData)) : Q :=
  match trades with
  | [] => 0
  | (_, trade) :: rest =>
      if TradeStatus_eqb (status trade) RUNNING
      then margin_used trade + running_margin rest
      else running_margin rest
  end.

Fixpoint running_swap (trades : list (string * TradeData)) : Q :=
  match trades with
  | [] => 0
  | (_, trade) :: rest =>
      if TradeStatus_eqb (status trade) RUNNING
      then swap trade + running_swap rest
      else running_swap rest
  end.

(** The order of [list_active_trades]: oldest first. *)
Definition started_before (a b : TradeData) : Prop :=
  start_time a <= start_time b.

(** The filters of [list_active_trades] on one trade. *)
Definition listed (status_filter : option TradeStatus)
    (symbol_filter : option string) (t : TradeData) : bool :=
  match status_filter with
  | Some st => TradeStatus_eqb (status t) st
  | None => true
  end
  && match symbol_filter with
     | Some EmptyString | None => true
     | Some sym => String.eqb (symbol t) sym
     end.

(** ** Scenario data of the further properties *)

(** [eurusd_sell_near_loss] as the tick closes it at its LOSS target (draw
    0.00009 at time 0). *)
Definition eurusd_sell_closed : TradeData :=
  match
    simulate_trade (constant_draw 0.00009 0%nat) EURUSD_settings 0
      eurusd_sell_near_loss
  with
  | Ok (trade, _) => trade
  | Raise _ => eurusd_sell_near_loss
  end.

(** [eurusd_buy_running] as the disabled-instrument path stops it at
    time 10. *)
Definition stopped_record : TradeData :=
  close_trade_object eurusd_buy_running STOPPED 10.

(** An account whose ledger still holds the closed SELL trade beside the
    running BUY trade, with an empty store. *)
Definition account_mixed : Account :=
  {| active_trades :=
       [("0000000002"%string, eurusd_sell_closed);
        ("0000000003"%string, eurusd_buy_running)];
     currency_pair_settings := default_settings;
     account_metrics := default_metrics;
     database := ∅;
     rng_calls := 0 |}.

(** An account whose only trade is [eurusd_buy_running], with the default
    instrument table and an empty store. *)
Definition account_buy_running : Account :=
  {| active_trades := [("0000000003"%string, eurusd_buy_running)];
     currency_pair_settings := default_settings;
     account_metrics := default_metrics;
     database := ∅;
     rng_calls := 0 |}.

(** An account with an empty ledger whose store holds the closed SELL trade
    and the stopped BUY trade. *)
Definition account_with_history : Account :=
  {| active_trades := [];
     currency_pair_settings := default_settings;
     account_metrics := default_metrics;
     database :=
       <["0000000002"%string := eurusd_sell_closed]>
         (<["0000000003"%string := stopped_record]> ∅);
     rng_calls := 0 |}.

(** An update request that sets nothing, and one that edits the closing
    price. *)
Definition empty_update : UpdateTradeRequest :=
  {| upd_entry_price := None; upd_closing_price := None;
     upd_start_time := None; upd_end_time := None; upd_lot_size := None;
     upd_profit_loss := None; upd_status := None |}.

Definition closing_price_update : UpdateTradeRequest :=
  {| upd_entry_price := None; upd_closing_price := Some 1.1735;
     upd_start_time := None; upd_end_time := None; upd_lot_size := None;
     upd_profit_loss := None; upd_status := None |}.

(** A request for a PROFIT target of 20. *)
Definition profit_target_20 : UpdateTradeTargetRequest :=
  {| upd_target_type := PROFIT; upd_target_amount := 20 |}.

(** * Properties *)

(** ** Arithmetic of the embedding *)

Lemma Qltb_lt (a b : Q) : Qltb a b = true <-> a < b.
Proof.
  unfold Qltb. rewrite negb_true_iff, <- not_true_iff_false, Qle_bool_iff.
  split; [apply Qnot_le_lt | apply Qlt_not_le].
Qed.

Lemma Qltb_ge (a b : Q) : Qltb a b = false <-> b <= a.
Proof.
  unfold Qltb. rewrite negb_false_iff, Qle_bool_iff. reflexivity.
Qed.

Lemma py_max_spec (a b : Q) :
  (a < b /\ py_max a b = b) \/ (b <= a /\ py_max a b = a).
Proof.
  unfold py_max. destruct (Qltb a b) eqn:E.
  - left. split; [now apply Qltb_lt | reflexivity].
  - right. split; [now apply Qltb_ge | reflexivity].
Qed.

Lemma py_min_spec (a b : Q) :
  (b < a /\ py_min a b = b) \/ (a <= b /\ py_min a b = a).
Proof.
  unfold py_min. destruct (Qltb b a) eqn:E.
  - left. split; [now apply Qltb_lt | reflexivity].
  - right. split; [now apply Qltb_ge | reflexivity].
Qed.

Lemma fdiv_ok (x y : Q) : ~ y == 0 -> fdiv x y = Ok (x / y).
Proof.
  intros H. unfold fdiv. destruct (Qeq_bool y 0) eqn:E; [|reflexivity].
  apply Qeq_bool_iff in E. contradiction.
Qed.

Lemma pip_value_cases (s : string) :
  get_pip_value_for_symbol s = 0.01 \/ get_pip_value_for_symbol s = 0.0001.
Proof.
  unfold get_pip_value_for_symbol.
  destruct (endswith s "JPY" || endswith s "RUB" || endswith s "SEK"); auto.
Qed.

Lemma pip_value_pos (s : string) : 0 < get_pip_value_for_symbol s.
Proof. destruct (pip_value_cases s) as [-> | ->]; reflexivity. Qed.

Lemma clamp_bounds (prev pip m x : Q) :
  0 < prev -> 0 < pip -> m == 5 * pip / prev ->
  let p := py_max pip (py_max (prev * (1 - m)) (py_min (prev * (1 + m)) x)) in
  prev * (1 - m) <= p /\ p <= prev * (1 + m) /\ pip <= p
  /\ Qabs (p - prev) <= 5 * pip.
Proof.
  intros Hprev Hpip Hm p.
  assert (Hlo : prev * (1 - m) == prev - 5 * pip) by (rewrite Hm; field; lra).
  assert (Hhi : prev * (1 + m) == prev + 5 * pip) by (rewrite Hm; field; lra).
  subst p.
  destruct (py_min_spec (prev * (1 + m)) x) as [[H1 ->] | [H1 ->]];
  match goal with |- context [py_max (prev * (1 - m)) ?y] =>
    destruct (py_max_spec (prev * (1 - m)) y) as [[H2 ->] | [H2 ->]] end;
  match goal with |- context [py_max pip ?y] =>
    destruct (py_max_spec pip y) as [[H3 ->] | [H3 ->]] end;
  (repeat split; try apply Qabs_case; intros; lra).
Qed.

(** ** PriceModel *)

(** The price model returns whenever the previous price is positive. *)
Lemma generate_mt5_price_returns (normal : Q -> Q -> Q)
    (prev vol mean mrs tp bf : Q) (dir : TradeDirection) (tt : TargetType)
    (sym : string) :
  0 < prev ->
  exists x : Q,
    generate_mt5_price normal prev vol mean mrs tp bf dir tt sym
    = Ok (let pip := get_pip_value_for_symbol sym in
          let m := 5 * pip / prev in
          py_max pip
            (py_max (prev * (1 - m)) (py_min (prev * (1 + m)) x))).
Proof.
  intros Hprev. unfold generate_mt5_price.
  assert (Hp : ~ prev == 0) by lra.
  assert (Hpip : ~ get_pip_value_for_symbol sym == 0)
    by (pose proof (pip_value_pos sym); lra).
  rewrite (fdiv_ok _ _ Hpip). cbn [rbind].
  rewrite !(fdiv_ok _ _ Hp). cbn [rbind].
  destruct (Qltb 0 bf); cbn [rbind]; eexists; reflexivity.
Qed.

(** C9. For every previous price [prev > 0] and every random draw, the
    price model returns a price within
    [prev*(1 - 5*pip/prev), prev*(1 + 5*pip/prev)], hence at most 5 pips
    away from [prev], and at least [pip]; [pip] is 0.01 for symbols that
    end in JPY, RUB or SEK and 0.0001 otherwise. *)
Theorem generate_mt5_price_bounds (normal : Q -> Q -> Q)
    (prev vol mean mrs tp bf : Q) (dir : TradeDirection) (tt : TargetType)
    (sym : string) :
  0 < prev ->
  let pip := get_pip_value_for_symbol sym in
  (pip = if endswith sym "JPY" || endswith sym "RUB" || endswith sym "SEK"
         then 0.01 else 0.0001)
  /\ exists p : Q,
       generate_mt5_price normal prev vol mean mrs tp bf dir tt sym = Ok p
       /\ prev * (1 - 5 * pip / prev) <= p
       /\ p <= prev * (1 + 5 * pip / prev)
       /\ Qabs (p - prev) <= 5 * pip
       /\ pip <= p
       /\ 0 < p.
Proof.
  intros Hprev pip. split; [reflexivity|].
  destruct (generate_mt5_price_returns normal prev vol mean mrs tp bf dir tt
              sym Hprev) as [x Hx].
  eexists. split; [exact Hx|].
  pose proof (pip_value_pos sym) as Hpip. fold pip in Hpip.
  destruct (clamp_bounds prev pip (5 * pip / prev) x Hprev Hpip
              ltac:(reflexivity)) as (H1 & H2 & H3 & H4).
  cbv zeta. fold pip. repeat split; try assumption. lra.
Qed.

(** C10. With [bias_factor == 0] the returned price does not depend on
    [target_price], [trade_direction] or [target_type]: two calls that agree
    on the previous price, volatility, mean price, mean-reversion strength,
    symbol and random draw return the same price. *)
Theorem generate_mt5_price_unbiased_noninterference (normal : Q -> Q -> Q)
    (prev vol mean mrs : Q) (sym : string)
    (tp1 tp2 bf1 bf2 : Q) (dir1 dir2 : TradeDirection)
    (tt1 tt2 : TargetType) :
  bf1 == 0 -> bf2 == 0 ->
  generate_mt5_price normal prev vol mean mrs tp1 bf1 dir1 tt1 sym
  = generate_mt5_price normal prev vol mean mrs tp2 bf2 dir2 tt2 sym.
Proof.
  intros H1 H2. unfold generate_mt5_price.
  assert (E1 : Qltb 0 bf1 = false) by (apply Qltb_ge; lra).
  assert (E2 : Qltb 0 bf2 = false) by (apply Qltb_ge; lra).
  rewrite E1, E2. reflexivity.
Qed.

(** ** Inversion of the exception monad *)

Lemma rbind_ok {A B : Type} (m : result A) (k : A -> result B) (b : B) :
  rbind m k = Ok b -> exists a : A, m = Ok a /\ k a = Ok b.
Proof. destruct m as [a | e]; cbn; [eauto | discriminate]. Qed.

Ltac invert_ok :=
  repeat match goal with
  | H : rbind _ _ = Ok _ |- _ =>
      let a := fresh "a" in
      let Ha := fresh "Ha" in
      apply rbind_ok in H; destruct H as (a & Ha & H)
  | H : Ok _ = Ok _ |- _ => injection H as H
  | H : Raise _ = Ok _ |- _ => discriminate H
  | H : (if ?c then _ else _) = Ok _ |- _ => destruct c eqn:?
  end.

(** ** Frame of the per-trade steps *)

Lemma calculate_pnl_frame (self self' : TradeData) (p : Q) :
  calculate_pnl self p = Ok self' ->
  same_contract self self' /\ status self' = status self
  /\ swap self' = swap self
  /\ current_buy_price self' = current_buy_price self
  /\ current_sell_price self' = current_sell_price self
  /\ end_time self' = end_time self
  /\ closing_price self' = closing_price self.
Proof.
  unfold calculate_pnl. intros H. invert_ok; subst;
    unfold same_contract; cbn; tauto.
Qed.

Lemma advance_trade_frame (normal : Q -> Q -> Q) (s : CurrencyPairConfig)
    (now : Q) (t t1 : TradeData) :
  advance_trade normal s now t = Ok t1 ->
  same_contract t t1 /\ status t1 = status t
  /\ end_time t1 = end_time t /\ closing_price t1 = closing_price t.
Proof.
  unfold advance_trade. intros H. invert_ok.
  apply calculate_pnl_frame in H.
  destruct H as (Hc & Hs & _ & _ & _ & He & Hcl).
  unfold same_contract in *; cbn in *. tauto.
Qed.

Lemma back_calculate_frame (t t' : TradeData) (a s : Q) :
  back_calculate t a s = Ok t' ->
  same_contract t t' /\ status t' = status t
  /\ profit_loss t' = profit_loss t /\ swap t' = swap t
  /\ end_time t' = end_time t /\ closing_price t' = closing_price t.
Proof.
  unfold back_calculate. intros H.
  destruct (TradeDirection_eqb (trade_direction t) BUY);
    invert_ok; subst; unfold same_contract; cbn; tauto.
Qed.

Lemma close_trade_object_frame (t : TradeData) (st : TradeStatus) (now : Q) :
  same_contract t (close_trade_object t st now)
  /\ status (close_trade_object t st now) = st
  /\ profit_loss (close_trade_object t st now) = profit_loss t
  /\ swap (close_trade_object t st now) = swap t
  /\ current_buy_price (close_trade_object t st now) = current_buy_price t
  /\ current_sell_price (close_trade_object t st now) = current_sell_price t
  /\ end_time (close_trade_object t st now) = Some now
  /\ closing_price (close_trade_object t st now) = Some (closing_side t).
Proof. unfold same_contract, close_trade_object, closing_side; cbn; tauto. Qed.

Lemma detect_target_frame (s : CurrencyPairConfig) (prev : Q)
    (t t' : TradeData) (r : option string) :
  detect_target s prev t = Ok (t', r) ->
  same_contract t t' /\ status t' = status t.
Proof.
  unfold detect_target. intros H.
  destruct (target_type t); invert_ok;
    try (match goal with
         | Hb : back_calculate _ _ _ = Ok _ |- _ =>
             apply back_calculate_frame in Hb
         end);
    subst; unfold same_contract in *; cbn in *; tauto.
Qed.

(** ** The per-trade steps return *)

Lemma generate_mt5_price_positive (normal : Q -> Q -> Q)
    (prev vol mean mrs tp bf : Q) (dir : TradeDirection) (tt : TargetType)
    (sym : string) :
  0 < prev ->
  exists p : Q,
    generate_mt5_price normal prev vol mean mrs tp bf dir tt sym = Ok p
    /\ 0 < p.
Proof.
  intros Hprev.
  destruct (generate_mt5_price_returns normal prev vol mean mrs tp bf dir tt
              sym Hprev) as [x Hx].
  eexists. split; [exact Hx|]. cbv zeta.
  pose proof (pip_value_pos sym) as Hpip.
  match goal with |- 0 < py_max ?a ?b =>
    destruct (py_max_spec a b) as [[H ->] | [H ->]] end; lra.
Qed.

Lemma calculate_pnl_returns (self : TradeData) (p : Q) :
  ~ p == 0 -> exists self' : TradeData, calculate_pnl self p = Ok self'.
Proof.
  intros Hp. unfold calculate_pnl. cbn [symbol set_profit_loss].
  destruct (startswith (symbol self) "USD"); cbn [rbind].
  - rewrite (fdiv_ok _ _ Hp). cbn [rbind]. eauto.
  - eauto.
Qed.

Lemma advance_trade_returns (normal : Q -> Q -> Q) (s : CurrencyPairConfig)
    (now : Q) (t : TradeData) :
  0 < current_buy_price t -> 0 <= spread s ->
  exists t1 : TradeData, advance_trade normal s now t = Ok t1.
Proof.
  intros Hbid Hspread. unfold advance_trade.
  destruct (generate_mt5_price_positive normal (current_buy_price t)
              (volatility s) (buy_starting_price s)
              (mean_reversion_strength s) (target_price t) (bias_factor t)
              (trade_direction t) (target_type t) (symbol t) Hbid)
    as (p & -> & Hp).
  cbn [rbind]. apply calculate_pnl_returns.
  destruct (TradeDirection_eqb _ BUY); cbn; lra.
Qed.

Lemma back_calculate_returns (t : TradeData) (a s : Q) :
  ~ lot_size t == 0 -> exists t' : TradeData, back_calculate t a s = Ok t'.
Proof.
  intros Hlot. unfold back_calculate.
  assert (Hd : ~ lot_size t * 100000 == 0) by lra.
  destruct (TradeDirection_eqb _ BUY), (startswith _ "USD");
    rewrite (fdiv_ok _ _ Hd); cbn [rbind]; eauto.
Qed.

(** ** Target detection *)

Lemma profit_crossed_iff (prev : Q) (t : TradeData) :
  profit_crossed prev t = true
  <-> crossed PROFIT (target_amount t) prev (profit_loss t).
Proof.
  unfold profit_crossed, crossed.
  rewrite andb_true_iff, Qltb_lt, Qle_bool_iff. reflexivity.
Qed.

Lemma loss_crossed_iff (prev : Q) (t : TradeData) :
  loss_crossed prev t = true
  <-> crossed LOSS (target_amount t) prev (profit_loss t).
Proof.
  unfold loss_crossed, crossed.
  rewrite andb_true_iff, Qltb_lt, Qle_bool_iff. unfold Qge, Qgt. reflexivity.
Qed.

(** What [detect_target] answers, by the crossing condition. *)
Lemma detect_target_spec (s : CurrencyPairConfig) (prev : Q) (t : TradeData) :
  ~ lot_size t == 0 ->
  exists (t' : TradeData) (r : option string),
    detect_target s prev t = Ok (t', r)
    /\ ((crossed (target_type t) (target_amount t) prev (profit_loss t)
         /\ r <> None
         /\ profit_loss t' = match target_type t with
                             | PROFIT => target_amount t
                             | LOSS => - target_amount t
                             end)
        \/ (~ crossed (target_type t) (target_amount t) prev (profit_loss t)
            /\ r = None /\ t' = t)).
Proof.
  intros Hlot. unfold detect_target.
  destruct (target_type t) eqn:Ekind.
  - destruct (profit_crossed prev t) eqn:E.
    + apply profit_crossed_iff in E.
      match goal with |- context [back_calculate ?a ?b ?c] =>
        destruct (back_calculate_returns a b c Hlot) as [t' Ht'] end.
      rewrite Ht'. cbn [rbind]. eexists _, _. split; [reflexivity|].
      apply back_calculate_frame in Ht'. cbn in Ht'.
      left. split; [exact E|]. split; [discriminate | tauto].
    + eexists _, _. split; [reflexivity|]. right. split; [|tauto].
      intros Hc. apply profit_crossed_iff in Hc. congruence.
  - destruct (loss_crossed prev t) eqn:E.
    + apply loss_crossed_iff in E.
      match goal with |- context [back_calculate ?a ?b ?c] =>
        destruct (back_calculate_returns a b c Hlot) as [t' Ht'] end.
      rewrite Ht'. cbn [rbind]. eexists _, _. split; [reflexivity|].
      apply back_calculate_frame in Ht'. cbn in Ht'.
      left. split; [exact E|]. split; [discriminate | tauto].
    + eexists _, _. split; [reflexivity|]. right. split; [|tauto].
      intros Hc. apply loss_crossed_iff in Hc. congruence.
Qed.

(** When [detect_target] reports a reason, the crossing branch ran: the pnl
    was clamped to the signed target amount. *)
Lemma detect_target_reached (s : CurrencyPairConfig) (prev : Q)
    (t t' : TradeData) (reason : string) :
  detect_target s prev t = Ok (t', Some reason) ->
  crossed (target_type t) (target_amount t) prev (profit_loss t)
  /\ profit_loss t' = match target_type t with
                      | PROFIT => target_amount t
                      | LOSS => - target_amount t
                      end.
Proof.
  unfold detect_target. intros H.
  destruct (target_type t) eqn:Ekind.
  - destruct (profit_crossed prev t) eqn:E; [|discriminate].
    apply profit_crossed_iff in E. split; [exact E|].
    invert_ok. subst.
    match goal with Hb : back_calculate _ _ _ = Ok _ |- _ =>
      apply back_calculate_frame in Hb; cbn in Hb end.
    tauto.
  - destruct (loss_crossed prev t) eqn:E; [|discriminate].
    apply loss_crossed_iff in E. split; [exact E|].
    invert_ok. subst.
    match goal with Hb : back_calculate _ _ _ = Ok _ |- _ =>
      apply back_calculate_frame in Hb; cbn in Hb end.
    tauto.
Qed.

(** The outcomes of [simulate_trade]: either the target was crossed and the
    trade was closed from the interpolated object, or nothing but the
    advance happened. *)
Lemma simulate_trade_cases (normal : Q -> Q -> Q) (s : CurrencyPairConfig)
    (now : Q) (trade t' : TradeData) (r : option string) :
  simulate_trade normal s now trade = Ok (t', r) ->
  exists t1 : TradeData,
    advance_trade normal s now trade = Ok t1
    /\ ((exists (t2 : TradeData) (reason : string),
           detect_target s (profit_loss trade) t1 = Ok (t2, Some reason)
           /\ r = Some reason
           /\ t' = close_trade_object t2 COMPLETED now)
        \/ (detect_target s (profit_loss trade) t1 = Ok (t1, None)
            /\ r = None /\ t' = t1)).
Proof.
  unfold simulate_trade. intros H.
  apply rbind_ok in H. destruct H as (t1 & Ht1 & H).
  apply rbind_ok in H. destruct H as ([t2 [reason|]] & Hd & H).
  - exists t1. split; [exact Ht1|]. left. exists t2, reason.
    injection H as <- <-. auto.
  - exists t1. split; [exact Ht1|]. right.
    injection H as <- <-.
    assert (t2 = t1) as ->; [|auto].
    unfold detect_target in Hd.
    destruct (target_type t1);
      [destruct (profit_crossed _ _) | destruct (loss_crossed _ _)];
      invert_ok; congruence.
Qed.

(** When [detect_target] reports no reason, the crossing condition was
    false and the trade is untouched. *)
Lemma detect_target_not_reached (s : CurrencyPairConfig) (prev : Q)
    (t t' : TradeData) :
  detect_target s prev t = Ok (t', None) ->
  ~ crossed (target_type t) (target_amount t) prev (profit_loss t) /\ t' = t.
Proof.
  unfold detect_target. intros H.
  destruct (target_type t) eqn:Ekind.
  - destruct (profit_crossed prev t) eqn:E.
    + apply rbind_ok in H. destruct H as (u & _ & H). discriminate.
    + injection H as <-. split; [|reflexivity].
      intros Hc. apply profit_crossed_iff in Hc. congruence.
  - destruct (loss_crossed prev t) eqn:E.
    + apply rbind_ok in H. destruct H as (u & _ & H). discriminate.
    + injection H as <-. split; [|reflexivity].
      intros Hc. apply loss_crossed_iff in Hc. congruence.
Qed.

(** [simulate_trade] returns for a trade with a positive bid and a lot size
    that is not zero, under a configuration whose spread is not negative. *)
Lemma simulate_trade_returns (normal : Q -> Q -> Q) (s : CurrencyPairConfig)
    (now : Q) (trade : TradeData) :
  0 < current_buy_price trade -> 0 <= spread s -> ~ lot_size trade == 0 ->
  exists (t' : TradeData) (reason : option string),
    simulate_trade normal s now trade = Ok (t', reason).
Proof.
  intros Hbid Hspread Hlot.
  destruct (advance_trade_returns normal s now trade Hbid Hspread)
    as [t1 Ht1].
  pose proof (advance_trade_frame _ _ _ _ _ Ht1) as (Hc & _).
  assert (Hlot1 : ~ lot_size t1 == 0)
    by (unfold same_contract in Hc; intuition congruence).
  destruct (detect_target_spec s (profit_loss trade) t1 Hlot1)
    as (t2 & r & Hd & _).
  unfold simulate_trade. rewrite Ht1. cbn [rbind]. rewrite Hd. cbn [rbind].
  destruct r; eauto.
Qed.

(** C3. Target detection is edge-triggered. For a RUNNING trade that
    reaches target detection, with [previous_pnl] the pnl of the previous
    tick and [new_pnl] the pnl this tick computes: a PROFIT trade is
    closed (COMPLETED) if and only if
    [previous_pnl < target_amount <= new_pnl], a LOSS trade if and only if
    [previous_pnl > -target_amount >= new_pnl]; in every other case its
    status stays RUNNING. The step returns whenever the bid is positive,
    the spread is not negative and the lot size is not zero. *)
Theorem target_detection_edge_triggered (normal : Q -> Q -> Q)
    (s : CurrencyPairConfig) (now : Q) (trade : TradeData) :
  status trade = RUNNING ->
  (forall (t' : TradeData) (reason : option string),
     simulate_trade normal s now trade = Ok (t', reason) ->
     exists t1 : TradeData,
       advance_trade normal s now trade = Ok t1
       /\ let previous_pnl := profit_loss trade in
          let new_pnl := profit_loss t1 in
          let cond :=
            match target_type trade with
            | PROFIT =>
                previous_pnl < target_amount trade
                /\ target_amount trade <= new_pnl
            | LOSS =>
                previous_pnl > - target_amount trade
                /\ - target_amount trade >= new_pnl
            end in
          (status t' = COMPLETED <-> cond)
          /\ (~ cond -> status t' = RUNNING /\ reason = None /\ t' = t1))
  /\ (0 < current_buy_price trade -> 0 <= spread s ->
      ~ lot_size trade == 0 ->
      exists (t' : TradeData) (reason : option string),
        simulate_trade normal s now trade = Ok (t', reason)).
Proof.
  intros Hrun. split; [|apply simulate_trade_returns].
  intros t' reason Hsim.
  destruct (simulate_trade_cases _ _ _ _ _ _ Hsim)
    as (t1 & Ht1 & Hcases).
  exists t1. split; [exact Ht1|]. cbv zeta.
  pose proof (advance_trade_frame _ _ _ _ _ Ht1) as (Hc & Hs1 & _).
  assert (Ekind : target_type t1 = target_type trade)
    by (unfold same_contract in Hc; tauto).
  assert (Eamt : target_amount t1 = target_amount trade)
    by (unfold same_contract in Hc; tauto).
  destruct Hcases as [(t2 & r & Hd & -> & ->) | (Hd & -> & ->)].
  - destruct (detect_target_reached _ _ _ _ _ Hd) as (Hx & _).
    rewrite Ekind, Eamt in Hx. unfold crossed in Hx.
    split; [split; [intros _; exact Hx | intros _; reflexivity]|].
    intros Hn. contradiction.
  - destruct (detect_target_not_reached _ _ _ _ Hd) as (Hn & _).
    rewrite Ekind, Eamt in Hn. unfold crossed in Hn.
    split; [split; [intros E; congruence | intros Hy; contradiction]|].
    intros _. repeat split; congruence.
Qed.

(** C1. No overshoot: a trade that a tick moves from RUNNING to COMPLETED
    because its target was crossed carries, at that moment, a [profit_loss]
    of exactly [target_amount] for a PROFIT target and exactly
    [-target_amount] for a LOSS target. *)
Theorem completed_trade_pnl_is_target (normal : Q -> Q -> Q)
    (s : CurrencyPairConfig) (now : Q) (trade t' : TradeData)
    (reason : option string) :
  status trade = RUNNING ->
  simulate_trade normal s now trade = Ok (t', reason) ->
  status t' = COMPLETED ->
  match target_type t' with
  | PROFIT => profit_loss t' = target_amount t'
  | LOSS => profit_loss t' = - target_amount t'
  end.
Proof.
  intros Hrun Hsim Hdone.
  destruct (simulate_trade_cases _ _ _ _ _ _ Hsim)
    as (t1 & Ht1 & [(t2 & r & Hd & -> & ->) | (_ & _ & ->)]).
  - pose proof (detect_target_frame _ _ _ _ _ Hd) as (Hc2 & _).
    pose proof (close_trade_object_frame t2 COMPLETED now)
      as (Hc3 & _ & Hpl & _).
    destruct (detect_target_reached _ _ _ _ _ Hd) as (_ & Hclamp).
    assert (Ekind : target_type (close_trade_object t2 COMPLETED now)
                    = target_type t1)
      by (unfold same_contract in Hc2, Hc3; intuition congruence).
    assert (Eamt : target_amount (close_trade_object t2 COMPLETED now)
                   = target_amount t1)
      by (unfold same_contract in Hc2, Hc3; intuition congruence).
    rewrite Ekind, Eamt, Hpl, Hclamp.
    destruct (target_type t1); reflexivity.
  - pose proof (advance_trade_frame _ _ _ _ _ Ht1) as (_ & Hs & _).
    congruence.
Qed.

(** ** Back-interpolation *)

Lemma fdiv_inv (x y q : Q) : fdiv x y = Ok q -> ~ y == 0 /\ q = x / y.
Proof.
  unfold fdiv. destruct (Qeq_bool y 0) eqn:E; [discriminate|].
  intros [= <-]. split; [|reflexivity].
  intros H. apply Qeq_bool_iff in H. congruence.
Qed.

(** The back-solved pair keeps the configured spread. *)
Lemma back_calculate_spread (t t' : TradeData) (a sp : Q) :
  back_calculate t a sp = Ok t' ->
  current_sell_price t' == current_buy_price t' + sp.
Proof.
  unfold back_calculate. intros H.
  destruct (TradeDirection_eqb (trade_direction t) BUY);
    apply rbind_ok in H; destruct H as (d & _ & [= <-]); cbn; ring.
Qed.


Lemma usd_roundtrip_algebra (K e L p D : Q) :
  ~ L == 0 -> ~ p == 0 ->
  D == K * e / (L * 100000) ->
  D == p - e \/ D == e - p ->
  D * L * 100000 / p == K ->
  K == 0 \/ e == 0.
Proof.
  intros HL Hp HD Hside Hrt.
  assert (X : D * L * 100000 == K * e) by (rewrite HD; field; exact HL).
  assert (Y : D * L * 100000 / p * p == D * L * 100000) by (field; exact Hp).
  rewrite Hrt, X in Y.
  assert (Z : K * (p - e) == 0) by lra.
  apply Qmult_integral in Z. destruct Z as [Z | Z]; [left; exact Z|].
  assert (D0 : D == 0) by (destruct Hside; lra).
  rewrite D0 in X. apply Qmult_integral. lra.
Qed.

Lemma usd_roundtrip_buy (a c s e L : Q) :
  ~ L * 100000 == 0 ->
  ~ e + (a + c + s) * e / (L * 100000) == 0 ->
  (e + (a + c + s) * e / (L * 100000) - e) * L * 100000
    / (e + (a + c + s) * e / (L * 100000)) - (c + s) == a ->
  a + c + s == 0 \/ e == 0.
Proof.
  intros HL. generalize (eq_refl (e + (a + c + s) * e / (L * 100000))).
  generalize (e + (a + c + s) * e / (L * 100000)) at 1 3 4 5.
  intros p Ep Hp Heq.
  apply (usd_roundtrip_algebra (a + c + s) e L p (p - e));
    [lra | exact Hp | rewrite Ep; ring | left; reflexivity | lra].
Qed.

Lemma usd_roundtrip_sell (a c s e L : Q) :
  ~ L * 100000 == 0 ->
  ~ e - (a + c + s) * e / (L * 100000) == 0 ->
  (e - (e - (a + c + s) * e / (L * 100000))) * L * 100000
    / (e - (a + c + s) * e / (L * 100000)) - (c + s) == a ->
  a + c + s == 0 \/ e == 0.
Proof.
  intros HL. generalize (eq_refl (e - (a + c + s) * e / (L * 100000))).
  generalize (e - (a + c + s) * e / (L * 100000)) at 1 3 4 5.
  intros p Ep Hp Heq.
  apply (usd_roundtrip_algebra (a + c + s) e L p (e - p));
    [lra | exact Hp | rewrite Ep; ring | right; reflexivity | lra].
Qed.

(** For a USD-quoted symbol the round trip fails whenever the entry price
    and the amount to recover (target plus fees) are not zero: the code
    adds [amount * entry / (lot * 100000)] to the entry price, which inverts
    the formula of [calculate_pnl] only without its division by the
    price. *)
Lemma back_calculate_roundtrip_usd (t t' t'' : TradeData) (a sp : Q) :
  startswith (symbol t) "USD" = true ->
  ~ entry_price t == 0 -> ~ a + commission t + swap t == 0 ->
  back_calculate t a sp = Ok t' ->
  calculate_pnl t' (closing_side t') = Ok t'' ->
  ~ profit_loss t'' == a.
Proof.
  intros Hsym He Hk H Hpnl.
  pose proof (back_calculate_frame _ _ _ _ H) as (Hc & _).
  assert (Esym : symbol t' = symbol t) by (unfold same_contract in Hc; tauto).
  unfold back_calculate in H. rewrite Hsym in H.
  unfold calculate_pnl, closing_side in Hpnl.
  cbn [symbol set_profit_loss] in Hpnl. rewrite Esym, Hsym in Hpnl.
  apply rbind_ok in Hpnl. destruct Hpnl as (u & Hu & [= <-]).
  apply rbind_ok in Hu. destruct Hu as (q & Hq & [= <-]).
  apply fdiv_inv in Hq. destruct Hq as (Hp & ->).
  destruct (TradeDirection_eqb (trade_direction t) BUY) eqn:Edir;
    apply rbind_ok in H; destruct H as (d & Hd & [= <-]);
    apply fdiv_inv in Hd; destruct Hd as (Hlot & ->);
    cbn in Hp |- *; rewrite Edir in Hp |- *; cbn in Hp |- *;
    intros Heq.
  - destruct (usd_roundtrip_buy _ _ _ _ _ Hlot Hp Heq); contradiction.
  - destruct (usd_roundtrip_sell _ _ _ _ _ Hlot Hp Heq); contradiction.
Qed.

(** C2, on the code. A USDCNH BUY trade (entry 7.1837, lot 0.1, commission
    1, PROFIT target 1) crosses its target when the bid goes from 7.1850 to
    7.1852961. The tick completes it with [profit_loss] 1 and the
    back-solved bid 7.18513674 (ask = bid + 0.002, so the spread is kept),
    but [calculate_pnl] at that bid gives 4999/5001, not 1: for a
    USD-quoted symbol the back-solved price does not reproduce the clamped
    pnl. *)
Theorem back_solve_roundtrip_fails_usd_quoted :
  exists t' t'' : TradeData,
    simulate_trade (constant_draw 0.00006 0%nat) USDCNH_settings 0
      usdcnh_buy_near_target
    = Ok (t', Some "target_profit_reached"%string)
    /\ status t' = COMPLETED
    /\ profit_loss t' = target_amount t'
    /\ target_amount t' = 1
    /\ current_buy_price t' == 7.18513674
    /\ current_sell_price t' == current_buy_price t' + 0.002
    /\ closing_price t' = Some (current_buy_price t')
    /\ calculate_pnl t' (current_buy_price t') = Ok t''
    /\ profit_loss t'' == 4999 # 5001
    /\ ~ profit_loss t'' == target_amount t'.
Proof.
  eexists. eexists.
  split; [vm_compute; reflexivity|].
  split; [reflexivity|].
  split; [reflexivity|].
  split; [reflexivity|].
  split; [vm_compute; reflexivity|].
  split; [vm_compute; reflexivity|].
  split; [reflexivity|].
  split; [vm_compute; reflexivity|].
  split; [vm_compute; reflexivity|].
  vm_compute. discriminate.
Qed.

(** ** AccountMetrics *)

Lemma py_max_Qmax (a b : Q) : py_max a b == Qmax a b.
Proof.
  destruct (py_max_spec a b) as [[H ->] | [H ->]];
    destruct (Q.max_spec a b) as [[H' ->] | [H' ->]]; lra.
Qed.

Lemma refresh_margin_frame (t : TradeData) :
  status (refresh_margin t) = status t
  /\ profit_loss (refresh_margin t) = profit_loss t
  /\ swap (refresh_margin t) = swap t
  /\ current_buy_price (refresh_margin t) = current_buy_price t
  /\ current_sell_price (refresh_margin t) = current_sell_price t
  /\ end_time (refresh_margin t) = end_time t
  /\ closing_price (refresh_margin t) = closing_price t
  /\ target_price (refresh_margin t) = target_price t
  /\ target_type (refresh_margin t) = target_type t
  /\ target_amount (refresh_margin t) = target_amount t
  /\ symbol (refresh_margin t) = symbol t
  /\ entry_price (refresh_margin t) = entry_price t
  /\ lot_size (refresh_margin t) = lot_size t
  /\ trade_direction (refresh_margin t) = trade_direction t
  /\ commission (refresh_margin t) = commission t.
Proof.
  unfold refresh_margin, assign_margin_used.
  destruct (TradeStatus_eqb (status t) RUNNING),
    (startswith (symbol t) "USD"); cbn; tauto.
Qed.

(** The loop rewrites every trade by [refresh_margin], in place. *)
Lemma accumulate_metrics_trades (trades : list (string * TradeData))
    (tm tp ts : Q) :
  fst (accumulate_metrics trades tm tp ts)
  = map (fun p => (fst p, refresh_margin (snd p))) trades.
Proof.
  revert tm tp ts. induction trades as [|[tid trade] rest IH]; intros tm tp ts.
  - reflexivity.
  - cbn [accumulate_metrics map fst snd]. unfold refresh_margin at 1.
    destruct (TradeStatus_eqb (status trade) RUNNING).
    + specialize (IH (tm + margin_used (assign_margin_used trade))
                     (tp + profit_loss (assign_margin_used trade))
                     (ts + swap (assign_margin_used trade))).
      destruct (accumulate_metrics rest _ _ _) as [rest' totals].
      cbn [fst] in *. now rewrite IH.
    + specialize (IH tm tp ts).
      destruct (accumulate_metrics rest _ _ _) as [rest' totals].
      cbn [fst] in *. now rewrite IH.
Qed.

(** The pnl total of the loop is the sum over the RUNNING trades. *)
Lemma accumulate_metrics_total_pnl (trades : list (string * TradeData))
    (tm tp ts : Q) :
  snd (fst (snd (accumulate_metrics trades tm tp ts)))
  == tp + running_pnl trades.
Proof.
  revert tm tp ts. induction trades as [|[tid trade] rest IH]; intros tm tp ts.
  - cbn. ring.
  - cbn [accumulate_metrics running_pnl].
    destruct (TradeStatus_eqb (status trade) RUNNING).
    + specialize (IH (tm + margin_used (assign_margin_used trade))
                     (tp + profit_loss (assign_margin_used trade))
                     (ts + swap (assign_margin_used trade))).
      destruct (accumulate_metrics rest _ _ _) as [rest' totals].
      cbn [fst snd] in *. rewrite IH.
      assert (E : profit_loss (assign_margin_used trade) = profit_loss trade)
        by (unfold assign_margin_used;
            destruct (startswith (symbol trade) "USD"); reflexivity).
      rewrite E. ring.
    + specialize (IH tm tp ts).
      destruct (accumulate_metrics rest _ _ _) as [rest' totals].
      cbn [fst snd] in *. exact IH.
Qed.

Lemma running_pnl_refresh (trades : list (string * TradeData)) :
  running_pnl (map (fun p => (fst p, refresh_margin (snd p))) trades)
  = running_pnl trades.
Proof.
  induction trades as [|[tid trade] rest IH]; [reflexivity|].
  cbn [map running_pnl fst snd].
  destruct (refresh_margin_frame trade) as (-> & -> & _).
  now rewrite IH.
Qed.

(** [update_account_metrics], component by component. *)
Lemma update_account_metrics_unfold (acc : Account) :
  let totals := snd (accumulate_metrics (active_trades acc) 0 0 0) in
  let total_margin := fst (fst totals) in
  let total_pnl := snd (fst totals) in
  let acc' := update_account_metrics acc in
  active_trades acc'
  = map (fun p => (fst p, refresh_margin (snd p))) (active_trades acc)
  /\ currency_pair_settings acc' = currency_pair_settings acc
  /\ database acc' = database acc
  /\ rng_calls acc' = rng_calls acc
  /\ balance (account_metrics acc') = balance (account_metrics acc)
  /\ margin (account_metrics acc') = total_margin
  /\ equity (account_metrics acc')
     = balance (account_metrics acc) + total_pnl
  /\ free_margin (account_metrics acc')
     = py_max 0 (balance (account_metrics acc) + total_pnl - total_margin)
  /\ margin_level (account_metrics acc')
     = (if Qltb 0 total_margin
        then (balance (account_metrics acc) + total_pnl) / total_margin * 100
        else 0).
Proof.
  cbv zeta. unfold update_account_metrics.
  pose proof (accumulate_metrics_trades (active_trades acc) 0 0 0) as Ht.
  destruct (accumulate_metrics (active_trades acc) 0 0 0)
    as [trades [[tm tp] ts]].
  cbn in *. subst trades. repeat split; reflexivity.
Qed.

(** The recompute establishes the invariant, whatever the account. *)
Lemma update_account_metrics_establishes (acc : Account) :
  metrics_invariant (update_account_metrics acc).
Proof.
  unfold metrics_invariant. cbv zeta.
  destruct (update_account_metrics_unfold acc)
    as (Ht & _ & _ & _ & Hb & Hm & He & Hf & Hl).
  rewrite Ht, Hb, Hm, He, Hf, Hl, running_pnl_refresh.
  pose proof (accumulate_metrics_total_pnl (active_trades acc) 0 0 0) as Hp.
  set (totals := snd (accumulate_metrics (active_trades acc) 0 0 0)) in *.
  split; [apply py_max_Qmax|].
  split; [rewrite Hp; ring|].
  split.
  - intros Hpos. apply Qltb_lt in Hpos. rewrite Hpos. reflexivity.
  - intros Hz.
    assert (E : Qltb 0 (fst (fst totals)) = false) by (apply Qltb_ge; lra).
    rewrite E. reflexivity.
Qed.

(** ** The ledger dictionary *)

Lemma dict_get_set_eq {V : Type} (k : string) (v : V)
    (d : list (string * V)) :
  dict_get k (dict_set k v d) = Some v.
Proof.
  induction d as [|[k' v'] rest IH]; cbn.
  - now rewrite String.eqb_refl.
  - destruct (String.eqb k k') eqn:E; cbn; rewrite E; [reflexivity | exact IH].
Qed.

Lemma dict_get_set_ne {V : Type} (k j : string) (v : V)
    (d : list (string * V)) :
  k <> j -> dict_get j (dict_set k v d) = dict_get j d.
Proof.
  intros Hne. induction d as [|[k' v'] rest IH]; cbn.
  - destruct (String.eqb j k) eqn:E; [|reflexivity].
    apply String.eqb_eq in E. congruence.
  - destruct (String.eqb k k') eqn:E; cbn.
    + apply String.eqb_eq in E. subst k'.
      destruct (String.eqb j k) eqn:E'; [|reflexivity].
      apply String.eqb_eq in E'. congruence.
    + now rewrite IH.
Qed.

Lemma dict_get_del_eq_nodup {V : Type} (k : string) (d : list (string * V)) :
  NoDup (map fst d) -> dict_get k (dict_del k d) = None.
Proof.
  induction d as [|[k' v'] rest IH]; cbn; [reflexivity|].
  intros Hnd. apply NoDup_cons in Hnd as [Hnotin Hnd].
  destruct (String.eqb k k') eqn:E; cbn.
  - apply String.eqb_eq in E. subst k'.
    clear IH Hnd. induction rest as [|[k2 v2] rest IH]; cbn; [reflexivity|].
    destruct (String.eqb k k2) eqn:E2.
    + apply String.eqb_eq in E2. subst k2. exfalso. apply Hnotin. cbn.
      now left.
    + apply IH. intros Hin. apply Hnotin. cbn. now right.
  - rewrite E. now apply IH.
Qed.

Lemma dict_get_del_ne {V : Type} (k j : string) (d : list (string * V)) :
  k <> j -> dict_get j (dict_del k d) = dict_get j d.
Proof.
  intros Hne. induction d as [|[k' v'] rest IH]; cbn; [reflexivity|].
  destruct (String.eqb k k') eqn:E; cbn.
  - apply String.eqb_eq in E. subst k'.
    destruct (String.eqb j k) eqn:E'; [|reflexivity].
    apply String.eqb_eq in E'. congruence.
  - now rewrite IH.
Qed.

Lemma dict_get_map {V : Type} (f : V -> V) (k : string)
    (d : list (string * V)) :
  dict_get k (map (fun p => (fst p, f (snd p))) d)
  = option_map f (dict_get k d).
Proof.
  induction d as [|[k' v'] rest IH]; cbn; [reflexivity|].
  destruct (String.eqb k k'); [reflexivity | exact IH].
Qed.

(** ** Disabled instruments *)

(** The in-memory state the disabled-instrument path reaches before it
    writes to the store. *)
Lemma stop_disabled_trade_spec (acc : Account) (tid : string)
    (trade : TradeData) (now : Q) :
  let acc1 := stop_disabled_trade acc tid trade now in
  dict_get tid (active_trades acc1)
  = Some (close_trade_object trade STOPPED now)
  /\ rng_calls acc1 = rng_calls acc
  /\ database acc1 = database acc
  /\ currency_pair_settings acc1 = currency_pair_settings acc
  /\ balance (account_metrics acc1)
     = balance (account_metrics acc) + profit_loss trade.
Proof.
  cbv zeta. unfold stop_disabled_trade.
  match goal with |- context [update_account_metrics ?a] =>
    destruct (update_account_metrics_unfold a)
      as (Ht & Hs & Hd & Hr & Hb & _) end.
  rewrite Ht, Hs, Hd, Hr, Hb. cbn.
  rewrite dict_get_map, dict_get_set_eq. cbn.
  repeat split; reflexivity.
Qed.

(** C8. A RUNNING trade whose symbol configuration is missing, or whose
    direction is disabled in it, is closed by the tick at its current
    price: the price model is not called (no sample is drawn, the outcome
    does not depend on the generator, and both current prices are
    unchanged), the status becomes STOPPED, [closing_price] is the current
    bid for BUY and the current ask for SELL, and swap and pnl are left as
    they were (no price advance, no carrying cost, no pnl, no target
    test). *)
Theorem disabled_instrument_short_circuit (normal : nat -> Q -> Q -> Q)
    (faults : DbFaults) (now : Q) (acc : Account)
    (trades_to_remove : list string) (tid : string) (trade : TradeData) :
  dict_get tid (active_trades acc) = Some trade ->
  status trade = RUNNING ->
  (currency_pair_settings acc !! symbol trade = None
   \/ exists s : CurrencyPairConfig,
        currency_pair_settings acc !! symbol trade = Some s
        /\ ((trade_direction trade = BUY /\ buy_enabled s = false)
            \/ (trade_direction trade = SELL /\ sell_enabled s = false))) ->
  exists (acc1 : Account) (trade' : TradeData),
    acc1 = stop_disabled_trade acc tid trade now
    /\ tick_trade normal faults now acc trades_to_remove tid
       = rbind (save_stopped_trade faults acc1 tid trade')
           (fun acc2 => Ok (acc2, trades_to_remove ++ [tid]))
    /\ (query_raises faults tid = false -> commit_raises faults = false ->
        tick_trade normal faults now acc trades_to_remove tid
        = Ok (set_database acc1 (<[tid := trade']> (database acc)),
              trades_to_remove ++ [tid]))
    /\ (forall normal' : nat -> Q -> Q -> Q,
          tick_trade normal' faults now acc trades_to_remove tid
          = tick_trade normal faults now acc trades_to_remove tid)
    /\ rng_calls acc1 = rng_calls acc
    /\ dict_get tid (active_trades acc1) = Some trade'
    /\ status trade' = STOPPED
    /\ current_buy_price trade' = current_buy_price trade
    /\ current_sell_price trade' = current_sell_price trade
    /\ closing_price trade'
       = Some (match trade_direction trade with
               | BUY => current_buy_price trade
               | SELL => current_sell_price trade
               end)
    /\ end_time trade' = Some now
    /\ swap trade' = swap trade
    /\ profit_loss trade' = profit_loss trade.
Proof.
  intros Hget Hrun Hdis.
  assert (Hd : instrument_disabled (currency_pair_settings acc !! symbol trade)
                 trade = true).
  { destruct Hdis as [-> | (s & -> & [[Hb He] | [Hs He]])]; cbn;
      [reflexivity | rewrite Hb, He | rewrite Hs, He]; reflexivity. }
  assert (Htick : forall n : nat -> Q -> Q -> Q,
            tick_trade n faults now acc trades_to_remove tid
            = rbind (save_stopped_trade faults
                       (stop_disabled_trade acc tid trade now) tid
                       (close_trade_object trade STOPPED now))
                (fun acc2 => Ok (acc2, trades_to_remove ++ [tid]))).
  { intros n. unfold tick_trade. rewrite Hget, Hrun. cbn [TradeStatus_eqb negb].
    rewrite Hd. reflexivity. }
  destruct (stop_disabled_trade_spec acc tid trade now)
    as (Hget1 & Hrng & Hdb & _).
  exists (stop_disabled_trade acc tid trade now),
         (close_trade_object trade STOPPED now).
  split; [reflexivity|]. split; [apply Htick|].
  split.
  { intros Hq Hc. rewrite Htick. unfold save_stopped_trade.
    rewrite Hq, Hc, Hdb.
    destruct (database acc !! tid); reflexivity. }
  split; [intros n; now rewrite !Htick|].
  split; [exact Hrng|]. split; [exact Hget1|].
  unfold close_trade_object, closing_side. cbn.
  destruct (trade_direction trade); cbn; repeat split; reflexivity.
Qed.

(** ** Persistence Bridge *)

(** The guarded upsert leaves a stored record that is not RUNNING as it
    is. *)
Lemma upsert_closed_keeps_closed_record (faults : DbFaults)
    (completed : list (string * TradeData)) (session : gmap string TradeData)
    (to_remove : list string) (k : string) (record : TradeData) :
  session !! k = Some record -> status record <> RUNNING ->
  fst (upsert_closed faults session completed to_remove) !! k = Some record.
Proof.
  revert session to_remove.
  induction completed as [|[tid trade] rest IH]; intros session to_remove Hk Hst;
    cbn [upsert_closed fst]; [exact Hk|].
  destruct (query_raises faults tid); [now apply IH|].
  apply IH; [|exact Hst].
  destruct (decide (tid = k)) as [-> | Hne].
  - rewrite Hk. destruct (status record); cbn; congruence.
  - destruct (session !! tid) as [existing|];
      [destruct (TradeStatus_eqb (status existing) RUNNING)|];
      rewrite ?lookup_insert_ne by exact Hne; exact Hk.
Qed.

(** The write path of [transfer_completed_trades_to_database] (target
    crossing, manual close, sweep) never changes a stored record that is
    not RUNNING. *)
Lemma transfer_keeps_closed_record (faults : DbFaults) (acc : Account)
    (trade_id : option string) (k : string) (record : TradeData) :
  database acc !! k = Some record -> status record <> RUNNING ->
  database (transfer_completed_trades_to_database faults acc trade_id) !! k
  = Some record.
Proof.
  intros Hk Hst. unfold transfer_completed_trades_to_database.
  match goal with |- context [match ?l with [] => _ | _ :: _ => _ end] =>
    destruct l as [|c completed] eqn:El end; [exact Hk|].
  pose proof (upsert_closed_keeps_closed_record faults (c :: completed)
                (database acc) [] k record Hk Hst) as Hu.
  destruct (upsert_closed faults (database acc) (c :: completed) [])
    as [session to_remove].
  destruct (commit_raises faults); [destruct (rollback_raises faults)|];
    cbn; assumption.
Qed.

(** The write of the disabled-instrument path replaces whatever record the
    store holds under the trade id. *)
Lemma save_stopped_trade_overwrites (faults : DbFaults) (acc acc' : Account)
    (tid : string) (trade : TradeData) :
  save_stopped_trade faults acc tid trade = Ok acc' ->
  database acc' !! tid = Some trade.
Proof.
  unfold save_stopped_trade. intros H.
  destruct (query_raises faults tid); [discriminate|].
  destruct (commit_raises faults); [discriminate|].
  injection H as <-. cbn.
  destruct (database acc !! tid); apply lookup_insert_eq.
Qed.

(** C5, on the code. The store holds a record of trade 0000000003 that was
    edited to COMPLETED (pnl 42, closing price 1.1770); the ledger still
    holds the trade as RUNNING and EURUSD buying has been disabled. The
    tick stops the trade and its write replaces the stored record by the
    in-memory trade, every column of it: the disabled-instrument path has
    no status guard. *)
Theorem disabled_path_overwrites_closed_record :
  exists (acc' : Account) (stopped : TradeData),
    database account_with_edited_record !! "0000000003"%string
    = Some edited_record
    /\ status edited_record = COMPLETED
    /\ tick_trade (constant_draw 0) no_faults 10 account_with_edited_record
         [] "0000000003"
       = Ok (acc', ["0000000003"%string])
    /\ stopped = close_trade_object eurusd_buy_running STOPPED 10
    /\ database acc' !! "0000000003"%string = Some stopped
    /\ status stopped = STOPPED
    /\ profit_loss stopped = 1
    /\ closing_price stopped = Some 1.1729
    /\ end_time stopped = Some 10
    /\ stopped <> edited_record.
Proof.
  eexists. eexists.
  split; [vm_compute; reflexivity|].
  split; [reflexivity|].
  split; [vm_compute; reflexivity|].
  split; [reflexivity|].
  split; [vm_compute; reflexivity|].
  split; [reflexivity|].
  split; [reflexivity|].
  split; [reflexivity|].
  split; [reflexivity|].
  intros H. apply (f_equal status) in H. discriminate H.
Qed.

(** When the commit fails and the rollback returns, the transfer leaves the
    account, ledger and store, as it found it. *)
Lemma transfer_commit_failure_keeps_account (faults : DbFaults)
    (acc : Account) (trade_id : option string) :
  commit_raises faults = true -> rollback_raises faults = false ->
  transfer_completed_trades_to_database faults acc trade_id = acc.
Proof.
  intros Hc Hr. unfold transfer_completed_trades_to_database.
  match goal with |- context [match ?l with [] => _ | _ :: _ => _ end] =>
    destruct l as [|c completed] end; [reflexivity|].
  destruct (upsert_closed faults (database acc) (c :: completed) [])
    as [session to_remove].
  now rewrite Hc, Hr.
Qed.

(** C4, on the code. A EURUSD SELL trade crosses its LOSS target in a tick
    whose commit fails (the rollback succeeds).
    [transfer_completed_trades_to_database] keeps the trade in the ledger,
    but the tick has marked it for removal and deletes it when the loop
    ends: after the tick the trade is neither in the ledger nor in the
    store, and the same happens in [close_trade]. When the rollback raises
    as well, the transfer removes the trade itself, in its outer exception
    handler. *)
Theorem failed_commit_loses_closed_trade :
  exists (acc' : Account) (closed : TradeData) (acc1 : Account),
    account_simulate_trades (constant_draw 0.00009) (fun _ => commit_fails)
      0 account_near_loss
    = Ok acc'
    /\ active_trades acc' = []
    /\ database acc' = ∅
    /\ balance (account_metrics acc') == 9995
    /\ simulate_trade (constant_draw 0.00009 0%nat) EURUSD_settings 0
         eurusd_sell_near_loss
       = Ok (closed, Some "target_loss_reached"%string)
    /\ status closed = COMPLETED
    /\ acc1 = store_trade account_near_loss "0000000002" closed
    /\ transfer_completed_trades_to_database commit_fails acc1
         (Some "0000000002"%string)
       = acc1
    /\ active_trades
         (transfer_completed_trades_to_database commit_and_rollback_fail
            acc1 (Some "0000000002"%string))
       = []
    /\ database
         (transfer_completed_trades_to_database commit_and_rollback_fail
            acc1 (Some "0000000002"%string))
       = ∅
    /\ (exists acc2 : Account,
          close_trade commit_fails 0 account_near_loss "0000000002"
          = Ok acc2
          /\ active_trades acc2 = [] /\ database acc2 = ∅).
Proof.
  eexists. eexists. eexists.
  split; [vm_compute; reflexivity|].
  split; [reflexivity|].
  split; [reflexivity|].
  split; [vm_compute; reflexivity|].
  split; [vm_compute; reflexivity|].
  split; [reflexivity|].
  split; [reflexivity|].
  split; [apply transfer_commit_failure_keeps_account; reflexivity|].
  split; [vm_compute; reflexivity|].
  split; [vm_compute; reflexivity|].
  eexists. split; [vm_compute; reflexivity|].
  split; reflexivity.
Qed.

(** ** start_trade *)

(** The inverse formula of [start_trade] is the back-calculation of the
    tick applied without commission and swap. *)
Lemma start_target_price_back_solve (t : TradeData) (tp sp : Q) :
  start_target_price (symbol t) (trade_direction t) (entry_price t)
    (lot_size t) (target_type t) (target_amount t) = Ok tp ->
  exists t' : TradeData,
    back_calculate (without_fees t) (signed_target t) sp = Ok t'
    /\ tp == closing_side t'.
Proof.
  unfold start_target_price, back_calculate, signed_target, closing_side.
  cbn [symbol trade_direction entry_price lot_size commission swap
       without_fees].
  intros H. apply rbind_ok in H. destruct H as (d & Hd & H).
  destruct (startswith (symbol t) "USD");
    apply fdiv_inv in Hd; destruct Hd as (Hlot & ->);
    rewrite (fdiv_ok _ _ Hlot); cbn [rbind];
    destruct (trade_direction t) eqn:Edir, (target_type t); cbn in H |- *;
    injection H as <-; eexists; (split; [reflexivity|]); cbn;
    rewrite Edir; cbn; field; lra.
Qed.

(** The trade that a successful [start_trade] leaves in the ledger. *)
Lemma start_trade_stored (acc acc' : Account) (tid : string) (now : Q)
    (sym : string) (request : StartTradeRequest) :
  start_trade acc tid now sym request = Ok acc' ->
  exists t : TradeData,
    dict_get tid (active_trades acc') = Some t
    /\ status t = RUNNING /\ symbol t = sym
    /\ trade_direction t = direction request
    /\ profit_loss t = 0 /\ swap t = 0
    /\ commission t = lot_size t * COMMISSION * 100000
    /\ start_target_price (symbol t) (trade_direction t) (entry_price t)
         (lot_size t) (target_type t) (target_amount t)
       = Ok (target_price t).
Proof.
  unfold start_trade. intros H. cbv zeta in H.
  destruct (currency_pair_settings acc !! sym) as [s|]; [|discriminate].
  destruct (_ || _); [discriminate|].
  destruct (starting_buy_price request) as [p|],
    (direction request) eqn:Edir; cbn beta iota in H;
    (destruct (Qle_bool _ 0); [discriminate|]);
    apply rbind_ok in H; destruct H as (tp & Htp & H);
    (destruct (Qltb (free_margin _) _); [discriminate|]);
    injection H as <-;
    match goal with |- context [update_account_metrics ?a] =>
      destruct (update_account_metrics_unfold a) as (Ht & _) end;
    rewrite Ht; unfold store_trade; cbn [active_trades set_active_trades];
    rewrite dict_get_map, dict_get_set_eq; cbn [option_map];
    (eexists; split; [reflexivity|]);
    match goal with |- context [refresh_margin ?t] =>
      pose proof (refresh_margin_frame t) as F;
      set (stored := refresh_margin t) in *;
      destruct F as (F1 & F2 & F3 & _ & _ & _ & _ & F8 & F9 & F10 & F11 & F12
                     & F13 & F14 & F15) end;
    rewrite F1, F2, F3, F8, F9, F10, F11, F12, F13, F14, F15;
    cbn [status symbol trade_direction profit_loss swap commission
         lot_size entry_price target_type target_amount target_price];
    repeat split; try reflexivity; try (symmetry; exact Edir); exact Htp.
Qed.

(** C7, as amended. The target price that [start_trade] stores is the
    closing price the tick's back-calculation produces for the same trade
    (same symbol branch, direction, entry price, lot size, target kind and
    amount) when commission and swap are left out; [start_trade] has no
    commission or swap term. *)
Theorem start_trade_target_price_is_fee_free_back_solve (acc acc' : Account)
    (tid : string) (now : Q) (sym : string) (request : StartTradeRequest)
    (sp : Q) :
  start_trade acc tid now sym request = Ok acc' ->
  exists t t' : TradeData,
    dict_get tid (active_trades acc') = Some t
    /\ back_calculate (without_fees t) (signed_target t) sp = Ok t'
    /\ target_price t == closing_side t'.
Proof.
  intros H.
  destruct (start_trade_stored _ _ _ _ _ _ H) as (t & Hget & _ & _ & _ & _
                                                  & _ & _ & Htp).
  destruct (start_target_price_back_solve t (target_price t) sp Htp)
    as (t' & Hb & Heq).
  exists t, t'. auto.
Qed.

(** C7, as stated, fails: the EURUSD BUY trade that [start_trade] opens
    with the defaults stores the target price 1.1827, while the
    back-calculation closes that trade at 1.1828 (commission 1 over
    10000). *)
Lemma start_trade_target_price_differs_from_back_solve :
  ~ start_trade_matches_back_solve fresh_account "0000000001" 0 "EURUSD"
      (default_request BUY).
Proof.
  intros Hclaim.
  destruct (start_trade fresh_account "0000000001" 0 "EURUSD"
              (default_request BUY)) as [acc'|e] eqn:Hstart;
    [|vm_compute in Hstart; discriminate].
  destruct (start_trade_stored _ _ _ _ _ _ Hstart) as (t & Hget & _).
  destruct (Hclaim acc' t 0.0002 Hstart Hget) as (t' & Hb & Heq).
  vm_compute in Hstart. injection Hstart as <-.
  vm_compute in Hget. injection Hget as <-.
  vm_compute in Hb. injection Hb as <-.
  vm_compute in Heq. discriminate Heq.
Qed.

(** ** The metrics invariant across a tick *)

Lemma keys_dict_set_present {V : Type} (k : string) (v v0 : V)
    (d : list (string * V)) :
  dict_get k d = Some v0 -> map fst (dict_set k v d) = map fst d.
Proof.
  induction d as [|[k' v'] rest IH]; cbn; [discriminate|].
  destruct (String.eqb k k') eqn:E; cbn; [reflexivity|].
  intros H. now rewrite IH.
Qed.

Lemma keys_map_values {V : Type} (f : V -> V) (d : list (string * V)) :
  map fst (map (fun p => (fst p, f (snd p))) d) = map fst d.
Proof. induction d as [|[k v] rest IH]; cbn; [reflexivity | now rewrite IH]. Qed.

Lemma keys_dict_del_sub {V : Type} (k j : string) (d : list (string * V)) :
  j ∈ map fst (dict_del k d) -> j ∈ map fst d.
Proof.
  induction d as [|[k' v'] rest IH]; cbn; [auto|].
  destruct (String.eqb k k'); cbn; intros H.
  - now apply list_elem_of_further.
  - apply elem_of_cons in H as [-> | H];
      [apply list_elem_of_here | apply list_elem_of_further; auto].
Qed.

Lemma unique_keys_dict_del (k : string) (d : list (string * TradeData)) :
  unique_keys d -> unique_keys (dict_del k d).
Proof.
  unfold unique_keys. induction d as [|[k' v'] rest IH]; cbn; [auto|].
  intros Hnd. apply NoDup_cons in Hnd as [Hn Hnd].
  destruct (String.eqb k k'); cbn; [exact Hnd|].
  apply NoDup_cons. split; [|auto].
  intros Hin. apply Hn. eapply keys_dict_del_sub. exact Hin.
Qed.

Lemma sub_ledger_refl (d : list (string * TradeData)) :
  unique_keys d -> sub_ledger d d.
Proof. intros H. split; auto. Qed.

Lemma sub_ledger_del (k : string) (d' d : list (string * TradeData)) :
  sub_ledger d' d -> sub_ledger (dict_del k d') d.
Proof.
  intros [Hu Hsub]. split; [now apply unique_keys_dict_del|].
  intros j t Hj. apply Hsub.
  destruct (decide (k = j)) as [-> | Hne].
  - rewrite dict_get_del_eq_nodup in Hj by exact Hu. discriminate.
  - now rewrite dict_get_del_ne in Hj by exact Hne.
Qed.

Lemma sub_ledger_remove_trades (rs : list string)
    (d' d : list (string * TradeData)) :
  sub_ledger d' d -> sub_ledger (remove_trades d' rs) d.
Proof.
  unfold remove_trades. revert d'.
  induction rs as [|r rs IH]; intros d' H; cbn; [exact H|].
  apply IH. now apply sub_ledger_del.
Qed.

Lemma sub_ledger_cleanup (rs : list string)
    (d' d : list (string * TradeData)) :
  sub_ledger d' d -> sub_ledger (cleanup_after_error d' rs) d.
Proof.
  unfold cleanup_after_error. revert d'.
  induction rs as [|r rs IH]; intros d' H; cbn; [exact H|].
  apply IH. destruct (dict_get r d') as [t|]; [|exact H].
  destruct (is_closed t); [now apply sub_ledger_del | exact H].
Qed.

(** The transfer only deletes from the ledger. *)
Lemma transfer_sub_ledger (faults : DbFaults) (acc : Account)
    (trade_id : option string) :
  unique_keys (active_trades acc) ->
  sub_ledger
    (active_trades (transfer_completed_trades_to_database faults acc trade_id))
    (active_trades acc)
  /\ account_metrics
       (transfer_completed_trades_to_database faults acc trade_id)
     = account_metrics acc
  /\ rng_calls (transfer_completed_trades_to_database faults acc trade_id)
     = rng_calls acc.
Proof.
  intros Hu. unfold transfer_completed_trades_to_database.
  match goal with |- context [match ?l with [] => _ | _ :: _ => _ end] =>
    destruct l as [|c completed] end;
    [split; [now apply sub_ledger_refl | auto]|].
  destruct (upsert_closed faults (database acc) (c :: completed) [])
    as [session to_remove].
  destruct (commit_raises faults); [destruct (rollback_raises faults)|]; cbn;
    (split; [|auto]).
  - apply sub_ledger_cleanup. now apply sub_ledger_refl.
  - now apply sub_ledger_refl.
  - apply sub_ledger_remove_trades. now apply sub_ledger_refl.
Qed.

Lemma running_pnl_del (k : string) (d : list (string * TradeData)) :
  (forall t : TradeData, dict_get k d = Some t -> status t <> RUNNING) ->
  running_pnl (dict_del k d) = running_pnl d.
Proof.
  induction d as [|[k' t'] rest IH]; cbn; [reflexivity|].
  destruct (String.eqb k k') eqn:E; cbn; intros H.
  - specialize (H t' eq_refl). destruct (status t'); cbn; congruence.
  - now rewrite IH.
Qed.

Lemma running_pnl_remove_trades (rs : list string)
    (d : list (string * TradeData)) :
  unique_keys d ->
  (forall (r : string) (t : TradeData),
     r ∈ rs -> dict_get r d = Some t -> status t <> RUNNING) ->
  running_pnl (remove_trades d rs) = running_pnl d.
Proof.
  unfold remove_trades. revert d.
  induction rs as [|r rs IH]; intros d Hu H; cbn; [reflexivity|].
  rewrite IH.
  - apply running_pnl_del. intros t. apply H. apply list_elem_of_here.
  - now apply unique_keys_dict_del.
  - intros r' t Hin Hget.
    destruct (sub_ledger_del r d d (sub_ledger_refl d Hu)) as [_ Hsub].
    apply (H r' t); [now apply list_elem_of_further | now apply Hsub].
Qed.

Lemma closed_marked_close (d : list (string * TradeData)) (rs : list string)
    (tid : string) (trade t' : TradeData) :
  closed_marked d rs -> dict_get tid d = Some trade ->
  status t' <> RUNNING ->
  closed_marked (dict_set tid t' d) (rs ++ [tid]).
Proof.
  intros [Hu Hm] Hget Hst. split.
  - unfold unique_keys. now rewrite (keys_dict_set_present _ _ _ _ Hget).
  - intros r t Hin Hr. destruct (decide (tid = r)) as [<- | Hne].
    + rewrite dict_get_set_eq in Hr. congruence.
    + rewrite dict_get_set_ne in Hr by exact Hne.
      apply elem_of_app in Hin as [Hin | Hin]; [eauto|].
      apply list_elem_of_singleton in Hin. congruence.
Qed.

Lemma closed_marked_keep (d : list (string * TradeData)) (rs : list string)
    (tid : string) (trade t' : TradeData) :
  closed_marked d rs -> dict_get tid d = Some trade ->
  status trade = RUNNING ->
  closed_marked (dict_set tid t' d) rs.
Proof.
  intros [Hu Hm] Hget Hst. split.
  - unfold unique_keys. now rewrite (keys_dict_set_present _ _ _ _ Hget).
  - intros r t Hin Hr. destruct (decide (tid = r)) as [<- | Hne].
    + exfalso. now apply (Hm tid trade Hin Hget).
    + rewrite dict_get_set_ne in Hr by exact Hne. eauto.
Qed.

Lemma closed_marked_sub (d' d : list (string * TradeData))
    (rs : list string) :
  closed_marked d rs -> sub_ledger d' d -> closed_marked d' rs.
Proof. intros [_ Hm] [Hu Hsub]. split; [exact Hu | eauto]. Qed.

Lemma closed_marked_refresh (d : list (string * TradeData))
    (rs : list string) :
  closed_marked d rs ->
  closed_marked (map (fun p => (fst p, refresh_margin (snd p))) d) rs.
Proof.
  intros [Hu Hm]. split.
  - unfold unique_keys. now rewrite keys_map_values.
  - intros r t Hin Hr. rewrite dict_get_map in Hr.
    destruct (dict_get r d) as [t0|] eqn:E; [|discriminate].
    injection Hr as <-.
    destruct (refresh_margin_frame t0) as (-> & _). eauto.
Qed.

Lemma simulate_trade_status (normal : Q -> Q -> Q) (s : CurrencyPairConfig)
    (now : Q) (trade t' : TradeData) (r : option string) :
  simulate_trade normal s now trade = Ok (t', r) ->
  match r with
  | Some _ => status t' = COMPLETED
  | None => status t' = status trade
  end.
Proof.
  intros H.
  destruct (simulate_trade_cases _ _ _ _ _ _ H)
    as (t1 & Ht1 & [(t2 & reason & _ & -> & ->) | (_ & -> & ->)]).
  - reflexivity.
  - now destruct (advance_trade_frame _ _ _ _ _ Ht1) as (_ & -> & _).
Qed.

(** One step of the loop keeps its state well marked. *)
Lemma tick_trade_closed_marked (normal : nat -> Q -> Q -> Q)
    (faults : DbFaults) (now : Q) (acc acc' : Account)
    (rs rs' : list string) (tid : string) :
  closed_marked (active_trades acc) rs ->
  tick_trade normal faults now acc rs tid = Ok (acc', rs') ->
  closed_marked (active_trades acc') rs'.
Proof.
  intros Hm H. unfold tick_trade in H.
  destruct (dict_get tid (active_trades acc)) as [trade|] eqn:Hget;
    [|injection H as <- <-; exact Hm].
  destruct (status trade) eqn:Hst; cbn [TradeStatus_eqb negb] in H;
    try (injection H as <- <-; exact Hm).
  assert (Hstop : forall acc2 : Account,
            save_stopped_trade faults
              (stop_disabled_trade acc tid trade now) tid
              (close_trade_object trade STOPPED now) = Ok acc2 ->
            closed_marked (active_trades acc2) (rs ++ [tid])).
  { intros acc2 Hs. unfold save_stopped_trade in Hs.
    destruct (query_raises faults tid); [discriminate|].
    destruct (commit_raises faults); [discriminate|].
    injection Hs as <-. cbn [active_trades set_database].
    unfold stop_disabled_trade.
    match goal with |- context [update_account_metrics ?a] =>
      destruct (update_account_metrics_unfold a) as (-> & _) end.
    cbn [active_trades add_balance store_trade set_account_metrics
         set_active_trades].
    apply closed_marked_refresh.
    apply (closed_marked_close _ _ _ trade); [exact Hm | exact Hget|].
    cbn. discriminate. }
  destruct (instrument_disabled _ trade).
  - apply rbind_ok in H. destruct H as (acc2 & Hs & [= <- <-]). auto.
  - destruct (currency_pair_settings acc !! symbol trade) as [s|];
      [|injection H as <- <-; exact Hm].
    apply rbind_ok in H. destruct H as ([t' r] & Hsim & H).
    pose proof (simulate_trade_status _ _ _ _ _ _ Hsim) as Hst'.
    destruct r as [reason|]; injection H as <- <-.
    + match goal with
      | |- context [transfer_completed_trades_to_database ?f ?a ?i] =>
          destruct (transfer_sub_ledger f a i) as (Hsub & _)
      end.
      { cbn. unfold unique_keys.
        rewrite (keys_dict_set_present _ _ _ _ Hget). apply Hm. }
      eapply closed_marked_sub; [|exact Hsub].
      cbn. apply (closed_marked_close _ _ _ trade); [exact Hm | exact Hget|].
      congruence.
    + cbn. apply (closed_marked_keep _ _ _ trade); assumption.
Qed.

Lemma tick_trades_closed_marked (normal : nat -> Q -> Q -> Q)
    (faults : string -> DbFaults) (now : Q) (snapshot : list string)
    (acc acc' : Account) (rs rs' : list string) :
  closed_marked (active_trades acc) rs ->
  tick_trades normal faults now acc rs snapshot = Ok (acc', rs') ->
  closed_marked (active_trades acc') rs'.
Proof.
  revert acc rs. induction snapshot as [|tid rest IH]; intros acc rs Hm H.
  - injection H as <- <-. exact Hm.
  - cbn [tick_trades] in H. apply rbind_ok in H.
    destruct H as ([acc1 rs1] & Hstep & H). cbn [fst snd] in H.
    eapply IH; [|exact H].
    eapply tick_trade_closed_marked; [exact Hm | exact Hstep].
Qed.

(** The invariant survives the deletion of trades that are not RUNNING. *)
Lemma metrics_invariant_remove (acc : Account) (rs : list string) :
  closed_marked (active_trades acc) rs ->
  metrics_invariant acc ->
  metrics_invariant
    (set_active_trades acc (remove_trades (active_trades acc) rs)).
Proof.
  intros [Hu Hm] Hinv. unfold metrics_invariant in *.
  cbn [account_metrics active_trades set_active_trades].
  now rewrite (running_pnl_remove_trades rs _ Hu Hm).
Qed.

Lemma is_closed_not_running (t : TradeData) :
  is_closed t = true -> status t <> RUNNING.
Proof. unfold is_closed. destruct (status t); cbn; congruence. Qed.

Lemma dict_get_unique (k : string) (t : TradeData)
    (d : list (string * TradeData)) :
  unique_keys d -> (k, t) ∈ d -> dict_get k d = Some t.
Proof.
  unfold unique_keys. induction d as [|[k' t'] rest IH]; cbn; intros Hu Hin.
  - apply not_elem_of_nil in Hin. contradiction.
  - apply NoDup_cons in Hu as [Hn Hu].
    apply elem_of_cons in Hin as [[= <- <-] | Hin].
    + now rewrite String.eqb_refl.
    + destruct (String.eqb k k') eqn:E; [|auto].
      apply String.eqb_eq in E. subst k'. exfalso. apply Hn.
      change k with (fst (k, t)). now apply list_elem_of_fmap_2.
Qed.

(** The ids the session marks for removal are ids of its batch. *)
Lemma upsert_closed_marks (P : string -> Prop) (faults : DbFaults)
    (completed : list (string * TradeData)) (session : gmap string TradeData)
    (rs : list string) :
  (forall (k : string) (t : TradeData), (k, t) ∈ completed -> P k) ->
  (forall r : string, r ∈ rs -> P r) ->
  forall r : string,
    r ∈ snd (upsert_closed faults session completed rs) -> P r.
Proof.
  revert session rs.
  induction completed as [|[tid trade] rest IH]; intros session rs Hc Hrs;
    cbn [upsert_closed snd]; [exact Hrs|].
  assert (Hrest : forall k t, (k, t) ∈ rest -> P k)
    by (intros k t Hin; apply (Hc k t); now apply list_elem_of_further).
  destruct (query_raises faults tid); [now apply IH|].
  apply IH; [exact Hrest|].
  intros r Hin. apply elem_of_app in Hin as [Hin | Hin]; [auto|].
  apply list_elem_of_singleton in Hin. subst r.
  apply (Hc tid trade). apply list_elem_of_here.
Qed.

Lemma running_pnl_cleanup (rs : list string)
    (d : list (string * TradeData)) :
  running_pnl (cleanup_after_error d rs) = running_pnl d.
Proof.
  unfold cleanup_after_error. revert d.
  induction rs as [|r rs IH]; intros d; cbn; [reflexivity|].
  rewrite IH. destruct (dict_get r d) as [t|] eqn:E; [|reflexivity].
  destruct (is_closed t) eqn:Ec; [|reflexivity].
  apply running_pnl_del. intros t' Ht'. rewrite E in Ht'.
  injection Ht' as <-. now apply is_closed_not_running.
Qed.

(** The transfer deletes no RUNNING trade. *)
Lemma transfer_running_pnl (faults : DbFaults) (acc : Account)
    (trade_id : option string) :
  unique_keys (active_trades acc) ->
  running_pnl
    (active_trades (transfer_completed_trades_to_database faults acc trade_id))
  = running_pnl (active_trades acc).
Proof.
  intros Hu. unfold transfer_completed_trades_to_database.
  set (completed :=
         match trade_id with
         | Some tid =>
             match dict_get tid (active_trades acc) with
             | Some trade => if is_closed trade then [(tid, trade)] else []
             | None => []
             end
         | None =>
             List.filter (fun p => is_closed (snd p)) (active_trades acc)
         end).
  assert (Hc : forall (k : string) (t : TradeData),
            (k, t) ∈ completed ->
            forall t' : TradeData,
              dict_get k (active_trades acc) = Some t' ->
              status t' <> RUNNING).
  { intros k t Hin t' Hget. subst completed. destruct trade_id as [tid|].
    - destruct (dict_get tid (active_trades acc)) as [trade|] eqn:E;
        [|apply not_elem_of_nil in Hin; contradiction].
      destruct (is_closed trade) eqn:Ec;
        [|apply not_elem_of_nil in Hin; contradiction].
      apply list_elem_of_singleton in Hin. injection Hin as -> ->.
      rewrite E in Hget. injection Hget as <-.
      now apply is_closed_not_running.
    - apply list_elem_of_In, filter_In in Hin. destruct Hin as [Hin Hcl].
      apply list_elem_of_In in Hin.
      rewrite (dict_get_unique _ _ _ Hu Hin) in Hget. injection Hget as <-.
      now apply is_closed_not_running. }
  destruct completed as [|c rest] eqn:Ecompleted; [reflexivity|].
  pose proof (upsert_closed_marks
                (fun k => forall t', dict_get k (active_trades acc) = Some t'
                                     -> status t' <> RUNNING)
                faults (c :: rest) (database acc) [] Hc) as Hmarks.
  destruct (upsert_closed faults (database acc) (c :: rest) [])
    as [session to_remove].
  cbn [snd] in Hmarks.
  destruct (commit_raises faults); [destruct (rollback_raises faults)|]; cbn.
  - apply running_pnl_cleanup.
  - reflexivity.
  - apply running_pnl_remove_trades; [exact Hu|].
    intros r t Hin. apply Hmarks; [|exact Hin].
    intros r0 Hr0. apply not_elem_of_nil in Hr0. contradiction.
Qed.

Lemma tick_metrics_invariant (normal : nat -> Q -> Q -> Q)
    (faults : string -> DbFaults) (now : Q) (acc acc' : Account) :
  unique_keys (active_trades acc) ->
  account_simulate_trades normal faults now acc = Ok acc' ->
  metrics_invariant acc'.
Proof.
  intros Hu H. unfold account_simulate_trades in H.
  apply rbind_ok in H. destruct H as ([acc1 rs] & Hloop & [= <-]).
  cbn [fst snd].
  assert (Hm : closed_marked (active_trades acc1) rs).
  { eapply tick_trades_closed_marked; [|exact Hloop].
    split; [exact Hu|]. intros r t Hin.
    apply not_elem_of_nil in Hin. contradiction. }
  apply metrics_invariant_remove;
    [|apply update_account_metrics_establishes].
  destruct (update_account_metrics_unfold acc1) as (-> & _).
  now apply closed_marked_refresh.
Qed.

Lemma start_trade_metrics_invariant (acc acc' : Account) (tid : string)
    (now : Q) (sym : string) (request : StartTradeRequest) :
  start_trade acc tid now sym request = Ok acc' -> metrics_invariant acc'.
Proof.
  unfold start_trade. intros H. cbv zeta in H.
  destruct (currency_pair_settings acc !! sym) as [s|]; [|discriminate].
  destruct (_ || _); [discriminate|].
  destruct (starting_buy_price request) as [p|], (direction request);
    cbn beta iota in H;
    (destruct (Qle_bool _ 0); [discriminate|]);
    apply rbind_ok in H; destruct H as (tp & Htp & H);
    (destruct (Qltb (free_margin _) _); [discriminate|]);
    injection H as <-; apply update_account_metrics_establishes.
Qed.

Lemma close_trade_metrics_invariant (faults : DbFaults) (now : Q)
    (acc acc' : Account) (tid : string) :
  unique_keys (active_trades acc) ->
  close_trade faults now acc tid = Ok acc' -> metrics_invariant acc'.
Proof.
  intros Hu H. unfold close_trade in H.
  destruct (dict_get tid (active_trades acc)) as [trade|] eqn:Hget;
    [|discriminate].
  destruct (negb _); [discriminate|]. injection H as <-.
  unfold metrics_invariant.
  cbn [account_metrics active_trades set_active_trades].
  match goal with |- context [update_account_metrics ?a] =>
    pose proof (update_account_metrics_establishes a) as Hinv;
    destruct (update_account_metrics_unfold a) as (Hl & _);
    set (acc1 := update_account_metrics a) in *
  end.
  assert (Hget1 : dict_get tid (active_trades acc1)
                  = Some (close_trade_object trade COMPLETED now)).
  { rewrite Hl. cbn. now rewrite dict_get_map, dict_get_set_eq. }
  assert (Hu1 : unique_keys (active_trades acc1)).
  { rewrite Hl. cbn. unfold unique_keys.
    now rewrite keys_map_values, (keys_dict_set_present _ _ _ _ Hget). }
  destruct (transfer_sub_ledger faults acc1 (Some tid) Hu1)
    as ([Hu2 Hsub] & Hmet & _).
  pose proof (transfer_running_pnl faults acc1 (Some tid) Hu1) as Hpnl.
  rewrite Hmet, running_pnl_del, Hpnl; [exact Hinv|].
  intros t Ht. apply Hsub in Ht. rewrite Hget1 in Ht. injection Ht as <-.
  cbn. discriminate.
Qed.

(** C6. After every execution of [update_account_metrics], for every
    account, the metrics invariant holds: [free_margin == max(0, equity -
    margin)], [equity == balance + the sum of profit_loss over RUNNING
    trades], and [margin_level] is [equity / margin * 100] when
    [margin > 0] and [0] when [margin == 0]. Hence it holds after every
    tick, and after the mutating operations [start_trade] and
    [close_trade]. *)
Theorem metrics_invariant_after_recompute :
  (forall acc : Account,
     let m := account_metrics (update_account_metrics acc) in
     free_margin m == Qmax 0 (equity m - margin m)
     /\ equity m
        == balance m
           + running_pnl (active_trades (update_account_metrics acc))
     /\ (margin m > 0 -> margin_level m == equity m / margin m * 100)
     /\ (margin m == 0 -> margin_level m == 0))
  /\ (forall (normal : nat -> Q -> Q -> Q) (faults : string -> DbFaults)
         (now : Q) (acc acc' : Account),
        unique_keys (active_trades acc) ->
        account_simulate_trades normal faults now acc = Ok acc' ->
        metrics_invariant acc')
  /\ (forall (acc acc' : Account) (tid : string) (now : Q) (sym : string)
         (request : StartTradeRequest),
        start_trade acc tid now sym request = Ok acc' ->
        metrics_invariant acc')
  /\ (forall (faults : DbFaults) (now : Q) (acc acc' : Account)
         (tid : string),
        unique_keys (active_trades acc) ->
        close_trade faults now acc tid = Ok acc' ->
        metrics_invariant acc').
Proof.
  split; [exact update_account_metrics_establishes|].
  split; [exact tick_metrics_invariant|].
  split; [exact start_trade_metrics_invariant|].
  exact close_trade_metrics_invariant.
Qed.

(** ** The theorems at concrete inputs *)

(** C1 at the EURUSD SELL trade that crosses its LOSS target of 5. *)
Lemma completed_trade_pnl_is_target_witness :
  exists (t' : TradeData) (reason : option string),
    status eurusd_sell_near_loss = RUNNING
    /\ simulate_trade (constant_draw 0.00009 0%nat) EURUSD_settings 0
         eurusd_sell_near_loss
       = Ok (t', reason)
    /\ status t' = COMPLETED
    /\ match target_type t' with
       | PROFIT => profit_loss t' = target_amount t'
       | LOSS => profit_loss t' = - target_amount t'
       end.
Proof.
  eexists. eexists.
  split; [reflexivity|].
  split; [vm_compute; reflexivity|].
  split; [reflexivity|].
  apply (completed_trade_pnl_is_target (constant_draw 0.00009 0%nat)
           EURUSD_settings 0 eurusd_sell_near_loss _
           (Some "target_loss_reached"%string));
    [reflexivity | vm_compute; reflexivity | reflexivity].
Defined.

(** C3 at the same trade: it is closed, and the LOSS condition holds. *)
Lemma target_detection_edge_triggered_witness :
  status eurusd_sell_near_loss = RUNNING
  /\ 0 < current_buy_price eurusd_sell_near_loss
  /\ 0 <= spread EURUSD_settings
  /\ ~ lot_size eurusd_sell_near_loss == 0
  /\ exists (t1 t' : TradeData) (reason : option string),
       advance_trade (constant_draw 0.00009 0%nat) EURUSD_settings 0
         eurusd_sell_near_loss
       = Ok t1
       /\ simulate_trade (constant_draw 0.00009 0%nat) EURUSD_settings 0
            eurusd_sell_near_loss
          = Ok (t', reason)
       /\ (status t' = COMPLETED
           <-> profit_loss eurusd_sell_near_loss
               > - target_amount eurusd_sell_near_loss
               /\ - target_amount eurusd_sell_near_loss >= profit_loss t1).
Proof.
  assert (H1 : status eurusd_sell_near_loss = RUNNING) by reflexivity.
  assert (H2 : 0 < current_buy_price eurusd_sell_near_loss) by reflexivity.
  assert (H3 : 0 <= spread EURUSD_settings) by (vm_compute; discriminate).
  assert (H4 : ~ lot_size eurusd_sell_near_loss == 0)
    by (vm_compute; discriminate).
  repeat (split; [assumption|]).
  destruct (target_detection_edge_triggered (constant_draw 0.00009 0%nat)
              EURUSD_settings 0 eurusd_sell_near_loss H1)
    as (Hpartial & Htotal).
  destruct (Htotal H2 H3 H4) as (t' & reason & Hs).
  destruct (Hpartial t' reason Hs) as (t1 & Ha & Hiff & _).
  exists t1, t', reason. split; [exact Ha|]. split; [exact Hs|]. exact Hiff.
Defined.

(** C6 at the tick that closes the EURUSD SELL trade. *)
Lemma metrics_invariant_after_recompute_witness :
  exists acc' : Account,
    unique_keys (active_trades account_near_loss)
    /\ account_simulate_trades (constant_draw 0.00009) (fun _ => no_faults)
         0 account_near_loss
       = Ok acc'
    /\ metrics_invariant acc'.
Proof.
  assert (Hu : unique_keys (active_trades account_near_loss))
    by (apply NoDup_singleton).
  eassert (Ht : account_simulate_trades (constant_draw 0.00009)
                  (fun _ => no_faults) 0 account_near_loss = Ok _)
    by (vm_compute; reflexivity).
  eexists. split; [exact Hu|]. split; [exact Ht|].
  exact (proj1 (proj2 metrics_invariant_after_recompute) _ _ _ _ _ Hu Ht).
Defined.

(** C7, amended, at the EURUSD BUY trade opened with the defaults. *)
Lemma start_trade_target_price_is_fee_free_back_solve_witness :
  exists (acc' : Account) (t t' : TradeData),
    start_trade fresh_account "0000000001" 0 "EURUSD" (default_request BUY)
    = Ok acc'
    /\ dict_get "0000000001" (active_trades acc') = Some t
    /\ back_calculate (without_fees t) (signed_target t) 0.0002 = Ok t'
    /\ target_price t == closing_side t'.
Proof.
  eassert (Hs : start_trade fresh_account "0000000001" 0 "EURUSD"
                  (default_request BUY) = Ok _)
    by (vm_compute; reflexivity).
  destruct (start_trade_target_price_is_fee_free_back_solve _ _ _ _ _ _
              0.0002 Hs) as (t & t' & Hget & Hb & Heq).
  eexists. exists t, t'. split; [exact Hs|]. split; [exact Hget|].
  split; [exact Hb | exact Heq].
Defined.

(** C8 at the EURUSD BUY trade whose instrument has been disabled. *)
Lemma disabled_instrument_short_circuit_witness :
  dict_get "0000000003" (active_trades account_with_edited_record)
  = Some eurusd_buy_running
  /\ status eurusd_buy_running = RUNNING
  /\ currency_pair_settings account_with_edited_record !! "EURUSD"%string
     = Some EURUSD_buy_disabled
  /\ buy_enabled EURUSD_buy_disabled = false
  /\ exists (acc1 : Account) (trade' : TradeData),
       tick_trade (constant_draw 0) no_faults 10 account_with_edited_record
         [] "0000000003"
       = Ok (set_database acc1
               (<["0000000003"%string := trade']>
                  (database account_with_edited_record)),
             ["0000000003"%string])
       /\ rng_calls acc1 = rng_calls account_with_edited_record
       /\ dict_get "0000000003" (active_trades acc1) = Some trade'
       /\ status trade' = STOPPED
       /\ current_buy_price trade' = 1.1729
       /\ current_sell_price trade' = 1.1731
       /\ closing_price trade' = Some 1.1729
       /\ swap trade' = 0
       /\ profit_loss trade' = 1.
Proof.
  assert (H1 : dict_get "0000000003"
                 (active_trades account_with_edited_record)
               = Some eurusd_buy_running) by reflexivity.
  assert (H2 : status eurusd_buy_running = RUNNING) by reflexivity.
  assert (H3 : currency_pair_settings account_with_edited_record
               !! symbol eurusd_buy_running
               = Some EURUSD_buy_disabled) by (vm_compute; reflexivity).
  assert (H4 : buy_enabled EURUSD_buy_disabled = false) by reflexivity.
  repeat (split; [assumption|]).
  destruct (disabled_instrument_short_circuit (constant_draw 0) no_faults 10
              account_with_edited_record [] "0000000003" eurusd_buy_running
              H1 H2
              (or_intror
                 (ex_intro _ EURUSD_buy_disabled
                    (conj H3 (or_introl (conj eq_refl H4))))))
    as (acc1 & trade' & _ & _ & Hok & _ & Hrng & Hget & Hst & Hbid & Hask
        & Hcl & _ & Hswap & Hpnl).
  exists acc1, trade'.
  split; [exact (Hok eq_refl eq_refl)|].
  repeat (split; [assumption|]). exact Hpnl.
Defined.

(** C9 at the USDCNH bid 7.1850 with a draw of 0.00006. *)
Lemma generate_mt5_price_bounds_witness :
  0 < 7.1850
  /\ exists p : Q,
       generate_mt5_price (fun _ _ => 0.00006) 7.1850 0.00005 7.1823 0.05
         7.18441837 0 BUY PROFIT "USDCNH"
       = Ok p
       /\ 7.1850 * (1 - 5 * 0.0001 / 7.1850) <= p
       /\ p <= 7.1850 * (1 + 5 * 0.0001 / 7.1850)
       /\ Qabs (p - 7.1850) <= 5 * 0.0001
       /\ 0.0001 <= p.
Proof.
  assert (H : 0 < 7.1850) by reflexivity.
  split; [exact H|].
  destruct (generate_mt5_price_bounds (fun _ _ => 0.00006) 7.1850 0.00005
              7.1823 0.05 7.18441837 0 BUY PROFIT "USDCNH" H)
    as (_ & p & Hp & Hlo & Hhi & Habs & Hpip & _).
  exists p. split; [exact Hp|]. split; [exact Hlo|]. split; [exact Hhi|].
  split; [exact Habs | exact Hpip].
Defined.

(** C10 at two calls that differ in target price, direction and target
    kind. *)
Lemma generate_mt5_price_unbiased_noninterference_witness :
  0 == 0
  /\ generate_mt5_price (fun _ _ => 0.00006) 7.1850 0.00005 7.1823 0.05
       7.18441837 0 BUY PROFIT "USDCNH"
     = generate_mt5_price (fun _ _ => 0.00006) 7.1850 0.00005 7.1823 0.05
         7.1 0 SELL LOSS "USDCNH".
Proof.
  assert (H : 0 == 0) by reflexivity.
  split; [exact H|].
  exact (generate_mt5_price_unbiased_noninterference (fun _ _ => 0.00006)
           7.1850 0.00005 7.1823 0.05 "USDCNH" 7.18441837 7.1 0 0 BUY SELL
           PROFIT LOSS H H).
Defined.

(** * Further properties *)

(** ** PriceModel: shape of the generated price *)

Lemma py_max_step (a x y : Q) :
  x <= y -> py_max a x <= py_max a y /\ py_max a y - py_max a x <= y - x.
Proof.
  intros H.
  destruct (py_max_spec a x) as [[? ->] | [? ->]];
    destruct (py_max_spec a y) as [[? ->] | [? ->]]; lra.
Qed.

Lemma py_min_step (a x y : Q) :
  x <= y -> py_min a x <= py_min a y /\ py_min a y - py_min a x <= y - x.
Proof.
  intros H.
  destruct (py_min_spec a x) as [[? ->] | [? ->]];
    destruct (py_min_spec a y) as [[? ->] | [? ->]]; lra.
Qed.

(** The clamp is monotone and moves no point further than its input. *)
Lemma clamp_price_step (prev pip x y : Q) :
  x <= y ->
  clamp_price prev pip x <= clamp_price prev pip y
  /\ clamp_price prev pip y - clamp_price prev pip x <= y - x.
Proof.
  intros Hxy. unfold clamp_price. cbv zeta.
  set (lo := prev * (1 - 5 * pip / prev)).
  set (hi := prev * (1 + 5 * pip / prev)).
  destruct (py_min_step hi x y Hxy) as [M1 L1].
  destruct (py_max_step lo _ _ M1) as [M2 L2].
  destruct (py_max_step pip _ _ M2) as [M3 L3].
  split; lra.
Qed.

(** The price the model returns, in closed form. *)
Lemma generate_mt5_price_closed_form (normal : Q -> Q -> Q)
    (prev vol mean mrs tp bf : Q) (dir : TradeDirection) (tt : TargetType)
    (sym : string) :
  0 < prev ->
  let pip := get_pip_value_for_symbol sym in
  let draw := normal 0 (vol * (0.0001 / pip)) in
  let reversion := mrs * ((mean - prev) / prev) in
  let bias :=
    py_max (py_min (bf * (tp - prev) / prev) 0.001) (- 0.001) in
  let change :=
    if Qltb 0 bf
    then draw + (if pushes_up dir tt then 1 else - (1)) * Qabs bias
    else draw in
  generate_mt5_price normal prev vol mean mrs tp bf dir tt sym
  = Ok (clamp_price prev pip (prev * (1 + change + reversion))).
Proof.
  intros Hprev. cbv zeta. unfold generate_mt5_price, clamp_price, pushes_up.
  assert (Hp : ~ prev == 0) by lra.
  assert (Hpip : ~ get_pip_value_for_symbol sym == 0)
    by (pose proof (pip_value_pos sym); lra).
  rewrite (fdiv_ok _ _ Hpip). cbn [rbind].
  rewrite !(fdiv_ok _ _ Hp). cbn [rbind].
  destruct (Qltb 0 bf); cbn [rbind]; reflexivity.
Qed.

Lemma capped_bias_bounds (b : Q) :
  0 <= Qabs (py_max (py_min b 0.001) (- 0.001))
  /\ Qabs (py_max (py_min b 0.001) (- 0.001)) <= 0.001.
Proof.
  split; [apply Qabs_nonneg|].
  apply Qabs_Qle_condition.
  destruct (py_min_spec b 0.001) as [[? ->] | [? ->]];
    match goal with |- context [py_max ?a ?c] =>
      destruct (py_max_spec a c) as [[? ->] | [? ->]] end; lra.
Qed.

(** X1. A positive [bias_factor] moves the generated price in the direction
    fixed by the trade direction and the target kind alone (up for
    BUY/PROFIT and SELL/LOSS, down otherwise), whichever side of
    [target_price] the previous price is on, and by at most 0.1% of the
    previous price: compared with the unbiased price for the same draw. *)
Theorem bias_pushes_in_target_direction (normal : Q -> Q -> Q)
    (prev vol mean mrs tp bf : Q) (dir : TradeDirection) (tt : TargetType)
    (sym : string) :
  0 < prev -> 0 < bf ->
  exists p0 pb : Q,
    generate_mt5_price normal prev vol mean mrs tp 0 dir tt sym = Ok p0
    /\ generate_mt5_price normal prev vol mean mrs tp bf dir tt sym = Ok pb
    /\ (pushes_up dir tt = true -> p0 <= pb /\ pb - p0 <= prev * 0.001)
    /\ (pushes_up dir tt = false -> pb <= p0 /\ p0 - pb <= prev * 0.001).
Proof.
  intros Hprev Hbf.
  pose proof (generate_mt5_price_closed_form normal prev vol mean mrs tp 0
                dir tt sym Hprev) as H0.
  pose proof (generate_mt5_price_closed_form normal prev vol mean mrs tp bf
                dir tt sym Hprev) as Hb.
  cbv zeta in H0, Hb.
  assert (E0 : Qltb 0 0 = false) by reflexivity.
  assert (Eb : Qltb 0 bf = true) by (now apply Qltb_lt).
  rewrite E0 in H0. rewrite Eb in Hb.
  eexists _, _. split; [exact H0|]. split; [exact Hb|].
  destruct (capped_bias_bounds (bf * (tp - prev) / prev)) as [B0 B1].
  set (B := Qabs (py_max (py_min (bf * (tp - prev) / prev) 0.001)
                    (- 0.001))) in *.
  assert (P0 : 0 <= prev * B) by (apply Qmult_le_0_compat; lra).
  assert (P1 : prev * B <= prev * 0.001) by (apply Qmult_le_l; lra).
  set (draw := normal 0 (vol * (0.0001 / get_pip_value_for_symbol sym))).
  set (rev := mrs * ((mean - prev) / prev)).
  split; intros Hdir; rewrite Hdir.
  - destruct (clamp_price_step prev (get_pip_value_for_symbol sym)
                (prev * (1 + draw + rev))
                (prev * (1 + (draw + 1 * B) + rev))) as [M L]; [lra|].
    split; [exact M | lra].
  - destruct (clamp_price_step prev (get_pip_value_for_symbol sym)
                (prev * (1 + (draw + - (1) * B) + rev))
                (prev * (1 + draw + rev))) as [M L]; [lra|].
    split; [exact M | lra].
Qed.

(** X2. With a zero draw and no bias the price model only reverts: for a
    reversion strength in (0, 1] and a mean of at least one pip, the
    generated price lies between the previous price and the mean (it moves
    toward the mean and never past it). *)
Theorem zero_draw_reverts_toward_mean (normal : Q -> Q -> Q)
    (prev vol mean mrs tp bf : Q) (dir : TradeDirection) (tt : TargetType)
    (sym : string) :
  0 < prev -> bf <= 0 -> 0 < mrs -> mrs <= 1 ->
  get_pip_value_for_symbol sym <= mean ->
  normal 0 (vol * (0.0001 / get_pip_value_for_symbol sym)) == 0 ->
  exists p : Q,
    generate_mt5_price normal prev vol mean mrs tp bf dir tt sym = Ok p
    /\ (prev <= mean -> prev <= p /\ p <= mean)
    /\ (mean <= prev -> mean <= p /\ p <= prev).
Proof.
  intros Hprev Hbf Hm0 Hm1 Hpipmean Hdraw.
  pose proof (generate_mt5_price_closed_form normal prev vol mean mrs tp bf
                dir tt sym Hprev) as H.
  cbv zeta in H.
  assert (Eb : Qltb 0 bf = false) by (now apply Qltb_ge).
  rewrite Eb in H. eexists. split; [exact H|].
  pose proof (pip_value_pos sym) as Hpip.
  set (pip := get_pip_value_for_symbol sym) in *.
  set (draw := normal 0 (vol * (0.0001 / pip))) in *.
  assert (Hx : prev * (1 + draw + mrs * ((mean - prev) / prev))
               == prev + mrs * (mean - prev))
    by (rewrite Hdraw; field; lra).
  set (x := prev * (1 + draw + mrs * ((mean - prev) / prev))) in *.
  assert (Hmm : forall d : Q, 0 <= d -> 0 <= mrs * d /\ mrs * d <= d).
  { intros d Hd. split; [apply Qmult_le_0_compat; lra|].
    rewrite <- (Qmult_1_l d) at 2. apply Qmult_le_compat_r; lra. }
  unfold clamp_price. cbv zeta.
  assert (Hlo : prev * (1 - 5 * pip / prev) == prev - 5 * pip)
    by (field; lra).
  assert (Hhi : prev * (1 + 5 * pip / prev) == prev + 5 * pip)
    by (field; lra).
  set (lo := prev * (1 - 5 * pip / prev)) in *.
  set (hi := prev * (1 + 5 * pip / prev)) in *.
  split; intros Hside.
  - destruct (Hmm (mean - prev)) as [D0 D1]; [lra|].
    destruct (py_min_spec hi x) as [[A ->] | [A ->]];
      match goal with |- context [py_max lo ?c] =>
        destruct (py_max_spec lo c) as [[? ->] | [? ->]] end;
      match goal with |- context [py_max pip ?c] =>
        destruct (py_max_spec pip c) as [[? ->] | [? ->]] end; lra.
  - destruct (Hmm (prev - mean)) as [D0 D1]; [lra|].
    assert (Hx' : x == prev - mrs * (prev - mean)) by (rewrite Hx; ring).
    destruct (py_min_spec hi x) as [[A ->] | [A ->]];
      match goal with |- context [py_max lo ?c] =>
        destruct (py_max_spec lo c) as [[? ->] | [? ->]] end;
      match goal with |- context [py_max pip ?c] =>
        destruct (py_max_spec pip c) as [[? ->] | [? ->]] end; lra.
Qed.

(** ** TradeData.calculate_pnl *)

(** The value [calculate_pnl] returns. *)
Lemma calculate_pnl_value (self self' : TradeData) (p : Q) :
  calculate_pnl self p = Ok self' ->
  let price_diff :=
    if TradeDirection_eqb (trade_direction self) BUY
    then p - entry_price self else entry_price self - p in
  profit_loss self'
  = (if startswith (symbol self) "USD"
     then price_diff * lot_size self * 100000 / p
     else price_diff * lot_size self * 100000)
    - (commission self + swap self)
  /\ (startswith (symbol self) "USD" = true -> ~ p == 0).
Proof.
  unfold calculate_pnl. cbn [symbol set_profit_loss]. intros H. cbv zeta.
  destruct (startswith (symbol self) "USD").
  - apply rbind_ok in H. destruct H as (u & Hu & [= <-]).
    apply rbind_ok in Hu. destruct Hu as (q & Hq & [= <-]).
    apply fdiv_inv in Hq. destruct Hq as (Hp & ->). cbn. split; auto.
  - cbn in H. injection H as <-. cbn. split; [reflexivity | discriminate].
Qed.

Lemma Qdiv_antitone (x p1 p2 : Q) :
  0 <= x -> 0 < p1 -> p1 <= p2 -> x / p2 <= x / p1.
Proof.
  intros Hx Hp1 Hp12.
  assert (E : x / p1 - x / p2 == x * (p2 - p1) / (p1 * p2))
    by (field; lra).
  assert (Hpp : 0 < p1 * p2) by (apply Qmult_lt_0_compat; lra).
  assert (Hn : 0 <= x * (p2 - p1)) by (apply Qmult_le_0_compat; lra).
  assert (Hq : 0 <= x * (p2 - p1) / (p1 * p2))
    by (apply Qle_shift_div_l; [exact Hpp | lra]).
  lra.
Qed.

(** X3. The pnl is monotone in the price: for a lot size that is not
    negative (and, for a USD-quoted symbol, positive prices and an entry
    price that is not negative), a higher price never lowers the pnl of a
    BUY trade and never raises the pnl of a SELL trade. *)
Theorem calculate_pnl_monotone (self : TradeData) (p1 p2 : Q) :
  0 <= lot_size self -> p1 <= p2 ->
  (startswith (symbol self) "USD" = true ->
   0 < p1 /\ 0 <= entry_price self) ->
  exists t1 t2 : TradeData,
    calculate_pnl self p1 = Ok t1 /\ calculate_pnl self p2 = Ok t2
    /\ match trade_direction self with
       | BUY => profit_loss t1 <= profit_loss t2
       | SELL => profit_loss t2 <= profit_loss t1
       end.
Proof.
  intros Hlot Hp Husd.
  assert (R1 : exists t1, calculate_pnl self p1 = Ok t1).
  { unfold calculate_pnl. cbn [symbol set_profit_loss].
    destruct (startswith (symbol self) "USD"); cbn [rbind]; [|eauto].
    destruct Husd as [Hp1 _]; [reflexivity|].
    rewrite fdiv_ok by lra. cbn [rbind]. eauto. }
  assert (R2 : exists t2, calculate_pnl self p2 = Ok t2).
  { unfold calculate_pnl. cbn [symbol set_profit_loss].
    destruct (startswith (symbol self) "USD"); cbn [rbind]; [|eauto].
    destruct Husd as [Hp1 _]; [reflexivity|].
    rewrite fdiv_ok by lra. cbn [rbind]. eauto. }
  destruct R1 as [t1 H1], R2 as [t2 H2]. exists t1, t2.
  split; [exact H1|]. split; [exact H2|].
  destruct (calculate_pnl_value _ _ _ H1) as [-> _].
  destruct (calculate_pnl_value _ _ _ H2) as [-> _].
  set (L := lot_size self * 100000).
  assert (HL : 0 <= L) by (unfold L; lra).
  set (e := entry_price self) in *.
  assert (Hlin : p1 * L <= p2 * L) by (apply Qmult_le_compat_r; lra).
  destruct (startswith (symbol self) "USD") eqn:Esym.
  - destruct Husd as [Hp1 He]; [reflexivity|].
    assert (HeL : 0 <= e * L) by (apply Qmult_le_0_compat; lra).
    pose proof (Qdiv_antitone (e * L) p1 p2 HeL Hp1 Hp) as Hd.
    destruct (trade_direction self); cbn.
    + assert (E1 : (p1 - e) * lot_size self * 100000 / p1 == L - e * L / p1)
        by (unfold L; field; lra).
      assert (E2 : (p2 - e) * lot_size self * 100000 / p2 == L - e * L / p2)
        by (unfold L; field; lra).
      rewrite E1, E2. lra.
    + assert (E1 : (e - p1) * lot_size self * 100000 / p1 == e * L / p1 - L)
        by (unfold L; field; lra).
      assert (E2 : (e - p2) * lot_size self * 100000 / p2 == e * L / p2 - L)
        by (unfold L; field; lra).
      rewrite E1, E2. lra.
  - destruct (trade_direction self); cbn.
    + assert (E1 : (p1 - e) * lot_size self * 100000 == p1 * L - e * L)
        by (unfold L; ring).
      assert (E2 : (p2 - e) * lot_size self * 100000 == p2 * L - e * L)
        by (unfold L; ring).
      rewrite E1, E2. lra.
    + assert (E1 : (e - p1) * lot_size self * 100000 == e * L - p1 * L)
        by (unfold L; ring).
      assert (E2 : (e - p2) * lot_size self * 100000 == e * L - p2 * L)
        by (unfold L; ring).
      rewrite E1, E2. lra.
Qed.

(** ** SettlementEngine: prices across a tick *)

Lemma generate_mt5_price_floor (normal : Q -> Q -> Q)
    (prev vol mean mrs tp bf p : Q) (dir : TradeDirection) (tt : TargetType)
    (sym : string) :
  generate_mt5_price normal prev vol mean mrs tp bf dir tt sym = Ok p ->
  get_pip_value_for_symbol sym <= p.
Proof.
  unfold generate_mt5_price. intros H.
  apply rbind_ok in H. destruct H as (a1 & _ & H).
  apply rbind_ok in H. destruct H as (a2 & _ & H).
  apply rbind_ok in H. destruct H as (a3 & _ & H).
  apply rbind_ok in H. destruct H as (a4 & _ & H).
  injection H as <-.
  match goal with |- _ <= py_max ?a ?b =>
    destruct (py_max_spec a b) as [[? ->] | [? ->]] end; lra.
Qed.

(** The prices and the swap that [advance_trade] leaves on the trade. *)
Lemma advance_trade_prices (normal : Q -> Q -> Q) (s : CurrencyPairConfig)
    (now : Q) (t t1 : TradeData) :
  advance_trade normal s now t = Ok t1 ->
  current_sell_price t1 = current_buy_price t1 + spread s
  /\ get_pip_value_for_symbol (symbol t) <= current_buy_price t1
  /\ swap t1
     = (if TradeDirection_eqb (trade_direction t) BUY
        then SWAP_RATE_BUY else SWAP_RATE_SELL)
       * lot_size t * 100000 * ((now - start_time t) / (24 * 3600)).
Proof.
  unfold advance_trade. intros H.
  apply rbind_ok in H. destruct H as (p & Hp & H).
  apply generate_mt5_price_floor in Hp.
  apply calculate_pnl_frame in H.
  destruct H as (_ & _ & -> & -> & -> & _). cbn. auto.
Qed.

(** X4. Whatever a tick does to an enabled RUNNING trade (advance it, or
    close it at the back-solved price), it leaves
    [current_sell_price == current_buy_price + spread]. *)
Theorem simulate_trade_keeps_spread (normal : Q -> Q -> Q)
    (s : CurrencyPairConfig) (now : Q) (trade t' : TradeData)
    (r : option string) :
  simulate_trade normal s now trade = Ok (t', r) ->
  current_sell_price t' == current_buy_price t' + spread s.
Proof.
  intros H.
  destruct (simulate_trade_cases _ _ _ _ _ _ H)
    as (t1 & Ht1 & [(t2 & reason & Hd & -> & ->) | (_ & -> & ->)]).
  - destruct (close_trade_object_frame t2 COMPLETED now)
      as (_ & _ & _ & _ & -> & -> & _).
    unfold detect_target in Hd.
    destruct (target_type t1);
      [destruct (profit_crossed _ _) | destruct (loss_crossed _ _)];
      try discriminate;
      apply rbind_ok in Hd; destruct Hd as (u & Hu & [= <- _]);
      exact (back_calculate_spread _ _ _ _ Hu).
  - destruct (advance_trade_prices _ _ _ _ _ Ht1) as (-> & _). reflexivity.
Qed.

(** A trade that stays RUNNING stays tradable. *)
Lemma simulate_trade_tradable (normal : Q -> Q -> Q)
    (settings : gmap string CurrencyPairConfig) (s : CurrencyPairConfig)
    (now : Q) (trade : TradeData) :
  tradable settings trade -> 0 <= spread s ->
  exists (t' : TradeData) (r : option string),
    simulate_trade normal s now trade = Ok (t', r)
    /\ (r = None -> status t' = status trade /\ tradable settings t').
Proof.
  intros (Hbid & Hlot & s0 & Hs0 & Hen & Hsp0) Hsp.
  destruct (simulate_trade_returns normal s now trade Hbid Hsp Hlot)
    as (t' & r & Hsim).
  exists t', r. split; [exact Hsim|]. intros ->.
  destruct (simulate_trade_cases _ _ _ _ _ _ Hsim)
    as (t1 & Ht1 & [(t2 & reason & _ & Hr & _) | (_ & _ & ->)]);
    [discriminate|].
  destruct (advance_trade_frame _ _ _ _ _ Ht1) as (Hc & Hst & _).
  destruct (advance_trade_prices _ _ _ _ _ Ht1) as (_ & Hfloor & _).
  pose proof (pip_value_pos (symbol trade)) as Hpip.
  unfold same_contract in Hc.
  destruct Hc as (_ & Esym & _ & _ & _ & _ & _ & Elot & Edir & _).
  split; [exact Hst|]. split; [lra|]. split; [rewrite Elot; exact Hlot|].
  exists s0. rewrite Esym. split; [exact Hs0|]. split; [|exact Hsp0].
  unfold instrument_disabled in *. now rewrite Edir.
Qed.

(** ** The entries of the ledger *)

Lemma dict_get_elem {V : Type} (k : string) (v : V) (d : list (string * V)) :
  dict_get k d = Some v -> (k, v) ∈ d.
Proof.
  induction d as [|[k' v'] rest IH]; cbn; [discriminate|].
  destruct (String.eqb k k') eqn:E.
  - apply String.eqb_eq in E. subst k'. intros [= ->].
    apply list_elem_of_here.
  - intros H. apply list_elem_of_further. auto.
Qed.

Lemma elem_dict_set {V : Type} (k j : string) (v u : V)
    (d : list (string * V)) :
  (j, u) ∈ dict_set k v d -> (j, u) ∈ d \/ (j, u) = (k, v).
Proof.
  induction d as [|[k' v'] rest IH]; cbn.
  - intros H. apply list_elem_of_singleton in H. auto.
  - destruct (String.eqb k k') eqn:E; intros H;
      apply elem_of_cons in H as [H | H].
    + apply String.eqb_eq in E. subst k'. auto.
    + left. now apply list_elem_of_further.
    + left. rewrite H. apply list_elem_of_here.
    + destruct (IH H) as [? | ?]; [left; now apply list_elem_of_further|auto].
Qed.

Lemma elem_dict_del {V : Type} (k : string) (e : string * V)
    (d : list (string * V)) :
  e ∈ dict_del k d -> e ∈ d.
Proof.
  induction d as [|[k' v'] rest IH]; cbn; [auto|].
  destruct (String.eqb k k'); intros H.
  - now apply list_elem_of_further.
  - apply elem_of_cons in H as [-> | H];
      [apply list_elem_of_here | apply list_elem_of_further; auto].
Qed.

Lemma elem_remove_trades (rs : list string) (e : string * TradeData)
    (d : list (string * TradeData)) :
  e ∈ remove_trades d rs -> e ∈ d.
Proof.
  unfold remove_trades. revert d.
  induction rs as [|r rs IH]; intros d; cbn; [auto|].
  intros H. apply IH in H. eapply elem_dict_del. exact H.
Qed.

Lemma elem_cleanup_after_error (rs : list string) (e : string * TradeData)
    (d : list (string * TradeData)) :
  e ∈ cleanup_after_error d rs -> e ∈ d.
Proof.
  unfold cleanup_after_error. revert d.
  induction rs as [|r rs IH]; intros d; cbn; [auto|].
  intros H. apply IH in H. destruct (dict_get r d) as [t|]; [|exact H].
  destruct (is_closed t); [eapply elem_dict_del; exact H | exact H].
Qed.

(** The transfer adds nothing to the ledger and leaves the instrument
    table alone. *)
Lemma transfer_entries (faults : DbFaults) (acc : Account)
    (trade_id : option string) :
  currency_pair_settings
    (transfer_completed_trades_to_database faults acc trade_id)
  = currency_pair_settings acc
  /\ forall e : string * TradeData,
       e ∈ active_trades
             (transfer_completed_trades_to_database faults acc trade_id) ->
       e ∈ active_trades acc.
Proof.
  unfold transfer_completed_trades_to_database.
  match goal with |- context [match ?l with [] => _ | _ :: _ => _ end] =>
    destruct l as [|c completed] end; [auto|].
  destruct (upsert_closed faults (database acc) (c :: completed) [])
    as [session to_remove].
  destruct (commit_raises faults); [destruct (rollback_raises faults)|]; cbn;
    (split; [reflexivity|]); intros e H; auto.
  - eapply elem_cleanup_after_error. exact H.
  - eapply elem_remove_trades. exact H.
Qed.

Lemma tradable_refresh (settings : gmap string CurrencyPairConfig)
    (t : TradeData) :
  tradable settings t -> tradable settings (refresh_margin t).
Proof.
  unfold tradable, instrument_disabled.
  destruct (refresh_margin_frame t)
    as (_ & _ & _ & -> & _ & _ & _ & _ & _ & _ & -> & _ & -> & -> & _).
  auto.
Qed.

Lemma all_running_tradable_update (acc : Account) :
  all_running_tradable acc ->
  all_running_tradable (update_account_metrics acc).
Proof.
  unfold all_running_tradable. intros H k t.
  destruct (update_account_metrics_unfold acc) as (-> & -> & _).
  intros Hin Hst. apply list_elem_of_fmap in Hin.
  destruct Hin as ([k0 t0] & [= -> ->] & Hin). cbn in *.
  destruct (refresh_margin_frame t0) as (Est & _). rewrite Est in Hst.
  apply tradable_refresh. eauto.
Qed.

(** One step of the loop returns and keeps every RUNNING trade tradable,
    whatever the store does. *)
Lemma tick_trade_returns (normal : nat -> Q -> Q -> Q) (faults : DbFaults)
    (now : Q) (acc : Account) (rs : list string) (tid : string) :
  all_running_tradable acc ->
  exists (acc' : Account) (rs' : list string),
    tick_trade normal faults now acc rs tid = Ok (acc', rs')
    /\ all_running_tradable acc'.
Proof.
  intros Hall. unfold tick_trade.
  destruct (dict_get tid (active_trades acc)) as [trade|] eqn:Hget;
    [|eauto].
  destruct (status trade) eqn:Hst; cbn [TradeStatus_eqb negb]; eauto.
  pose proof (Hall tid trade (dict_get_elem _ _ _ Hget) Hst) as Htr.
  pose proof Htr as (Hbid & Hlot & s & Hs & Hen & Hsp).
  rewrite Hs, Hen.
  destruct (simulate_trade_tradable (normal (rng_calls acc)) _ s now trade
              Htr Hsp) as (t' & r & Hsim & Hkeep).
  rewrite Hsim. cbn [rbind].
  pose proof (simulate_trade_status _ _ _ _ _ _ Hsim) as Hst'.
  destruct r as [reason|].
  - eexists _, _. split; [reflexivity|].
    match goal with
    | |- all_running_tradable
           (transfer_completed_trades_to_database ?f ?a ?i) =>
        destruct (transfer_entries f a i) as (Hset & Hsub)
    end.
    intros k t Hin Hrun. rewrite Hset. apply Hsub in Hin. cbn in Hin |- *.
    apply elem_dict_set in Hin as [Hin | [= -> ->]]; [eauto | congruence].
  - eexists _, _. split; [reflexivity|].
    destruct (Hkeep eq_refl) as (_ & Htr').
    intros k t Hin Hrun. cbn in Hin |- *.
    apply elem_dict_set in Hin as [Hin | [= -> ->]]; [eauto | exact Htr'].
Qed.

Lemma tick_trades_returns (normal : nat -> Q -> Q -> Q)
    (faults : string -> DbFaults) (now : Q) (snapshot : list string)
    (acc : Account) (rs : list string) :
  all_running_tradable acc ->
  exists (acc' : Account) (rs' : list string),
    tick_trades normal faults now acc rs snapshot = Ok (acc', rs')
    /\ all_running_tradable acc'.
Proof.
  revert acc rs. induction snapshot as [|tid rest IH]; intros acc rs Hall.
  - cbn. eauto.
  - cbn [tick_trades].
    destruct (tick_trade_returns normal (faults tid) now acc rs tid Hall)
      as (acc1 & rs1 & -> & Hall1).
    cbn [rbind fst snd]. auto.
Qed.

(** X5. When every RUNNING trade of the ledger is tradable (positive bid,
    lot size not zero, instrument present, enabled for its direction and
    with a spread that is not negative), a tick returns, whatever the
    random draws and whatever the store does (failing lookups, commits or
    rollbacks), and every RUNNING trade it leaves is tradable again: no
    division by zero and no store failure ends the tick loop. *)
Theorem tick_returns_and_stays_tradable (normal : nat -> Q -> Q -> Q)
    (faults : string -> DbFaults) (now : Q) (acc : Account) :
  all_running_tradable acc ->
  exists acc' : Account,
    account_simulate_trades normal faults now acc = Ok acc'
    /\ all_running_tradable acc'.
Proof.
  intros Hall. unfold account_simulate_trades.
  destruct (tick_trades_returns normal faults now
              (map fst (active_trades acc)) acc [] Hall)
    as (acc1 & rs1 & -> & Hall1).
  cbn [rbind fst snd]. eexists. split; [reflexivity|].
  pose proof (all_running_tradable_update acc1 Hall1) as Hall2.
  intros k t Hin Hrun. cbn in Hin |- *.
  apply elem_remove_trades in Hin. eauto.
Qed.

(** X6. A store failure on the disabled-instrument path is not caught: when
    the first trade of the ledger is RUNNING, its instrument is missing or
    disabled for its direction, and the lookup or the commit of its write
    raises, the tick raises the store's exception. *)
Theorem disabled_path_store_failure_ends_tick (normal : nat -> Q -> Q -> Q)
    (faults : string -> DbFaults) (now : Q) (acc : Account) (tid : string)
    (trade : TradeData) (rest : list (string * TradeData)) :
  active_trades acc = (tid, trade) :: rest ->
  status trade = RUNNING ->
  instrument_disabled (currency_pair_settings acc !! symbol trade) trade
  = true ->
  query_raises (faults tid) tid = true \/ commit_raises (faults tid) = true ->
  account_simulate_trades normal faults now acc = Raise DatabaseError.
Proof.
  intros Hl Hst Hdis Hf. unfold account_simulate_trades.
  rewrite Hl. cbn [map fst tick_trades]. unfold tick_trade.
  rewrite Hl. cbn [dict_get]. rewrite String.eqb_refl, Hst.
  cbn [TradeStatus_eqb negb]. rewrite Hdis. unfold save_stopped_trade.
  destruct (query_raises (faults tid) tid); [reflexivity|].
  destruct Hf as [Hf | ->]; [discriminate | reflexivity].
Qed.

(** ** Persistence Bridge: what a session writes and removes *)

Lemma dict_get_none_notin {V : Type} (k : string) (d : list (string * V)) :
  k ∉ map fst d -> dict_get k d = None.
Proof.
  induction d as [|[k' v'] rest IH]; cbn; [reflexivity|].
  intros Hn. apply not_elem_of_cons in Hn as [Hne Hn].
  destruct (String.eqb k k') eqn:E; [|now apply IH].
  apply String.eqb_eq in E. contradiction.
Qed.

(** The session after the upserts of a batch with distinct ids. *)
Lemma upsert_closed_lookup (faults : DbFaults)
    (completed : list (string * TradeData)) (session : gmap string TradeData)
    (rs : list string) (k : string) :
  NoDup (map fst completed) ->
  fst (upsert_closed faults session completed rs) !! k
  = match dict_get k completed with
    | Some t =>
        if query_raises faults k then session !! k
        else guarded_upsert (session !! k) t
    | None => session !! k
    end.
Proof.
  revert session rs.
  induction completed as [|[tid trade] rest IH]; intros session rs Hnd;
    cbn [upsert_closed dict_get fst]; [reflexivity|].
  cbn in Hnd. apply NoDup_cons in Hnd as [Hn Hnd].
  destruct (String.eqb k tid) eqn:E.
  - apply String.eqb_eq in E. subst tid.
    rewrite (dict_get_none_notin _ _ Hn) in IH.
    destruct (query_raises faults k); rewrite IH by exact Hnd;
      [reflexivity|].
    unfold guarded_upsert.
    destruct (session !! k) as [ex|] eqn:Ek;
      [destruct (TradeStatus_eqb (status ex) RUNNING)|];
      rewrite ?lookup_insert_eq; auto.
  - assert (Hne : tid <> k)
      by (intros ->; rewrite String.eqb_refl in E; discriminate).
    destruct (query_raises faults tid); rewrite IH by exact Hnd;
      [reflexivity|].
    assert (Hk : forall m : gmap string TradeData,
              match session !! tid with
              | Some ex =>
                  if TradeStatus_eqb (status ex) RUNNING
                  then <[tid := trade]> session else session
              | None => <[tid := trade]> session
              end !! k = session !! k).
    { intros _. destruct (session !! tid) as [ex|];
        [destruct (TradeStatus_eqb (status ex) RUNNING)|];
        rewrite ?lookup_insert_ne by exact Hne; reflexivity. }
    rewrite (Hk session). reflexivity.
Qed.

(** The ids a session marks for removal: those whose lookup returned. *)
Lemma upsert_closed_removed (faults : DbFaults)
    (completed : list (string * TradeData)) (session : gmap string TradeData)
    (rs : list string) (k : string) :
  k ∈ snd (upsert_closed faults session completed rs)
  <-> k ∈ rs
      \/ (k ∈ map fst completed /\ query_raises faults k = false).
Proof.
  revert session rs.
  induction completed as [|[tid trade] rest IH]; intros session rs;
    cbn [upsert_closed map fst snd].
  - split; [auto | intros [H | [H _]]; [exact H|]].
    apply not_elem_of_nil in H. contradiction.
  - destruct (query_raises faults tid) eqn:Eq; rewrite IH.
    + split; intros [H | [H Hq]]; auto.
      * right. split; [now apply list_elem_of_further | exact Hq].
      * apply elem_of_cons in H as [-> | H]; [congruence | auto].
    + rewrite elem_of_app, list_elem_of_singleton.
      split.
      * intros [[H | ->] | [H Hq]]; auto.
        -- right. split; [apply list_elem_of_here | exact Eq].
        -- right. split; [now apply list_elem_of_further | exact Hq].
      * intros [H | [H Hq]]; auto.
        apply elem_of_cons in H as [-> | H]; auto.
Qed.

Lemma dict_get_remove_trades (rs : list string) (k : string)
    (d : list (string * TradeData)) :
  unique_keys d ->
  dict_get k (remove_trades d rs)
  = if decide (k ∈ rs) then None else dict_get k d.
Proof.
  unfold remove_trades. revert d.
  induction rs as [|r rs IH]; intros d Hu; cbn [fold_left].
  - destruct (decide (k ∈ [])) as [H|]; [|reflexivity].
    apply not_elem_of_nil in H. contradiction.
  - rewrite IH by (now apply unique_keys_dict_del).
    destruct (decide (k ∈ rs)) as [Hin | Hnin].
    + rewrite decide_True by (now apply list_elem_of_further). reflexivity.
    + destruct (decide (r = k)) as [-> | Hne].
      * rewrite decide_True by apply list_elem_of_here.
        now apply dict_get_del_eq_nodup.
      * rewrite decide_False
          by (intros H; apply elem_of_cons in H as [-> | H]; auto).
        now apply dict_get_del_ne.
Qed.

Lemma dict_get_filter_closed (k : string) (d : list (string * TradeData)) :
  unique_keys d ->
  dict_get k (List.filter (fun p => is_closed (snd p)) d)
  = match dict_get k d with
    | Some t => if is_closed t then Some t else None
    | None => None
    end.
Proof.
  unfold unique_keys. induction d as [|[k' t'] rest IH]; cbn; [auto|].
  intros Hnd. apply NoDup_cons in Hnd as [Hn Hnd].
  destruct (String.eqb k k') eqn:E.
  - apply String.eqb_eq in E. subst k'.
    destruct (is_closed t') eqn:Ec; cbn.
    + now rewrite String.eqb_refl.
    + rewrite IH by exact Hnd. now rewrite (dict_get_none_notin _ _ Hn).
  - destruct (is_closed t'); cbn; rewrite ?E; auto.
Qed.

Lemma keys_filter_sub (j : string) (d : list (string * TradeData)) :
  j ∈ map fst (List.filter (fun p => is_closed (snd p)) d) ->
  j ∈ map fst d.
Proof.
  induction d as [|[k' t'] rest IH]; cbn; [auto|].
  destruct (is_closed t'); cbn; intros H.
  - apply elem_of_cons in H as [-> | H];
      [apply list_elem_of_here | apply list_elem_of_further; auto].
  - apply list_elem_of_further. auto.
Qed.

Lemma unique_keys_filter_closed (d : list (string * TradeData)) :
  unique_keys d ->
  NoDup (map fst (List.filter (fun p => is_closed (snd p)) d)).
Proof.
  unfold unique_keys. induction d as [|[k' t'] rest IH]; cbn; [auto|].
  intros Hnd. apply NoDup_cons in Hnd as [Hn Hnd].
  destruct (is_closed t'); cbn; [|auto].
  apply NoDup_cons. split; [|auto].
  intros H. apply Hn. now apply keys_filter_sub.
Qed.

Lemma dict_get_key_elem {V : Type} (k : string) (d : list (string * V)) :
  k ∈ map fst d <-> exists v : V, dict_get k d = Some v.
Proof.
  split.
  - induction d as [|[k' v'] rest IH]; cbn; intros H.
    + apply not_elem_of_nil in H. contradiction.
    + destruct (String.eqb k k') eqn:E; [eauto|].
      apply elem_of_cons in H as [-> | H]; [|auto].
      rewrite String.eqb_refl in E. discriminate.
  - intros [v Hv]. apply dict_get_elem in Hv.
    change k with (fst (k, v)). now apply list_elem_of_fmap_2.
Qed.

Lemma transfer_sweep_lookup (faults : DbFaults) (acc : Account)
    (k : string) :
  unique_keys (active_trades acc) -> commit_raises faults = false ->
  let acc' := transfer_completed_trades_to_database faults acc None in
  let swept :=
    match dict_get k (active_trades acc) with
    | Some t => is_closed t && negb (query_raises faults k)
    | None => false
    end in
  dict_get k (active_trades acc')
  = (if swept then None else dict_get k (active_trades acc))
  /\ database acc' !! k
     = (if swept
        then match dict_get k (active_trades acc) with
             | Some t => guarded_upsert (database acc !! k) t
             | None => None
             end
        else database acc !! k).
Proof.
  intros Hu Hc. cbv zeta. unfold transfer_completed_trades_to_database.
  pose proof (dict_get_filter_closed k _ Hu) as Hf.
  pose proof (unique_keys_filter_closed _ Hu) as Hnd.
  set (completed := List.filter (fun p => is_closed (snd p))
                      (active_trades acc)) in *.
  destruct completed as [|c rest] eqn:Ecompleted.
  - cbn in Hf.
    destruct (dict_get k (active_trades acc)) as [t|]; [|auto].
    destruct (is_closed t); [discriminate | auto].
  - rewrite <- Ecompleted in *.
    pose proof (upsert_closed_lookup faults completed (database acc) [] k Hnd)
      as Hl.
    pose proof (upsert_closed_removed faults completed (database acc) [] k)
      as Hr.
    destruct (upsert_closed faults (database acc) completed [])
      as [session to_remove].
    cbn [fst snd] in Hl, Hr. rewrite Hc.
    cbn [active_trades database set_active_trades set_database].
    rewrite dict_get_remove_trades by exact Hu. rewrite Hl, Hf.
    assert (Hkey : k ∈ map fst completed
                   <-> exists t, dict_get k (active_trades acc) = Some t
                                 /\ is_closed t = true).
    { rewrite dict_get_key_elem, Hf. split.
      - intros [v Hv].
        destruct (dict_get k (active_trades acc)) as [t|]; [|discriminate].
        destruct (is_closed t) eqn:Ec; [eauto | discriminate].
      - intros (t & -> & ->). eauto. }
    destruct (dict_get k (active_trades acc)) as [t|] eqn:Hget.
    + destruct (is_closed t) eqn:Ec; cbn [andb].
      * destruct (query_raises faults k) eqn:Eq; cbn [negb].
        -- rewrite decide_False; [auto|].
           intros H. apply Hr in H as [H | [_ H]]; [|discriminate].
           apply not_elem_of_nil in H. contradiction.
        -- rewrite decide_True; [auto|].
           apply Hr. right. split; [|reflexivity]. apply Hkey. eauto.
      * rewrite decide_False; [auto|].
        intros H. apply Hr in H as [H | [H _]].
        -- apply not_elem_of_nil in H. contradiction.
        -- apply Hkey in H as (t0 & [= <-] & Ht0). congruence.
    + rewrite decide_False; [auto|].
      intros H. apply Hr in H as [H | [H _]].
      * apply not_elem_of_nil in H. contradiction.
      * apply Hkey in H as (t0 & Ht0 & _). discriminate.
Qed.

(** X7. With a commit that succeeds, the sweep
    [transfer_completed_trades_to_database(account)] does, for every id of
    a ledger with distinct keys: a closed trade whose lookup returned
    leaves the ledger and is upserted under the status guard (written
    unless the store holds a record that is not RUNNING); a closed trade
    whose lookup raised stays in the ledger with its row untouched; a
    RUNNING trade and an unknown id are left alone in both. The sweep
    keeps the keys of the ledger distinct and changes neither the account
    metrics (it credits nothing), nor the instrument table, nor the
    generator. *)
Theorem transfer_sweep_per_trade (faults : DbFaults) (acc : Account)
    (k : string) :
  unique_keys (active_trades acc) -> commit_raises faults = false ->
  let acc' := transfer_completed_trades_to_database faults acc None in
  let swept :=
    match dict_get k (active_trades acc) with
    | Some t => is_closed t && negb (query_raises faults k)
    | None => false
    end in
  dict_get k (active_trades acc')
  = (if swept then None else dict_get k (active_trades acc))
  /\ database acc' !! k
     = (if swept
        then match dict_get k (active_trades acc) with
             | Some t => guarded_upsert (database acc !! k) t
             | None => None
             end
        else database acc !! k)
  /\ unique_keys (active_trades acc')
  /\ account_metrics acc' = account_metrics acc
  /\ currency_pair_settings acc' = currency_pair_settings acc
  /\ rng_calls acc' = rng_calls acc.
Proof.
  intros Hu Hc. cbv zeta.
  destruct (transfer_sweep_lookup faults acc k Hu Hc) as [Hl Hd].
  destruct (transfer_sub_ledger faults acc None Hu) as ((Hu' & _) & Hm & Hr).
  destruct (transfer_entries faults acc None) as (Hs & _).
  split; [exact Hl|]. split; [exact Hd|]. split; [exact Hu'|].
  split; [exact Hm|]. split; [exact Hs | exact Hr].
Qed.

(** ** Persistence Bridge: the periodic snapshot *)

(** The snapshot session never changes a row that is not RUNNING. *)
Lemma snapshot_running_keeps_closed_record (faults : DbFaults)
    (trades : list (string * TradeData))
    (session session' : gmap string TradeData) (k : string)
    (record : TradeData) :
  snapshot_running faults session trades = Ok session' ->
  session !! k = Some record -> status record <> RUNNING ->
  session' !! k = Some record.
Proof.
  revert session.
  induction trades as [|[tid trade] rest IH]; intros session H Hk Hst;
    cbn [snapshot_running] in H; [injection H as <-; exact Hk|].
  destruct (negb _); [eapply IH; eauto|].
  destruct (query_raises faults tid); [discriminate|].
  eapply IH; [exact H | | exact Hst].
  destruct (decide (tid = k)) as [-> | Hne].
  - rewrite Hk. destruct (status record); cbn; congruence.
  - destruct (session !! tid) as [existing|];
      [destruct (TradeStatus_eqb (status existing) RUNNING)|];
      rewrite ?lookup_insert_ne by exact Hne; exact Hk.
Qed.

(** The session after the snapshot of a ledger with distinct keys. *)
Lemma snapshot_running_lookup (faults : DbFaults)
    (trades : list (string * TradeData))
    (session session' : gmap string TradeData) (k : string) :
  NoDup (map fst trades) ->
  snapshot_running faults session trades = Ok session' ->
  session' !! k
  = match dict_get k trades with
    | Some t =>
        if TradeStatus_eqb (status t) RUNNING
        then guarded_upsert (session !! k) t else session !! k
    | None => session !! k
    end.
Proof.
  revert session.
  induction trades as [|[tid trade] rest IH]; intros session Hnd H;
    cbn [snapshot_running dict_get] in *; [injection H as <-; reflexivity|].
  cbn in Hnd. apply NoDup_cons in Hnd as [Hn Hnd].
  destruct (String.eqb k tid) eqn:E.
  - apply String.eqb_eq in E. subst tid.
    pose proof (dict_get_none_notin _ _ Hn) as Hnone.
    destruct (TradeStatus_eqb (status trade) RUNNING); cbn [negb] in H.
    + destruct (query_raises faults k); [discriminate|].
      rewrite (IH _ Hnd H), Hnone. unfold guarded_upsert.
      destruct (session !! k) as [ex|] eqn:Ek;
        [destruct (TradeStatus_eqb (status ex) RUNNING)|];
        rewrite ?lookup_insert_eq; auto.
    + now rewrite (IH _ Hnd H), Hnone.
  - assert (Hne : tid <> k)
      by (intros ->; rewrite String.eqb_refl in E; discriminate).
    destruct (TradeStatus_eqb (status trade) RUNNING); cbn [negb] in H.
    + destruct (query_raises faults tid); [discriminate|].
      rewrite (IH _ Hnd H).
      assert (Hk : match session !! tid with
                   | Some ex =>
                       if TradeStatus_eqb (status ex) RUNNING
                       then <[tid := trade]> session else session
                   | None => <[tid := trade]> session
                   end !! k = session !! k).
      { destruct (session !! tid) as [ex|];
          [destruct (TradeStatus_eqb (status ex) RUNNING)|];
          rewrite ?lookup_insert_ne by exact Hne; reflexivity. }
      now rewrite Hk.
    + now rewrite (IH _ Hnd H).
Qed.

(** Without a failing lookup the snapshot session completes. *)
Lemma snapshot_running_returns (faults : DbFaults)
    (trades : list (string * TradeData)) (session : gmap string TradeData) :
  (forall k : string, query_raises faults k = false) ->
  exists session' : gmap string TradeData,
    snapshot_running faults session trades = Ok session'.
Proof.
  intros Hq. revert session.
  induction trades as [|[tid trade] rest IH]; intros session;
    cbn [snapshot_running]; [eauto|].
  destruct (negb _); [apply IH|]. rewrite Hq. apply IH.
Qed.

(** X8. The periodic save never changes a stored record that is not
    RUNNING, in its sweep or in its snapshot, whatever fails. *)
Theorem auto_save_keeps_closed_record (transfer_faults snapshot_faults :
    DbFaults) (acc : Account) (k : string) (record : TradeData) :
  database acc !! k = Some record -> status record <> RUNNING ->
  database
    (auto_save_trades_to_database transfer_faults snapshot_faults acc) !! k
  = Some record.
Proof.
  intros Hk Hst. unfold auto_save_trades_to_database.
  pose proof (transfer_keeps_closed_record transfer_faults acc None k record
                Hk Hst) as Ht.
  set (acc1 := transfer_completed_trades_to_database transfer_faults acc
                 None) in *.
  destruct (snapshot_running snapshot_faults (database acc1)
              (active_trades acc1)) as [session|e] eqn:Es; [|exact Ht].
  destruct (commit_raises snapshot_faults); [exact Ht|]. cbn.
  eapply snapshot_running_keeps_closed_record; eauto.
Qed.

(** The state after a periodic save in which nothing fails, id by id. *)
Lemma auto_save_lookup (ft fs : DbFaults) (acc : Account) (k : string) :
  unique_keys (active_trades acc) ->
  (forall j : string, query_raises ft j = false) ->
  commit_raises ft = false ->
  (forall j : string, query_raises fs j = false) ->
  commit_raises fs = false ->
  let acc' := auto_save_trades_to_database ft fs acc in
  dict_get k (active_trades acc')
  = match dict_get k (active_trades acc) with
    | Some t => if is_closed t then None else Some t
    | None => None
    end
  /\ database acc' !! k
     = match dict_get k (active_trades acc) with
       | Some t => guarded_upsert (database acc !! k) t
       | None => database acc !! k
       end
  /\ unique_keys (active_trades acc')
  /\ currency_pair_settings acc' = currency_pair_settings acc
  /\ account_metrics acc' = account_metrics acc
  /\ rng_calls acc' = rng_calls acc.
Proof.
  intros Hu Hqt Hct Hqs Hcs. cbv zeta. unfold auto_save_trades_to_database.
  destruct (transfer_sweep_lookup ft acc k Hu Hct) as [Hl Hd].
  destruct (transfer_sub_ledger ft acc None Hu) as ([Hu1 _] & Hm & Hr).
  destruct (transfer_entries ft acc None) as [Hs _].
  rewrite Hqt in Hl, Hd. cbn [negb] in Hl, Hd.
  set (acc1 := transfer_completed_trades_to_database ft acc None) in *.
  destruct (snapshot_running_returns fs (active_trades acc1) (database acc1)
              Hqs) as [session Hsnap].
  rewrite Hsnap, Hcs.
  cbn [active_trades database set_database currency_pair_settings
       account_metrics rng_calls].
  rewrite (snapshot_running_lookup fs _ _ _ k Hu1 Hsnap).
  destruct (dict_get k (active_trades acc)) as [t|].
  - rewrite andb_true_r in Hl, Hd. rewrite Hl, Hd. unfold is_closed.
    destruct (status t) eqn:Est; cbn; rewrite ?Est; cbn;
      repeat split; assumption || reflexivity.
  - rewrite Hl, Hd. repeat split; assumption || reflexivity.
Qed.

(** X9. After a periodic save in which nothing fails, every trade of the
    ledger (distinct keys) whose stored record is absent or still RUNNING
    is stored exactly as it is in memory; a RUNNING trade stays in the
    ledger unchanged and a closed one has left it. *)
Theorem auto_save_stores_ledger (ft fs : DbFaults) (acc : Account)
    (k : string) (t : TradeData) :
  unique_keys (active_trades acc) ->
  (forall j : string, query_raises ft j = false) ->
  commit_raises ft = false ->
  (forall j : string, query_raises fs j = false) ->
  commit_raises fs = false ->
  dict_get k (active_trades acc) = Some t ->
  (forall r : TradeData, database acc !! k = Some r -> status r = RUNNING) ->
  let acc' := auto_save_trades_to_database ft fs acc in
  database acc' !! k = Some t
  /\ dict_get k (active_trades acc')
     = (if TradeStatus_eqb (status t) RUNNING then Some t else None).
Proof.
  intros Hu Hqt Hct Hqs Hcs Hget Hguard. cbv zeta.
  destruct (auto_save_lookup ft fs acc k Hu Hqt Hct Hqs Hcs)
    as (Hl & Hd & _).
  rewrite Hl, Hd, Hget. split.
  - unfold guarded_upsert. destruct (database acc !! k) as [r|]; [|auto].
    now rewrite (Hguard r eq_refl).
  - unfold is_closed. destruct (status t); reflexivity.
Qed.

Lemma guarded_upsert_again (stored : option TradeData) (t : TradeData) :
  status t = RUNNING ->
  guarded_upsert (guarded_upsert stored t) t = guarded_upsert stored t.
Proof.
  intros Ht. unfold guarded_upsert.
  destruct stored as [ex|]; [destruct (status ex) eqn:E|]; cbn;
    rewrite ?Ht, ?E; reflexivity.
Qed.

Lemma filter_closed_nil (d : list (string * TradeData)) :
  (forall (k : string) (t : TradeData), (k, t) ∈ d -> is_closed t = false) ->
  List.filter (fun p => is_closed (snd p)) d = [].
Proof.
  induction d as [|[k t] rest IH]; intros H; cbn; [reflexivity|].
  rewrite (H k t) by apply list_elem_of_here.
  apply IH. intros k' t' Hin. apply (H k' t'). now apply list_elem_of_further.
Qed.

Lemma set_database_same (acc : Account) :
  set_database acc (database acc) = acc.
Proof. destruct acc; reflexivity. Qed.

(** X10. The periodic save is idempotent: when nothing fails, saving twice
    in a row (with no tick in between) leaves exactly the account, ledger
    and store, that saving once leaves. *)
Theorem auto_save_idempotent (ft fs : DbFaults) (acc : Account) :
  unique_keys (active_trades acc) ->
  (forall j : string, query_raises ft j = false) ->
  commit_raises ft = false ->
  (forall j : string, query_raises fs j = false) ->
  commit_raises fs = false ->
  auto_save_trades_to_database ft fs
    (auto_save_trades_to_database ft fs acc)
  = auto_save_trades_to_database ft fs acc.
Proof.
  intros Hu Hqt Hct Hqs Hcs.
  pose proof (fun k => auto_save_lookup ft fs acc k Hu Hqt Hct Hqs Hcs)
    as Hfirst. cbv zeta in Hfirst.
  set (acc1 := auto_save_trades_to_database ft fs acc) in *.
  assert (Hu1 : unique_keys (active_trades acc1))
    by (destruct (Hfirst ""%string) as (_ & _ & H & _); exact H).
  assert (Hopen : forall (k : string) (t : TradeData),
            (k, t) ∈ active_trades acc1 ->
            is_closed t = false /\ dict_get k (active_trades acc) = Some t).
  { intros k t Hin. pose proof (dict_get_unique _ _ _ Hu1 Hin) as Hg.
    destruct (Hfirst k) as (Hl & _). rewrite Hl in Hg.
    destruct (dict_get k (active_trades acc)) as [t0|]; [|discriminate].
    destruct (is_closed t0) eqn:Ec; [discriminate|].
    injection Hg as <-. auto. }
  unfold auto_save_trades_to_database at 1.
  assert (Hsweep : transfer_completed_trades_to_database ft acc1 None = acc1).
  { unfold transfer_completed_trades_to_database.
    rewrite filter_closed_nil; [reflexivity|].
    intros k t Hin. now destruct (Hopen k t Hin). }
  rewrite Hsweep.
  destruct (snapshot_running_returns fs (active_trades acc1) (database acc1)
              Hqs) as [session Hsnap].
  rewrite Hsnap, Hcs.
  rewrite <- (set_database_same acc1) at 2. f_equal.
  apply map_eq. intros k.
  rewrite (snapshot_running_lookup fs _ _ _ k Hu1 Hsnap).
  destruct (dict_get k (active_trades acc1)) as [t|] eqn:Hg; [|reflexivity].
  destruct (Hopen k t (dict_get_elem _ _ _ Hg)) as [Hc Hget].
  assert (Hrun : status t = RUNNING)
    by (unfold is_closed in Hc; destruct (status t); cbn in Hc; congruence).
  rewrite Hrun. cbn [TradeStatus_eqb].
  destruct (Hfirst k) as (_ & -> & _). rewrite Hget.
  now apply guarded_upsert_again.
Qed.

(** ** Closing a trade: accounting and write-through *)

Lemma transfer_metrics (faults : DbFaults) (acc : Account)
    (trade_id : option string) :
  account_metrics (transfer_completed_trades_to_database faults acc trade_id)
  = account_metrics acc
  /\ rng_calls (transfer_completed_trades_to_database faults acc trade_id)
     = rng_calls acc.
Proof.
  unfold transfer_completed_trades_to_database.
  match goal with |- context [match ?l with [] => _ | _ :: _ => _ end] =>
    destruct l as [|c completed] end; [auto|].
  destruct (upsert_closed faults (database acc) (c :: completed) [])
    as [session to_remove].
  destruct (commit_raises faults); [destruct (rollback_raises faults)|];
    cbn; auto.
Qed.

(** The immediate transfer of one closed trade when its session works. *)
Lemma transfer_single (faults : DbFaults) (acc : Account) (tid : string)
    (t : TradeData) :
  dict_get tid (active_trades acc) = Some t -> is_closed t = true ->
  query_raises faults tid = false -> commit_raises faults = false ->
  let acc' :=
    transfer_completed_trades_to_database faults acc (Some tid) in
  active_trades acc' = dict_del tid (active_trades acc)
  /\ database acc' !! tid = guarded_upsert (database acc !! tid) t
  /\ forall j : string, j <> tid -> database acc' !! j = database acc !! j.
Proof.
  intros Hget Hc Hq Hcommit. cbv zeta.
  unfold transfer_completed_trades_to_database.
  rewrite Hget, Hc. cbn [upsert_closed]. rewrite Hq, Hcommit.
  unfold guarded_upsert.
  destruct (database acc !! tid) as [ex|] eqn:Ek;
    [destruct (TradeStatus_eqb (status ex) RUNNING)|]; cbn;
    (split; [reflexivity|]); split;
    rewrite ?lookup_insert_eq; auto;
    intros j Hj; rewrite lookup_insert_ne by congruence; reflexivity.
Qed.

Lemma simulate_trade_reached_pnl (normal : Q -> Q -> Q)
    (s : CurrencyPairConfig) (now : Q) (trade t' : TradeData)
    (reason : string) :
  simulate_trade normal s now trade = Ok (t', Some reason) ->
  profit_loss t' = signed_target trade /\ status t' = COMPLETED
  /\ closing_price t' = Some (closing_side t') /\ end_time t' = Some now.
Proof.
  intros H.
  destruct (simulate_trade_cases _ _ _ _ _ _ H)
    as (t1 & Ht1 & [(t2 & r & Hd & _ & ->) | (_ & Hr & _)]);
    [|discriminate].
  destruct (advance_trade_frame _ _ _ _ _ Ht1) as (Hc1 & _).
  destruct (detect_target_reached _ _ _ _ _ Hd) as (_ & Hclamp).
  unfold same_contract in Hc1. unfold signed_target.
  destruct Hc1 as (_ & _ & _ & _ & _ & <- & <- & _).
  split; [exact Hclamp|]. unfold close_trade_object, closing_side. cbn. auto.
Qed.


(** X12. Write-through on a target crossing: when the session of the
    closing trade works (its lookup and its commit return), the step of
    the tick removes the trade from a ledger with distinct keys and
    upserts its final, COMPLETED state under the status guard; the store
    is unchanged under every other id and exactly one sample was drawn. *)
Theorem tick_trade_writes_through (normal : nat -> Q -> Q -> Q)
    (faults : DbFaults) (now : Q) (acc : Account) (rs : list string)
    (tid : string) (trade t' : TradeData) (s : CurrencyPairConfig)
    (reason : string) :
  unique_keys (active_trades acc) ->
  dict_get tid (active_trades acc) = Some trade ->
  status trade = RUNNING ->
  currency_pair_settings acc !! symbol trade = Some s ->
  instrument_disabled (Some s) trade = false ->
  simulate_trade (normal (rng_calls acc)) s now trade
  = Ok (t', Some reason) ->
  query_raises faults tid = false -> commit_raises faults = false ->
  exists acc' : Account,
    tick_trade normal faults now acc rs tid = Ok (acc', rs ++ [tid])
    /\ dict_get tid (active_trades acc') = None
    /\ database acc' !! tid = guarded_upsert (database acc !! tid) t'
    /\ (forall j : string, j <> tid ->
        database acc' !! j = database acc !! j
        /\ dict_get j (active_trades acc') = dict_get j (active_trades acc))
    /\ status t' = COMPLETED
    /\ rng_calls acc' = S (rng_calls acc).
Proof.
  intros Hu Hget Hrun Hs Hen Hsim Hq Hc.
  destruct (simulate_trade_reached_pnl _ _ _ _ _ _ Hsim) as (_ & Hst & _).
  unfold tick_trade. rewrite Hget, Hrun. cbn [TradeStatus_eqb negb].
  rewrite Hs, Hen, Hsim. cbn [rbind].
  eexists. split; [reflexivity|].
  match goal with
  | |- context [transfer_completed_trades_to_database ?f ?a ?i] =>
      destruct (transfer_metrics f a i) as (_ & Hrng);
      destruct (transfer_single f a tid t') as (Hl & Hd & Hother);
      [cbn; apply dict_get_set_eq
      | unfold is_closed; rewrite Hst; reflexivity
      | exact Hq | exact Hc |]
  end.
  rewrite Hl, Hd, Hrng. cbn.
  split.
  { apply dict_get_del_eq_nodup. unfold unique_keys.
    now rewrite (keys_dict_set_present _ _ _ _ Hget). }
  split; [reflexivity|].
  split; [|auto].
  intros j Hj. split; [now apply Hother|].
  rewrite dict_get_del_ne, dict_get_set_ne by congruence. reflexivity.
Qed.

(** ** Closing by hand *)

Lemma unique_keys_update_store (acc : Account) (tid : string)
    (t t0 : TradeData) :
  unique_keys (active_trades acc) ->
  dict_get tid (active_trades acc) = Some t0 ->
  unique_keys (active_trades (update_account_metrics (store_trade acc tid t))).
Proof.
  intros Hu Hget.
  destruct (update_account_metrics_unfold (store_trade acc tid t))
    as (Ha & _).
  unfold unique_keys. rewrite Ha, keys_map_values. cbn.
  now rewrite (keys_dict_set_present tid t t0).
Qed.

Lemma close_trade_ledger_and_balance (faults : DbFaults) (now : Q)
    (acc : Account) (tid : string) (trade : TradeData) :
  unique_keys (active_trades acc) ->
  dict_get tid (active_trades acc) = Some trade ->
  status trade = RUNNING ->
  exists acc' : Account,
    close_trade faults now acc tid = Ok acc'
    /\ dict_get tid (active_trades acc') = None
    /\ balance (account_metrics acc')
       = balance (account_metrics acc) + profit_loss trade.
Proof.
  intros Hu Hget Hst. unfold close_trade.
  rewrite Hget, Hst. cbn [negb TradeStatus_eqb].
  eexists. split; [reflexivity|].
  set (tc := close_trade_object trade COMPLETED now).
  set (a0 := add_balance (store_trade acc tid tc) (profit_loss tc)).
  assert (Hu1 : unique_keys (active_trades (update_account_metrics a0))).
  { apply (unique_keys_update_store
             (add_balance acc (profit_loss tc)) tid tc trade); assumption. }
  destruct (update_account_metrics_unfold a0)
    as (_ & _ & _ & _ & Hbal & _).
  split.
  - cbn [active_trades set_active_trades].
    apply dict_get_del_eq_nodup.
    destruct (transfer_sub_ledger faults (update_account_metrics a0)
                (Some tid) Hu1) as ((Hu2 & _) & _).
    exact Hu2.
  - cbn [account_metrics set_active_trades].
    destruct (transfer_metrics faults (update_account_metrics a0) (Some tid))
      as (-> & _).
    rewrite Hbal. subst a0 tc. reflexivity.
Qed.

(** X13 ([close_trade], lines 1556-1582). Closing a RUNNING trade of the
    ledger by hand always returns, whatever the store does: the trade is
    gone from the ledger and the balance has received its pnl. When the
    lookup and the commit of the store work, the store holds the trade as
    COMPLETED with its closing price and end time, unless it already held a
    closed row under that id, and no other row has changed. *)
Theorem close_trade_settles (faults : DbFaults) (now : Q) (acc : Account)
    (tid : string) (trade : TradeData) :
  unique_keys (active_trades acc) ->
  dict_get tid (active_trades acc) = Some trade ->
  status trade = RUNNING ->
  exists acc' : Account,
    close_trade faults now acc tid = Ok acc'
    /\ dict_get tid (active_trades acc') = None
    /\ balance (account_metrics acc')
       = balance (account_metrics acc) + profit_loss trade
    /\ (query_raises faults tid = false -> commit_raises faults = false ->
        database acc' !! tid
        = guarded_upsert (database acc !! tid)
            (close_trade_object trade COMPLETED now)
        /\ forall j : string,
             j <> tid -> database acc' !! j = database acc !! j).
Proof.
  intros Hu Hget Hst.
  destruct (close_trade_ledger_and_balance faults now acc tid trade
              Hu Hget Hst) as (acc' & Hclose & Hgone & Hbal).
  exists acc'. split; [exact Hclose|]. split; [exact Hgone|].
  split; [exact Hbal|]. intros Hq Hc.
  unfold close_trade in Hclose.
  rewrite Hget, Hst in Hclose. cbn [negb TradeStatus_eqb] in Hclose.
  injection Hclose as <-.
  set (tc := close_trade_object trade COMPLETED now).
  set (a0 := add_balance (store_trade acc tid tc) (profit_loss tc)).
  destruct (update_account_metrics_unfold a0) as (Ha & _ & Hdb & _).
  assert (Hg1 : dict_get tid (active_trades (update_account_metrics a0))
                = Some tc).
  { rewrite Ha, dict_get_map. cbn. rewrite dict_get_set_eq. reflexivity. }
  cbn [database set_active_trades].
  assert (Hcl : is_closed tc = true) by reflexivity.
  destruct (transfer_single faults (update_account_metrics a0) tid tc
              Hg1 Hcl Hq Hc) as (_ & Hs & Ho).
  rewrite Hdb in Hs, Ho. exact (conj Hs Ho).
Qed.

(** ** Targets and the bias of a finished trade *)

Lemma dict_get_update_store (acc : Account) (tid j : string) (t : TradeData) :
  dict_get j (active_trades (update_account_metrics (store_trade acc tid t)))
  = if decide (j = tid) then Some (refresh_margin t)
    else option_map refresh_margin (dict_get j (active_trades acc)).
Proof.
  destruct (update_account_metrics_unfold (store_trade acc tid t))
    as (-> & _).
  rewrite dict_get_map. cbn [active_trades store_trade set_active_trades].
  destruct (decide (j = tid)) as [-> | Hne].
  - now rewrite dict_get_set_eq.
  - rewrite dict_get_set_ne by congruence. reflexivity.
Qed.

(** X14 ([update_trade_target], lines 1510-1538, against [start_trade],
    lines 1467-1474). Changing the target of a RUNNING trade with a lot
    size other than zero returns, and the target price it stores is the one
    [start_trade] computes for the same symbol, direction, entry price, lot
    size, target kind and amount. The trade keeps its status, pnl, prices
    and entry, the store and the balance are untouched, and the metrics
    invariant holds afterwards. *)
Theorem update_trade_target_uses_start_formula (acc : Account) (tid : string)
    (request : UpdateTradeTargetRequest) (trade : TradeData) :
  dict_get tid (active_trades acc) = Some trade ->
  status trade = RUNNING ->
  ~ lot_size trade == 0 ->
  exists (acc' : Account) (t' : TradeData),
    update_trade_target acc tid request = Ok acc'
    /\ dict_get tid (active_trades acc') = Some t'
    /\ start_target_price (symbol trade) (trade_direction trade)
         (entry_price trade) (lot_size trade) (upd_target_type request)
         (upd_target_amount request) = Ok (target_price t')
    /\ target_type t' = upd_target_type request
    /\ target_amount t' = upd_target_amount request
    /\ status t' = RUNNING
    /\ profit_loss t' = profit_loss trade
    /\ current_buy_price t' = current_buy_price trade
    /\ current_sell_price t' = current_sell_price trade
    /\ entry_price t' = entry_price trade
    /\ database acc' = database acc
    /\ balance (account_metrics acc') = balance (account_metrics acc)
    /\ metrics_invariant acc'.
Proof.
  intros Hget Hst Hlot.
  assert (Hl : ~ lot_size trade * 100000 == 0) by (intros E; apply Hlot; lra).
  unfold update_trade_target, start_target_price.
  rewrite Hget, Hst. cbn [negb TradeStatus_eqb].
  destruct (startswith (symbol trade) "USD");
    rewrite (fdiv_ok _ _ Hl); cbn [rbind];
    match goal with |- context [update_account_metrics (store_trade acc tid ?t)] =>
      set (t3 := t) end;
    (exists (update_account_metrics (store_trade acc tid t3)),
            (refresh_margin t3));
    (split; [reflexivity|]);
    (split; [rewrite dict_get_update_store, decide_True by reflexivity;
             reflexivity|]);
    destruct (refresh_margin_frame t3)
      as (-> & -> & _ & -> & -> & _ & _ & -> & -> & -> & _ & -> & _);
    destruct (update_account_metrics_unfold (store_trade acc tid t3))
      as (_ & _ & -> & _ & -> & _);
    subst t3; cbn;
    (split; [destruct (trade_direction trade), (upd_target_type request);
             reflexivity|]);
    repeat (split; [first [reflexivity | assumption]|]);
    apply update_account_metrics_establishes.
Qed.

(** X15 ([start_trade], lines 1467-1474, against [generate_mt5_price],
    lines 413-417). For a positive entry price, lot size and target amount,
    the target price lies above the entry price exactly for the trades
    whose bias pushes the price up (BUY/PROFIT and SELL/LOSS) and below it
    for the others: the bias pushes toward the target price. *)
Theorem target_price_on_bias_side (sym : string) (dir : TradeDirection)
    (entry lot : Q) (tt : TargetType) (amount tp : Q) :
  0 < entry -> 0 < lot -> 0 < amount ->
  start_target_price sym dir entry lot tt amount = Ok tp ->
  (pushes_up dir tt = true -> entry < tp)
  /\ (pushes_up dir tt = false -> tp < entry).
Proof.
  intros He Hl Ha H. unfold start_target_price in H.
  apply rbind_ok in H. destruct H as (d & Hd & H).
  assert (Hd0 : 0 < d).
  { assert (Hden : 0 < lot * 100000) by lra.
    destruct (startswith sym "USD");
      apply fdiv_inv in Hd as [_ ->]; apply Qlt_shift_div_l; try exact Hden.
    - assert (0 < amount * entry) by (apply Qmult_lt_0_compat; assumption).
      lra.
    - lra. }
  destruct dir, tt; cbn in H; injection H as <-; cbn;
    split; intros E; try discriminate; lra.
Qed.

Lemma capped_bias_le_abs (b : Q) :
  Qabs (py_max (py_min b 0.001) (- 0.001)) <= Qabs b.
Proof.
  pose proof (Qle_Qabs b) as H1.
  pose proof (Qle_Qabs (- b)) as H2. rewrite Qabs_opp in H2.
  apply Qabs_Qle_condition.
  destruct (py_min_spec b 0.001) as [[? ->] | [? ->]];
    match goal with |- context [py_max ?a ?c] =>
      destruct (py_max_spec a c) as [[? ->] | [? ->]] end; lra.
Qed.

Lemma advance_trade_bid (normal : Q -> Q -> Q) (s : CurrencyPairConfig)
    (now : Q) (t t1 : TradeData) :
  advance_trade normal s now t = Ok t1 ->
  generate_mt5_price normal (current_buy_price t) (volatility s)
    (buy_starting_price s) (mean_reversion_strength s) (target_price t)
    (bias_factor t) (trade_direction t) (target_type t) (symbol t)
  = Ok (current_buy_price t1).
Proof.
  unfold advance_trade. intros H.
  apply rbind_ok in H. destruct H as (p & Hp & H).
  apply calculate_pnl_frame in H.
  destruct H as (_ & _ & _ & -> & _). cbn. exact Hp.
Qed.

(** X16 ([finish_trade], lines 1540-1554, with lines 413-427 and 505-517).
    Finishing a RUNNING trade that has no bias yet returns and only sets
    its bias factor to 0.05: every other trade, the metrics and the store
    are as before. Under the same draw the next bid of the finished trade
    is then shifted, against the bid the trade would have had, toward the
    side given by direction and target kind, by at most 5% of the distance
    between the current bid and the target price and at most 0.1% of the
    current bid. *)
Theorem finish_trade_biases_next_bid (normal : Q -> Q -> Q)
    (s : CurrencyPairConfig) (now : Q) (acc : Account) (tid : string)
    (trade : TradeData) :
  dict_get tid (active_trades acc) = Some trade ->
  status trade = RUNNING ->
  0 < current_buy_price trade -> 0 <= spread s ->
  bias_factor trade <= 0 ->
  exists (acc' : Account) (t0 tb : TradeData),
    finish_trade acc tid = Ok acc'
    /\ dict_get tid (active_trades acc') = Some (set_bias_factor trade 0.05)
    /\ (forall j : string,
          j <> tid ->
          dict_get j (active_trades acc') = dict_get j (active_trades acc))
    /\ account_metrics acc' = account_metrics acc
    /\ database acc' = database acc
    /\ advance_trade normal s now trade = Ok t0
    /\ advance_trade normal s now (set_bias_factor trade 0.05) = Ok tb
    /\ let shift := current_buy_price tb - current_buy_price t0 in
       let sign : Q :=
         if pushes_up (trade_direction trade) (target_type trade)
         then 1 else - (1) in
       0 <= sign * shift
       /\ sign * shift
          <= 0.05 * Qabs (target_price trade - current_buy_price trade)
       /\ sign * shift <= 0.001 * current_buy_price trade.
Proof.
  intros Hget Hst Hbid Hsp Hbf.
  destruct (advance_trade_returns normal s now trade Hbid Hsp) as (t0 & H0).
  destruct (advance_trade_returns normal s now (set_bias_factor trade 0.05)
              Hbid Hsp) as (tb & Hb).
  unfold finish_trade. rewrite Hget, Hst. cbn [negb TradeStatus_eqb].
  eexists _, t0, tb. split; [reflexivity|].
  cbn [active_trades store_trade set_active_trades account_metrics database].
  split; [apply dict_get_set_eq|].
  split; [intros j Hj; apply dict_get_set_ne; congruence|].
  split; [reflexivity|]. split; [reflexivity|].
  split; [exact H0|]. split; [exact Hb|].
  apply advance_trade_bid in H0, Hb. cbn in Hb.
  set (prev := current_buy_price trade) in *.
  set (tp := target_price trade) in *.
  rewrite (generate_mt5_price_closed_form normal prev _ _ _ tp _ _ _ _ Hbid)
    in H0.
  rewrite (generate_mt5_price_closed_form normal prev _ _ _ tp _ _ _ _ Hbid)
    in Hb.
  cbv zeta in H0, Hb.
  assert (E0 : Qltb 0 (bias_factor trade) = false) by (now apply Qltb_ge).
  assert (Eb : Qltb 0 0.05 = true) by reflexivity.
  rewrite E0 in H0. rewrite Eb in Hb.
  injection H0 as <-. injection Hb as <-.
  destruct (capped_bias_bounds (0.05 * (tp - prev) / prev)) as [B0 B1].
  pose proof (capped_bias_le_abs (0.05 * (tp - prev) / prev)) as B2.
  set (B := Qabs (py_max (py_min (0.05 * (tp - prev) / prev) 0.001)
                    (- 0.001))) in *.
  assert (P0 : 0 <= prev * B) by (apply Qmult_le_0_compat; lra).
  assert (P1 : prev * B <= prev * 0.001) by (apply Qmult_le_l; lra).
  assert (P2 : prev * B <= 0.05 * Qabs (tp - prev)).
  { assert (E : prev * Qabs (0.05 * (tp - prev) / prev)
                == 0.05 * Qabs (tp - prev)).
    { rewrite <- (Qabs_pos prev) at 1 by lra.
      rewrite <- Qabs_Qmult.
      assert (E1 : prev * (0.05 * (tp - prev) / prev) == 0.05 * (tp - prev))
        by (field; lra).
      rewrite E1, Qabs_Qmult. reflexivity. }
    rewrite <- E. apply Qmult_le_l; lra. }
  set (draw := normal 0 (volatility s
                          * (0.0001 / get_pip_value_for_symbol (symbol trade)))).
  set (rev := mean_reversion_strength s
              * ((buy_starting_price s - prev) / prev)).
  cbv zeta.
  destruct (pushes_up (trade_direction trade) (target_type trade)).
  - destruct (clamp_price_step prev (get_pip_value_for_symbol (symbol trade))
                (prev * (1 + draw + rev))
                (prev * (1 + (draw + 1 * B) + rev))) as [M L]; [lra|].
    repeat split; lra.
  - destruct (clamp_price_step prev (get_pip_value_for_symbol (symbol trade))
                (prev * (1 + (draw + - (1) * B) + rev))
                (prev * (1 + draw + rev))) as [M L]; [lra|].
    repeat split; lra.
Qed.

(** ** Recalculating a stored trade *)




(** ** The account endpoints *)

(** X17 ([reset_account], lines 1584-1602). A reset always clears the
    ledger and sets balance, equity and free margin to the default balance,
    so the metrics invariant holds; the instrument table is kept. When the
    store works every stored row is gone and every lookup of a trade
    answers 404; when the store fails the exception leaves the caller with
    the ledger already cleared and every stored row still there. *)
Theorem reset_account_outcome (faults : DbFaults) (acc : Account) :
  let acc' := fst (reset_account faults acc) in
  active_trades acc' = []
  /\ account_metrics acc' = fresh_metrics DEFAULT_ACCOUNT_BALANCE
  /\ currency_pair_settings acc' = currency_pair_settings acc
  /\ metrics_invariant acc'
  /\ (if commit_raises faults
      then snd (reset_account faults acc) = Raise DatabaseError
           /\ database acc' = database acc
      else snd (reset_account faults acc) = Ok tt
           /\ database acc' = ∅
           /\ forall (lookup : DbFaults) (tid : string),
                query_raises lookup tid = false ->
                get_trade lookup acc' tid = Raise (HTTPException 404)).
Proof.
  unfold reset_account. cbv zeta.
  assert (Hinv : forall a : Account,
             active_trades a = [] ->
             account_metrics a = fresh_metrics DEFAULT_ACCOUNT_BALANCE ->
             metrics_invariant a).
  { intros a Ha Hm. unfold metrics_invariant. rewrite Ha, Hm. cbn.
    split; [reflexivity|]. split; [reflexivity|].
    split; [intros H; lra | reflexivity]. }
  destruct (commit_raises faults); cbn [fst snd];
    (split; [reflexivity|]); (split; [reflexivity|]);
    (split; [reflexivity|]); (split; [apply Hinv; reflexivity|]).
  - split; reflexivity.
  - split; [reflexivity|]. split; [reflexivity|].
    intros lookup tid Hq. unfold get_trade. cbn. now rewrite Hq.
Qed.

(** X18 ([set_account_balance], lines 1403-1411, and [deposit], lines
    1413-1422). Setting the balance stores exactly the requested amount and
    a deposit adds exactly 300; both recompute the metrics, so the metrics
    invariant holds afterwards, the equity is the new balance plus the pnl
    of the RUNNING trades, and neither touches the store, any trade's
    status, pnl or prices, or the generator. *)
Theorem balance_endpoints_recompute (acc : Account) (new_balance : Q) :
  let set := set_account_balance acc new_balance in
  let dep := deposit acc in
  balance (account_metrics set) = new_balance
  /\ balance (account_metrics dep) = balance (account_metrics acc) + 300
  /\ equity (account_metrics set)
     == new_balance + running_pnl (active_trades acc)
  /\ equity (account_metrics dep)
     == balance (account_metrics acc) + 300 + running_pnl (active_trades acc)
  /\ metrics_invariant set /\ metrics_invariant dep
  /\ database set = database acc /\ database dep = database acc
  /\ rng_calls set = rng_calls acc /\ rng_calls dep = rng_calls acc
  /\ active_trades set
     = map (fun p => (fst p, refresh_margin (snd p))) (active_trades acc)
  /\ active_trades dep = active_trades set.
Proof.
  cbv zeta. unfold set_account_balance, deposit, add_balance.
  set (a1 := set_account_metrics acc _).
  set (a2 := set_account_metrics acc _).
  destruct (update_account_metrics_unfold a1)
    as (Ht1 & _ & Hd1 & Hr1 & Hb1 & _ & He1 & _).
  destruct (update_account_metrics_unfold a2)
    as (Ht2 & _ & Hd2 & Hr2 & Hb2 & _ & He2 & _).
  pose proof (accumulate_metrics_total_pnl (active_trades acc) 0 0 0) as Hp.
  rewrite Ht1, Ht2, Hd1, Hd2, Hr1, Hr2, Hb1, Hb2, He1, He2.
  subst a1 a2. cbn [active_trades account_metrics set_account_metrics
                    set_balance balance database rng_calls].
  rewrite Hp.
  repeat split; try reflexivity; try apply update_account_metrics_establishes;
    ring.
Qed.

(** ** Deleting and looking up a stored trade *)

(** X23 ([delete_trade], lines 1279-1302, then [get_trade], lines
    1016-1029). After a deletion that returned, a lookup of the same id
    answers 404 and the lookup of every other id answers as before the
    deletion; the deletion changes neither the ledger nor the account
    metrics, so a pnl that was credited stays in the balance. *)
Theorem delete_then_get_is_not_found (faults lookup : DbFaults)
    (acc acc' : Account) (tid : string) :
  delete_trade faults acc tid = Ok acc' ->
  query_raises lookup tid = false ->
  get_trade lookup acc' tid = Raise (HTTPException 404)
  /\ (forall j : string,
        j <> tid -> get_trade lookup acc' j = get_trade lookup acc j)
  /\ active_trades acc' = active_trades acc
  /\ account_metrics acc' = account_metrics acc.
Proof.
  unfold delete_trade. intros H Hq.
  destruct (dict_get tid (active_trades acc)) eqn:Hget; [discriminate|].
  destruct (query_raises faults tid); [discriminate|].
  destruct (database acc !! tid); [|discriminate].
  destruct (commit_raises faults); [discriminate|]. injection H as <-.
  unfold get_trade. cbn [active_trades database set_database].
  rewrite Hget, Hq, lookup_delete_eq.
  split; [reflexivity|]. split; [|split; reflexivity].
  intros j Hj. now rewrite lookup_delete_ne by congruence.
Qed.

(** ** Disabling an instrument *)

(** X25 ([update_currency_pair], lines 1389-1398, then the tick, lines
    464-496). Replacing the configuration of a known symbol returns and
    changes only the instrument table. If the new configuration disables
    the direction of a RUNNING trade of that symbol, the next step of the
    tick for that trade stops it: with a working store the trade is
    STOPPED at its current price in the ledger and in the store, marked for
    removal, and the balance has received its last pnl; no sample is
    drawn. *)
Theorem disabling_instrument_stops_trade (normal : nat -> Q -> Q -> Q)
    (faults : DbFaults) (now : Q) (acc : Account) (rs : list string)
    (tid : string) (trade : TradeData) (old settings : CurrencyPairConfig) :
  currency_pair_settings acc !! symbol trade = Some old ->
  dict_get tid (active_trades acc) = Some trade ->
  status trade = RUNNING ->
  instrument_disabled (Some settings) trade = true ->
  query_raises faults tid = false -> commit_raises faults = false ->
  exists acc1 acc2 : Account,
    update_currency_pair acc (symbol trade) settings = Ok acc1
    /\ active_trades acc1 = active_trades acc
    /\ account_metrics acc1 = account_metrics acc
    /\ database acc1 = database acc
    /\ tick_trade normal faults now acc1 rs tid = Ok (acc2, rs ++ [tid])
    /\ dict_get tid (active_trades acc2)
       = Some (close_trade_object trade STOPPED now)
    /\ database acc2 !! tid = Some (close_trade_object trade STOPPED now)
    /\ balance (account_metrics acc2)
       = balance (account_metrics acc) + profit_loss trade
    /\ rng_calls acc2 = rng_calls acc.
Proof.
  intros Hold Hget Hst Hdis Hq Hc.
  unfold update_currency_pair. rewrite Hold.
  set (acc1 := set_currency_pair_settings acc
                 (<[symbol trade := settings]> (currency_pair_settings acc))).
  assert (Hg1 : dict_get tid (active_trades acc1) = Some trade)
    by exact Hget.
  assert (Hs1 : currency_pair_settings acc1 !! symbol trade = Some settings)
    by (subst acc1; cbn; now rewrite lookup_insert_eq).
  destruct (stop_disabled_trade_spec acc1 tid trade now)
    as (Hl & Hr & Hd & _ & Hb).
  cbv zeta in Hl, Hr, Hd, Hb.
  exists acc1.
  exists (set_database (stop_disabled_trade acc1 tid trade now)
            (<[tid := close_trade_object trade STOPPED now]>
               (database acc))).
  split; [reflexivity|].
  split; [reflexivity|]. split; [reflexivity|]. split; [reflexivity|].
  split.
  - unfold tick_trade. rewrite Hg1, Hst. cbn [negb TradeStatus_eqb].
    rewrite Hs1, Hdis. unfold save_stopped_trade. rewrite Hq, Hc, Hd.
    cbn [rbind].
    destruct (database acc1 !! tid); reflexivity.
  - cbn [active_trades account_metrics database rng_calls set_database].
    rewrite Hl, Hb, Hr, lookup_insert_eq.
    repeat split; reflexivity.
Qed.

(** ** Editing stored trades *)

Lemma status_then_pnl_commute (x : TradeData) (p : option Q)
    (s : option TradeStatus) :
  let x_p := match p with Some v => set_profit_loss x v | None => x end in
  match s with
  | Some v => set_status x_p v
  | None =>
      if (bool_decide (end_time x_p <> None)
          || bool_decide (closing_price x_p <> None))
         && negb (TradeStatus_eqb (status x_p) COMPLETED)
      then set_status x_p COMPLETED
      else x_p
  end
  = let x_s :=
      match s with
      | Some v => set_status x v
      | None =>
          if (bool_decide (end_time x <> None)
              || bool_decide (closing_price x <> None))
             && negb (TradeStatus_eqb (status x) COMPLETED)
          then set_status x COMPLETED
          else x
      end in
    match p with Some v => set_profit_loss x_s v | None => x_s end.
Proof.
  cbv zeta. destruct p as [p|], s as [s|]; try reflexivity.
  cbn [end_time closing_price status set_profit_loss].
  destruct (_ && _); reflexivity.
Qed.

Lemma bulk_update_row_eq (updates : UpdateTradeRequest) (row : TradeData) :
  bulk_update_row updates row = historical_update_row updates row.
Proof.
  unfold bulk_update_row, historical_update_row. cbv zeta.
  apply status_then_pnl_commute.
Qed.

Lemma bulk_update_items_sequential (faults : DbFaults)
    (items : list (string * UpdateTradeRequest)) :
  commit_raises faults = false ->
  forall (acc : Account) (results errors : list string),
    update_each faults acc items results errors
    = let '(session, r, e) :=
        bulk_update_items faults (active_trades acc) (database acc) items
          results errors in
      (set_database acc session, r, e).
Proof.
  intros Hc. induction items as [|[tid u] rest IH]; intros acc rs es;
    cbn [update_each bulk_update_items].
  - now rewrite set_database_same.
  - unfold update_historical_trade.
    destruct (dict_get tid (active_trades acc)); [apply IH|].
    destruct (query_raises faults tid); [apply IH|].
    destruct (database acc !! tid) as [row|]; [|apply IH].
    rewrite Hc, IH. cbn [active_trades database set_database].
    rewrite bulk_update_row_eq.
    destruct (bulk_update_items _ _ _ _ _ _) as [[session r] e].
    reflexivity.
Qed.

(** X21 ([bulk_update_trades], lines 1311-1377, against
    [update_historical_trade], lines 1139-1228). When the commit works, a
    bulk update is the sequence of the single updates of its items, each on
    the store the previous one left (an id listed twice is updated twice):
    the same store, the ids of the calls that returned as successes and
    the ids of the calls that raised (trade active, lookup failed, row
    missing) as errors. The two copies of the row update differ only in the
    order of the pnl and status steps, which commute. *)
Theorem bulk_update_is_sequence_of_updates (faults : DbFaults) (acc : Account)
    (items : list (string * UpdateTradeRequest)) :
  commit_raises faults = false ->
  bulk_update_trades faults acc items
  = Ok (update_each faults acc items [] []).
Proof.
  intros Hc. unfold bulk_update_trades.
  rewrite (bulk_update_items_sequential faults items Hc acc [] []).
  destruct (bulk_update_items _ _ _ _ _ _) as [[session r] e].
  now rewrite Hc.
Qed.

Ltac row_norm :=
  cbn [status end_time closing_price start_time
       set_entry_price set_closing_price set_start_time set_end_time
       set_lot_size set_status set_profit_loss] in *.

Lemma historical_update_row_closed (request : UpdateTradeRequest)
    (row : TradeData) :
  is_closed row = true -> upd_status request = None ->
  status (historical_update_row request row) = COMPLETED
  /\ end_time (historical_update_row request row) <> None.
Proof.
  intros Hcl Hs. unfold historical_update_row. rewrite Hs. cbv zeta.
  destruct (upd_entry_price request) as [e|];
    [destruct (Qltb 0 e)|];
    (destruct (upd_closing_price request) as [c|];
       [destruct (Qltb 0 c)|]);
    destruct (upd_start_time request) as [st|];
    destruct (upd_end_time request) as [en|];
    (destruct (upd_lot_size request) as [l|];
       [destruct (Qltb 0 l)|]);
    destruct (upd_profit_loss request) as [p|];
    unfold is_closed in *; row_norm;
    destruct (end_time row) as [e0|] eqn:Een;
    destruct (status row) eqn:Est; try discriminate Hcl;
    cbn [TradeStatus_eqb orb]; row_norm; rewrite ?Een, ?Est;
    rewrite ?bool_decide_eq_true_2 by discriminate;
    cbn [TradeStatus_eqb orb andb negb]; row_norm; rewrite ?Een, ?Est;
    (split; [reflexivity | discriminate]).
Qed.

(** X22 ([update_historical_trade], lines 1178-1205). An edit of a stored
    row that is closed (COMPLETED or STOPPED) and that carries no status
    leaves the row COMPLETED, whatever else the request holds (an empty
    request too), and with an end time: a STOPPED row becomes COMPLETED.
    The ledger and the account metrics are not touched. *)
Theorem edit_without_status_marks_completed (faults : DbFaults)
    (acc acc' : Account) (tid : string) (request : UpdateTradeRequest)
    (row : TradeData) :
  update_historical_trade faults acc tid request = Ok acc' ->
  database acc !! tid = Some row ->
  is_closed row = true ->
  upd_status request = None ->
  exists row' : TradeData,
    database acc' !! tid = Some row'
    /\ status row' = COMPLETED
    /\ end_time row' <> None
    /\ active_trades acc' = active_trades acc
    /\ account_metrics acc' = account_metrics acc.
Proof.
  unfold update_historical_trade. intros H Hrow Hcl Hs.
  destruct (dict_get tid (active_trades acc)); [discriminate|].
  destruct (query_raises faults tid); [discriminate|].
  rewrite Hrow in H.
  destruct (commit_raises faults); [discriminate|]. injection H as <-.
  exists (historical_update_row request row).
  cbn [database set_database active_trades account_metrics].
  rewrite lookup_insert_eq.
  destruct (historical_update_row_closed request row Hcl Hs) as (H1 & H2).
  repeat split; auto.
Qed.

(** ** Listing the ledger *)

Lemma started_before_total (a b : TradeData) :
  Qle_bool (start_time a) (start_time b) = false -> started_before b a.
Proof.
  unfold started_before. intros H.
  destruct (Qlt_le_dec (start_time b) (start_time a)) as [Hlt | Hle].
  - lra.
  - apply Qle_bool_iff in Hle. congruence.
Qed.

Lemma insert_by_start_time_perm (t : TradeData) (l : list TradeData) :
  insert_by_start_time t l ≡ₚ t :: l.
Proof.
  induction l as [|u rest IH]; cbn; [reflexivity|].
  destruct (Qle_bool (start_time t) (start_time u)); [reflexivity|].
  rewrite IH. apply perm_swap.
Qed.

Lemma insert_by_start_time_sorted (t : TradeData) (l : list TradeData) :
  StronglySorted started_before l ->
  StronglySorted started_before (insert_by_start_time t l).
Proof.
  induction 1 as [|u rest Hs IH Hall]; cbn.
  - repeat constructor.
  - destruct (Qle_bool (start_time t) (start_time u)) eqn:E.
    + apply Qle_bool_iff in E. constructor; [constructor; assumption|].
      constructor; [exact E|].
      eapply Forall_impl; [exact Hall|].
      unfold started_before in *. cbn. intros x Hx. lra.
    + constructor; [exact IH|].
      rewrite insert_by_start_time_perm. constructor; [|exact Hall].
      now apply started_before_total.
Qed.

Lemma insert_by_start_time_head (t : TradeData) (l : list TradeData) :
  Forall (started_before t) l -> insert_by_start_time t l = t :: l.
Proof.
  intros H. destruct H as [|u rest Hu _]; cbn; [reflexivity|].
  apply Qle_bool_iff in Hu. now rewrite Hu.
Qed.

Lemma sort_by_start_time_perm (l : list TradeData) :
  sort_by_start_time l ≡ₚ l.
Proof.
  induction l as [|t rest IH]; cbn; [reflexivity|].
  rewrite insert_by_start_time_perm. now rewrite IH.
Qed.

Lemma sort_by_start_time_sorted (l : list TradeData) :
  StronglySorted started_before (sort_by_start_time l).
Proof.
  induction l as [|t rest IH]; cbn; [constructor|].
  now apply insert_by_start_time_sorted.
Qed.

Lemma sort_by_start_time_stable (l : list TradeData) :
  StronglySorted started_before l -> sort_by_start_time l = l.
Proof.
  induction 1 as [|t rest Hs IH Hall]; cbn; [reflexivity|].
  fold (sort_by_start_time rest). rewrite IH.
  now apply insert_by_start_time_head.
Qed.

Lemma filter_filter (f g : TradeData -> bool) (l : list TradeData) :
  List.filter g (List.filter f l) = List.filter (fun t => f t && g t) l.
Proof.
  induction l as [|t rest IH]; cbn; [reflexivity|].
  destruct (f t); cbn; [destruct (g t)|]; now rewrite IH.
Qed.

Lemma list_active_trades_filter (acc : Account)
    (status_filter : option TradeStatus) (symbol_filter : option string) :
  list_active_trades acc status_filter symbol_filter
  = sort_by_start_time
      (List.filter (listed status_filter symbol_filter)
         (map snd (active_trades acc))).
Proof.
  unfold list_active_trades. cbv zeta. f_equal.
  set (l := map snd (active_trades acc)).
  assert (Htrue : forall f : TradeData -> bool,
             List.filter (fun t => f t && true) l = List.filter f l).
  { intros f. apply List.filter_ext. intros t. apply andb_true_r. }
  assert (Hall : List.filter (fun _ => true) l = l).
  { clear Htrue. induction l as [|t rest IH]; cbn; [|rewrite IH]; reflexivity. }
  assert (Hsym : forall (f : TradeData -> bool) (sym : string),
             List.filter
               (fun t => bool_decide (Some (symbol t) = Some sym))
               (List.filter f l)
             = List.filter (fun t => f t && String.eqb (symbol t) sym) l).
  { intros f sym. rewrite filter_filter. apply List.filter_ext. intros t.
    f_equal. destruct (String.eqb_spec (symbol t) sym) as [-> | Hne].
    - now apply bool_decide_eq_true_2.
    - apply bool_decide_eq_false_2. congruence. }
  unfold listed.
  destruct status_filter as [st|], symbol_filter as [[|a sym]|];
    cbn [str_truthy String.eqb negb]; rewrite ?Htrue; try reflexivity.
  - now rewrite Hsym.
  - now rewrite Hall.
  - rewrite <- (Hall) at 1. rewrite Hsym. reflexivity.
  - now rewrite Hall.
Qed.

(** X24 ([list_active_trades], lines 985-996). The listing holds exactly
    the trades of the ledger that pass the filters, each as often as the
    ledger holds it, oldest start time first; an empty symbol filters
    nothing, like no symbol. The sort is stable, so when the filtered
    ledger is in start order already the listing is the filtered ledger in
    ledger order. *)
Theorem list_active_trades_sorted_filter (acc : Account)
    (status_filter : option TradeStatus) (symbol_filter : option string) :
  let filtered :=
    List.filter (listed status_filter symbol_filter)
      (map snd (active_trades acc)) in
  let listing := list_active_trades acc status_filter symbol_filter in
  StronglySorted started_before listing
  /\ listing ≡ₚ filtered
  /\ (StronglySorted started_before filtered -> listing = filtered)
  /\ list_active_trades acc status_filter (Some EmptyString)
     = list_active_trades acc status_filter None.
Proof.
  cbv zeta. rewrite !list_active_trades_filter.
  split; [apply sort_by_start_time_sorted|].
  split; [apply sort_by_start_time_perm|].
  split; [apply sort_by_start_time_stable | reflexivity].
Qed.

(** ** The metrics recompute *)

Lemma assign_margin_used_again (t : TradeData) :
  assign_margin_used (assign_margin_used t) = assign_margin_used t
  /\ status (assign_margin_used t) = status t
  /\ profit_loss (assign_margin_used t) = profit_loss t
  /\ swap (assign_margin_used t) = swap t.
Proof.
  unfold assign_margin_used, closing_side. cbv zeta.
  destruct (startswith (symbol t) "USD") eqn:E;
    cbn [symbol set_margin_used]; rewrite E; repeat split; reflexivity.
Qed.

Lemma accumulate_metrics_again (trades : list (string * TradeData))
    (tm tp ts : Q) :
  accumulate_metrics (map (fun p => (fst p, refresh_margin (snd p))) trades)
    tm tp ts
  = (map (fun p => (fst p, refresh_margin (snd p))) trades,
     snd (accumulate_metrics trades tm tp ts)).
Proof.
  revert tm tp ts. induction trades as [|[tid t] rest IH]; intros tm tp ts.
  - reflexivity.
  - cbn [map fst snd].
    destruct (assign_margin_used_again t) as (Ha & Hs & Hp & Hw).
    destruct (TradeStatus_eqb (status t) RUNNING) eqn:E.
    + assert (Hr : refresh_margin t = assign_margin_used t)
        by (unfold refresh_margin; now rewrite E).
      rewrite Hr. cbn [accumulate_metrics]. rewrite Hs, E, Ha, IH.
      destruct (accumulate_metrics rest _ _ _) as [rest' totals].
      reflexivity.
    + assert (Hr : refresh_margin t = t)
        by (unfold refresh_margin; now rewrite E).
      rewrite Hr. cbn [accumulate_metrics]. rewrite E, IH.
      destruct (accumulate_metrics rest _ _ _) as [rest' totals].
      reflexivity.
Qed.

(** X26 ([update_account_metrics], lines 733-759). The metrics recompute
    is idempotent: a second recompute with nothing in between leaves the
    account, every trade's margin and every metric, exactly as the first
    one left it. *)
Theorem update_account_metrics_idempotent (acc : Account) :
  update_account_metrics (update_account_metrics acc)
  = update_account_metrics acc.
Proof.
  unfold update_account_metrics at 1.
  destruct (update_account_metrics_unfold acc)
    as (Ha & _ & _ & _ & Hb & _).
  cbv zeta in Ha, Hb. rewrite Ha, accumulate_metrics_again, Hb.
  unfold update_account_metrics.
  pose proof (accumulate_metrics_trades (active_trades acc) 0 0 0) as Ht.
  destruct (accumulate_metrics (active_trades acc) 0 0 0)
    as [trades [[tm tp] ts]].
  cbn [fst snd] in *. subst trades. reflexivity.
Qed.

Lemma accumulate_metrics_margin_swap (trades : list (string * TradeData))
    (tm tp ts : Q) :
  fst (fst (snd (accumulate_metrics trades tm tp ts)))
  == tm + running_margin
            (map (fun p => (fst p, refresh_margin (snd p))) trades)
  /\ snd (snd (accumulate_metrics trades tm tp ts))
     == ts + running_swap trades.
Proof.
  revert tm tp ts. induction trades as [|[tid t] rest IH]; intros tm tp ts.
  - cbn. split; ring.
  - cbn [map fst snd].
    destruct (assign_margin_used_again t) as (_ & Hs & _ & Hw).
    destruct (TradeStatus_eqb (status t) RUNNING) eqn:E.
    + assert (Hr : refresh_margin t = assign_margin_used t)
        by (unfold refresh_margin; now rewrite E).
      rewrite Hr.
      cbn [accumulate_metrics running_margin running_swap].
      rewrite Hs, E.
      specialize (IH (tm + margin_used (assign_margin_used t))
                     (tp + profit_loss (assign_margin_used t))
                     (ts + swap (assign_margin_used t))).
      destruct (accumulate_metrics rest _ _ _) as [rest' totals].
      cbn [fst snd] in *. destruct IH as [-> ->]. rewrite Hw.
      split; ring.
    + assert (Hr : refresh_margin t = t)
        by (unfold refresh_margin; now rewrite E).
      rewrite Hr.
      cbn [accumulate_metrics running_margin running_swap].
      rewrite E. specialize (IH tm tp ts).
      destruct (accumulate_metrics rest _ _ _) as [rest' totals].
      cbn [fst snd] in *. exact IH.
Qed.

(** X27 ([update_account_metrics], lines 737-759). After a recompute the
    margin is the sum of the margins it wrote to the RUNNING trades, the
    total swap is the sum of their swaps, and [profit] and
    [total_profit_loss] are both the sum of their pnl; trades of the
    ledger that are not RUNNING count in none of them. *)
Theorem update_account_metrics_totals (acc : Account) :
  let acc' := update_account_metrics acc in
  let m := account_metrics acc' in
  margin m == running_margin (active_trades acc')
  /\ total_swap m == running_swap (active_trades acc)
  /\ profit m == running_pnl (active_trades acc)
  /\ total_profit_loss m = profit m
  /\ equity m == balance m + profit m.
Proof.
  cbv zeta.
  destruct (update_account_metrics_unfold acc)
    as (Ha & _ & _ & _ & Hb & Hm & He & _).
  cbv zeta in Ha, Hb, Hm, He. rewrite Ha, Hm, He, Hb.
  destruct (accumulate_metrics_margin_swap (active_trades acc) 0 0 0)
    as (Hmar & Hsw).
  pose proof (accumulate_metrics_total_pnl (active_trades acc) 0 0 0) as Hp.
  unfold update_account_metrics.
  destruct (accumulate_metrics (active_trades acc) 0 0 0)
    as [trades [[tm tp] ts]].
  cbn [fst snd account_metrics set_account_metrics set_active_trades
       total_swap profit total_profit_loss] in *.
  repeat split; try reflexivity; lra.
Qed.

(** ** Opening and closing with no tick in between *)

Lemma keys_dict_set {V : Type} (k j : string) (v : V)
    (d : list (string * V)) :
  j ∈ map fst (dict_set k v d) -> j ∈ map fst d \/ j = k.
Proof.
  induction d as [|[k' v'] rest IH]; cbn.
  - intros H. apply elem_of_cons in H as [-> | H]; [now right|].
    now apply not_elem_of_nil in H.
  - destruct (String.eqb k k'); cbn; intros H; [now left|].
    apply elem_of_cons in H as [-> | H]; [left; apply list_elem_of_here|].
    destruct (IH H) as [Hin | ->]; [left | now right].
    now apply list_elem_of_further.
Qed.

Lemma unique_keys_dict_set (k : string) (v : TradeData)
    (d : list (string * TradeData)) :
  unique_keys d -> unique_keys (dict_set k v d).
Proof.
  unfold unique_keys. induction d as [|[k' v'] rest IH]; cbn.
  - intros _. apply NoDup_cons. split; [apply not_elem_of_nil | constructor].
  - intros Hnd. apply NoDup_cons in Hnd as [Hn Hnd].
    destruct (String.eqb_spec k k') as [-> | Hne]; cbn.
    + apply NoDup_cons. split; assumption.
    + apply NoDup_cons. split; [|auto].
      intros Hin. apply keys_dict_set in Hin as [Hin | ->]; auto.
Qed.

Lemma start_trade_shape (acc acc' : Account) (tid : string) (now : Q)
    (sym : string) (request : StartTradeRequest) :
  start_trade acc tid now sym request = Ok acc' ->
  exists t : TradeData,
    acc' = update_account_metrics (store_trade acc tid t).
Proof.
  unfold start_trade. intros H. cbv zeta in H.
  destruct (currency_pair_settings acc !! sym) as [s|]; [|discriminate].
  destruct (_ || _); [discriminate|].
  destruct (starting_buy_price request) as [p|], (direction request);
    cbn beta iota in H;
    (destruct (Qle_bool _ 0); [discriminate|]);
    apply rbind_ok in H; destruct H as (tp & Htp & H);
    (destruct (Qltb (free_margin _) _); [discriminate|]);
    injection H as <-; eexists; reflexivity.
Qed.

(** X28 ([start_trade], line 1504, then [close_trade], line 1571). A trade
    closed by hand before any tick has advanced it costs nothing: the
    close returns, the trade is gone from the ledger, and the balance is
    what it was before the trade was opened, because the commission is
    charged only through the pnl a tick computes. *)
Theorem open_then_close_charges_nothing (faults : DbFaults) (now now' : Q)
    (acc acc1 : Account) (tid sym : string) (request : StartTradeRequest) :
  unique_keys (active_trades acc) ->
  start_trade acc tid now sym request = Ok acc1 ->
  exists acc2 : Account,
    close_trade faults now' acc1 tid = Ok acc2
    /\ dict_get tid (active_trades acc2) = None
    /\ balance (account_metrics acc2) == balance (account_metrics acc).
Proof.
  intros Hu Hstart.
  destruct (start_trade_stored _ _ _ _ _ _ Hstart)
    as (t & Hget & Hst & _ & _ & Hpl & _).
  destruct (start_trade_shape _ _ _ _ _ _ Hstart) as (td & ->).
  assert (Hu1 : unique_keys
                  (active_trades
                     (update_account_metrics (store_trade acc tid td)))).
  { destruct (update_account_metrics_unfold (store_trade acc tid td))
      as (Ha & _).
    unfold unique_keys. rewrite Ha, keys_map_values.
    now apply unique_keys_dict_set. }
  destruct (close_trade_ledger_and_balance faults now' _ tid t Hu1 Hget Hst)
    as (acc2 & Hclose & Hgone & Hbal).
  exists acc2. split; [exact Hclose|]. split; [exact Hgone|].
  rewrite Hbal, Hpl.
  destruct (update_account_metrics_unfold (store_trade acc tid td))
    as (_ & _ & _ & _ & -> & _).
  cbn. ring.
Qed.

(** * Instances of the further properties *)

Lemma unique_keys_account_near_loss :
  unique_keys (active_trades account_near_loss).
Proof. apply NoDup_singleton. Qed.

Lemma unique_keys_account_mixed : unique_keys (active_trades account_mixed).
Proof.
  apply NoDup_cons. split; [|apply NoDup_singleton].
  intros H. apply list_elem_of_singleton in H. discriminate.
Qed.

(** X1 at the USDCNH BUY/PROFIT trade with a bias of 0.05. *)
Lemma bias_pushes_in_target_direction_witness :
  exists p0 pb : Q,
    generate_mt5_price (fun _ _ => 0.00006) 7.1850 0.00005 7.1823 0.05
      7.18441837 0 BUY PROFIT "USDCNH" = Ok p0
    /\ generate_mt5_price (fun _ _ => 0.00006) 7.1850 0.00005 7.1823 0.05
         7.18441837 0.05 BUY PROFIT "USDCNH" = Ok pb
    /\ p0 <= pb /\ pb - p0 <= 7.1850 * 0.001.
Proof.
  destruct (bias_pushes_in_target_direction (fun _ _ => 0.00006) 7.1850
              0.00005 7.1823 0.05 7.18441837 0.05 BUY PROFIT "USDCNH")
    as (p0 & pb & H0 & Hb & Hup & _); [reflexivity | reflexivity |].
  exists p0, pb. split; [exact H0|]. split; [exact Hb|]. exact (Hup eq_refl).
Defined.

(** X2 at the USDCNH instrument, above its mean. *)
Lemma zero_draw_reverts_toward_mean_witness :
  exists p : Q,
    generate_mt5_price (fun _ _ => 0) 7.1850 0.00005 7.1823 0.05
      7.18441837 0 BUY PROFIT "USDCNH" = Ok p
    /\ 7.1823 <= p /\ p <= 7.1850.
Proof.
  destruct (zero_draw_reverts_toward_mean (fun _ _ => 0) 7.1850 0.00005
              7.1823 0.05 7.18441837 0 BUY PROFIT "USDCNH")
    as (p & Hp & _ & Hdown);
    [reflexivity | vm_compute; discriminate | reflexivity
    | vm_compute; discriminate | vm_compute; discriminate | reflexivity |].
  exists p. split; [exact Hp|].
  apply Hdown. vm_compute. discriminate.
Defined.

(** X3 at the USD-quoted BUY trade, between two bids. *)
Lemma calculate_pnl_monotone_witness :
  exists t1 t2 : TradeData,
    calculate_pnl usdcnh_buy_near_target 7.1850 = Ok t1
    /\ calculate_pnl usdcnh_buy_near_target 7.1852961 = Ok t2
    /\ profit_loss t1 <= profit_loss t2.
Proof.
  destruct (calculate_pnl_monotone usdcnh_buy_near_target 7.1850 7.1852961)
    as (t1 & t2 & H1 & H2 & Hle);
    [vm_compute; discriminate | vm_compute; discriminate
    | intros _; split; [reflexivity | vm_compute; discriminate] |].
  exists t1, t2. split; [exact H1|]. split; [exact H2 | exact Hle].
Defined.

(** X4 at the SELL trade that crosses its LOSS target. *)
Lemma simulate_trade_keeps_spread_witness :
  exists (t' : TradeData) (r : option string),
    simulate_trade (constant_draw 0.00009 0%nat) EURUSD_settings 0
      eurusd_sell_near_loss = Ok (t', r)
    /\ current_sell_price t' == current_buy_price t' + spread EURUSD_settings.
Proof.
  eassert (H : simulate_trade (constant_draw 0.00009 0%nat) EURUSD_settings 0
                 eurusd_sell_near_loss = Ok (_, _))
    by (vm_compute; reflexivity).
  eexists _, _. split; [exact H|].
  exact (simulate_trade_keeps_spread _ _ _ _ _ _ H).
Defined.

(** X5 at the account with the one SELL trade. *)
Lemma tick_returns_and_stays_tradable_witness :
  exists acc' : Account,
    account_simulate_trades (constant_draw 0.00002) (fun _ => commit_fails)
      0 account_near_loss = Ok acc'
    /\ all_running_tradable acc'.
Proof.
  assert (H : all_running_tradable account_near_loss).
  { intros k t Hin Hst. apply list_elem_of_singleton in Hin.
    injection Hin as -> ->.
    split; [reflexivity|]. split; [vm_compute; discriminate|].
    exists EURUSD_settings. split; [vm_compute; reflexivity|].
    split; [reflexivity | vm_compute; discriminate]. }
  exact (tick_returns_and_stays_tradable (constant_draw 0.00002)
           (fun _ => commit_fails) 0 account_near_loss H).
Defined.

(** X6 at the account whose EURUSD buying is disabled, with a failing
    commit. *)
Lemma disabled_path_store_failure_ends_tick_witness :
  status eurusd_buy_running = RUNNING
  /\ commit_raises commit_fails = true
  /\ account_simulate_trades (constant_draw 0) (fun _ => commit_fails) 10
       account_with_edited_record = Raise DatabaseError.
Proof.
  split; [reflexivity|]. split; [reflexivity|].
  apply (disabled_path_store_failure_ends_tick (constant_draw 0)
           (fun _ => commit_fails) 10 account_with_edited_record
           "0000000003" eurusd_buy_running []);
    [reflexivity | reflexivity | vm_compute; reflexivity
    | right; reflexivity].
Defined.

(** X7 at the closed trade of the mixed ledger. *)
Lemma transfer_sweep_per_trade_witness :
  let acc' :=
    transfer_completed_trades_to_database no_faults account_mixed None in
  dict_get "0000000002" (active_trades acc') = None
  /\ database acc' !! "0000000002"%string = Some eurusd_sell_closed.
Proof.
  destruct (transfer_sweep_per_trade no_faults account_mixed "0000000002"
              unique_keys_account_mixed eq_refl) as (Hl & Hd & _).
  exact (conj Hl Hd).
Defined.

(** X8 at the edited record, with a failing store. *)
Lemma auto_save_keeps_closed_record_witness :
  database
    (auto_save_trades_to_database commit_fails no_faults
       account_with_edited_record) !! "0000000003"%string
  = Some edited_record.
Proof.
  apply (auto_save_keeps_closed_record commit_fails no_faults
           account_with_edited_record "0000000003" edited_record);
    [vm_compute; reflexivity | discriminate].
Defined.

(** X9 at the running trade of the mixed ledger. *)
Lemma auto_save_stores_ledger_witness :
  let acc' := auto_save_trades_to_database no_faults no_faults account_mixed in
  database acc' !! "0000000003"%string = Some eurusd_buy_running
  /\ dict_get "0000000003" (active_trades acc') = Some eurusd_buy_running.
Proof.
  apply (auto_save_stores_ledger no_faults no_faults account_mixed
           "0000000003" eurusd_buy_running unique_keys_account_mixed);
    [reflexivity | reflexivity | reflexivity | reflexivity | reflexivity
    | intros r Hr; vm_compute in Hr; discriminate].
Defined.

(** X10 at the mixed ledger. *)
Lemma auto_save_idempotent_witness :
  auto_save_trades_to_database no_faults no_faults
    (auto_save_trades_to_database no_faults no_faults account_mixed)
  = auto_save_trades_to_database no_faults no_faults account_mixed.
Proof.
  apply (auto_save_idempotent no_faults no_faults account_mixed
           unique_keys_account_mixed);
    reflexivity.
Defined.


(** X12 at the same step. *)
Lemma tick_trade_writes_through_witness :
  exists acc' : Account,
    tick_trade (constant_draw 0.00009) no_faults 0 account_near_loss []
      "0000000002" = Ok (acc', ["0000000002"%string])
    /\ dict_get "0000000002" (active_trades acc') = None
    /\ database acc' !! "0000000002"%string = Some eurusd_sell_closed.
Proof.
  destruct (tick_trade_writes_through (constant_draw 0.00009) no_faults 0
              account_near_loss [] "0000000002" eurusd_sell_near_loss
              eurusd_sell_closed EURUSD_settings "target_loss_reached"
              unique_keys_account_near_loss)
    as (acc' & Ht & Hl & Hd & _);
    [reflexivity | reflexivity | vm_compute; reflexivity | reflexivity
    | vm_compute; reflexivity | reflexivity | reflexivity |].
  exists acc'. split; [exact Ht|]. split; [exact Hl | exact Hd].
Defined.

(** X13 at the SELL trade, closed by hand while the commit fails. *)
Lemma close_trade_settles_witness :
  exists acc' : Account,
    close_trade commit_fails 7 account_near_loss "0000000002" = Ok acc'
    /\ dict_get "0000000002" (active_trades acc') = None
    /\ balance (account_metrics acc')
       = balance (account_metrics account_near_loss)
         + profit_loss eurusd_sell_near_loss.
Proof.
  destruct (close_trade_settles commit_fails 7 account_near_loss
              "0000000002" eurusd_sell_near_loss
              unique_keys_account_near_loss eq_refl eq_refl)
    as (acc' & Hc & Hl & Hb & _).
  exists acc'. split; [exact Hc|]. split; [exact Hl | exact Hb].
Defined.

(** X14 at the SELL trade, given a PROFIT target of 20. *)
Lemma update_trade_target_uses_start_formula_witness :
  exists (acc' : Account) (t' : TradeData),
    update_trade_target account_near_loss "0000000002" profit_target_20
    = Ok acc'
    /\ dict_get "0000000002" (active_trades acc') = Some t'
    /\ start_target_price "EURUSD" SELL 1.1726 0.1 PROFIT 20
       = Ok (target_price t')
    /\ metrics_invariant acc'.
Proof.
  destruct (update_trade_target_uses_start_formula account_near_loss
              "0000000002" profit_target_20 eurusd_sell_near_loss)
    as (acc' & t' & Hu & Hg & Hp & _ & _ & _ & _ & _ & _ & _ & _ & _ & Hi);
    [reflexivity | reflexivity | vm_compute; discriminate |].
  exists acc', t'. split; [exact Hu|]. split; [exact Hg|].
  split; [exact Hp | exact Hi].
Defined.

(** X15 at the default EURUSD BUY trade: the PROFIT target is above the
    entry. *)
Lemma target_price_on_bias_side_witness :
  exists tp : Q,
    start_target_price "EURUSD" BUY 1.1727 0.1 PROFIT 100 = Ok tp
    /\ 1.1727 < tp.
Proof.
  eassert (H : start_target_price "EURUSD" BUY 1.1727 0.1 PROFIT 100 = Ok _)
    by (vm_compute; reflexivity).
  eexists. split; [exact H|].
  apply (target_price_on_bias_side "EURUSD" BUY 1.1727 0.1 PROFIT 100 _);
    [reflexivity | reflexivity | reflexivity | exact H | reflexivity].
Defined.

(** X16 at the SELL trade with a LOSS target: the bias pushes the bid
    up. *)
Lemma finish_trade_biases_next_bid_witness :
  exists (acc' : Account) (t0 tb : TradeData),
    finish_trade account_near_loss "0000000002" = Ok acc'
    /\ advance_trade (constant_draw 0.00002 0%nat) EURUSD_settings 1
         eurusd_sell_near_loss = Ok t0
    /\ advance_trade (constant_draw 0.00002 0%nat) EURUSD_settings 1
         (set_bias_factor eurusd_sell_near_loss 0.05) = Ok tb
    /\ 0 <= 1 * (current_buy_price tb - current_buy_price t0)
    /\ 1 * (current_buy_price tb - current_buy_price t0) <= 0.001 * 1.1727.
Proof.
  destruct (finish_trade_biases_next_bid (constant_draw 0.00002 0%nat)
              EURUSD_settings 1 account_near_loss "0000000002"
              eurusd_sell_near_loss)
    as (acc' & t0 & tb & Hf & _ & _ & _ & _ & H0 & Hb & Hlo & _ & Hhi);
    [reflexivity | reflexivity | reflexivity | vm_compute; discriminate
    | vm_compute; discriminate |].
  exists acc', t0, tb. split; [exact Hf|]. split; [exact H0|].
  split; [exact Hb|]. split; [exact Hlo | exact Hhi].
Defined.



(** X21 at a request with a stored id, the same id again and an unknown
    id. *)
Lemma bulk_update_is_sequence_of_updates_witness :
  bulk_update_trades no_faults account_with_history
    [("0000000003"%string, closing_price_update);
     ("0000000003"%string, empty_update);
     ("0000000009"%string, empty_update)]
  = Ok (update_each no_faults account_with_history
          [("0000000003"%string, closing_price_update);
           ("0000000003"%string, empty_update);
           ("0000000009"%string, empty_update)] [] []).
Proof.
  exact (bulk_update_is_sequence_of_updates no_faults account_with_history
           _ eq_refl).
Defined.

(** X22 at the stored STOPPED trade and the empty request. *)
Lemma edit_without_status_marks_completed_witness :
  status stopped_record = STOPPED
  /\ exists (acc' : Account) (row' : TradeData),
       update_historical_trade no_faults account_with_history "0000000003"
         empty_update = Ok acc'
       /\ database acc' !! "0000000003"%string = Some row'
       /\ status row' = COMPLETED.
Proof.
  split; [reflexivity|].
  eassert (H : update_historical_trade no_faults account_with_history
                 "0000000003" empty_update = Ok _)
    by (vm_compute; reflexivity).
  destruct (edit_without_status_marks_completed no_faults
              account_with_history _ "0000000003" empty_update
              stopped_record H)
    as (row' & Hd & Hs & _);
    [vm_compute; reflexivity | reflexivity | reflexivity |].
  eexists. exists row'. split; [exact H|]. split; [exact Hd | exact Hs].
Defined.

(** X23 at the stored STOPPED trade. *)
Lemma delete_then_get_is_not_found_witness :
  exists acc' : Account,
    delete_trade no_faults account_with_history "0000000003" = Ok acc'
    /\ get_trade no_faults acc' "0000000003" = Raise (HTTPException 404).
Proof.
  eassert (H : delete_trade no_faults account_with_history "0000000003"
               = Ok _)
    by (vm_compute; reflexivity).
  eexists. split; [exact H|].
  exact (proj1 (delete_then_get_is_not_found no_faults no_faults
                  account_with_history _ "0000000003" H eq_refl)).
Defined.

(** X25 at the running EURUSD BUY trade, when EURUSD buying is disabled. *)
Lemma disabling_instrument_stops_trade_witness :
  exists acc1 acc2 : Account,
    update_currency_pair account_buy_running "EURUSD" EURUSD_buy_disabled
    = Ok acc1
    /\ tick_trade (constant_draw 0) no_faults 10 acc1 [] "0000000003"
       = Ok (acc2, ["0000000003"%string])
    /\ database acc2 !! "0000000003"%string = Some stopped_record.
Proof.
  destruct (disabling_instrument_stops_trade (constant_draw 0) no_faults 10
              account_buy_running [] "0000000003" eurusd_buy_running
              EURUSD_settings EURUSD_buy_disabled)
    as (acc1 & acc2 & Hu & _ & _ & _ & Ht & _ & Hd & _);
    [vm_compute; reflexivity | reflexivity | reflexivity | reflexivity
    | reflexivity | reflexivity |].
  exists acc1, acc2. split; [exact Hu|]. split; [exact Ht | exact Hd].
Defined.

(** X28 at the default EURUSD BUY trade on a fresh account. *)
Lemma open_then_close_charges_nothing_witness :
  exists acc1 acc2 : Account,
    start_trade fresh_account "0000000001" 0 "EURUSD" (default_request BUY)
    = Ok acc1
    /\ close_trade no_faults 1 acc1 "0000000001" = Ok acc2
    /\ dict_get "0000000001" (active_trades acc2) = None
    /\ balance (account_metrics acc2)
       == balance (account_metrics fresh_account).
Proof.
  eassert (Hs : start_trade fresh_account "0000000001" 0 "EURUSD"
                  (default_request BUY) = Ok _)
    by (vm_compute; reflexivity).
  destruct (open_then_close_charges_nothing no_faults 0 1 fresh_account _
              "0000000001" "EURUSD" (default_request BUY)
              (NoDup_nil_2 : unique_keys (active_trades fresh_account)) Hs)
    as (acc2 & Hc & Hl & Hb).
  eexists. exists acc2. split; [exact Hs|]. split; [exact Hc|].
  split; [exact Hl | exact Hb].
Defined.
